(** * The list pipeline of the CRM table views

    A shallow embedding of the client-side list processing of
    [src/pages/Meetings.tsx] and [src/components/LeadTable.tsx]
    (search, status and owner filters, column sort, pagination, bulk
    selection, fetch), with the properties the specification states
    about it.

    Conventions.
    - A JavaScript string is a [string]; its characters stand for the
      code units.  [toLowerCase] and [localeCompare] are the host's
      built-ins; they are modelled on Basic Latin (see [JS]).
    - A timestamp is the instant it denotes, in milliseconds since the
      epoch, as a [Z]; the clock and the time zone are parameters
      ([Host]).
    - An optional or nullable field is an [option]; [None] stands for
      both [undefined] and [null], which the code never tells apart.
    - React state is a record; a setter is a function on that record. *)

From Stdlib Require Import ZArith List String Ascii Bool Lia Permutation.
From Stdlib Require Import Sorted DecimalString DecimalNat OrderedTypeEx.
Import ListNotations.

Local Open Scope string_scope.
Local Open Scope list_scope.
Local Open Scope Z_scope.

(* ================================================================== *)
(** * The host: strings, arrays, truthiness *)

Module JS.

(** ** Strings *)

Definition is_upper (c : ascii) : bool :=
  ((65 <=? N_of_ascii c) && (N_of_ascii c <=? 90))%N.

Definition lower_char (c : ascii) : ascii :=
  if is_upper c then ascii_of_N (N_of_ascii c + 32) else c.

(** [String.prototype.toLowerCase], on Basic Latin: the letters A-Z
    go to a-z, every other code unit stays.  Beyond Basic Latin the
    host maps further letters, and a capital sigma by what stands
    around it; a property that holds of Basic Latin text only says so
    in a hypothesis ([Spec.basicLatin]). *)
Fixpoint toLowerCase (s : string) : string :=
  match s with
  | EmptyString => EmptyString
  | String c s' => String (lower_char c) (toLowerCase s')
  end.

Fixpoint startsWith (s t : string) {struct t} : bool :=
  match t, s with
  | EmptyString, _ => true
  | String _ _, EmptyString => false
  | String d t', String c s' => Ascii.eqb c d && startsWith s' t'
  end.

(** [s.includes(t)]: [t] occurs in [s] as a contiguous run. *)
Fixpoint includes (s t : string) : bool :=
  startsWith s t ||
  match s with
  | EmptyString => false
  | String _ s' => includes s' t
  end.

(** The relational operators [<] and [>] on two strings compare code
    units lexicographically. *)
Definition str_lt (s t : string) : bool :=
  match String.compare s t with Lt => true | _ => false end.

Definition str_gt (s t : string) : bool :=
  match String.compare s t with Gt => true | _ => false end.

(** [s.localeCompare(t)] with no locale and no options: the host's
    default collation, whose sensitivity is "variant", so that case
    is significant.  On Basic Latin letters the collation orders by
    the letters without their case first and, between strings that
    are equal up to case, puts the lower-case letter first at the
    first position that differs.  [caseTieBreak] is that second
    level.  Where the host orders digits and punctuation it need not
    follow the code units, as this order does. *)
Fixpoint caseTieBreak (s t : string) : Z :=
  match s, t with
  | String c s', String d t' =>
      if Ascii.eqb c d then caseTieBreak s' t'
      else if is_upper c then 1 else -1
  | _, _ => 0
  end.

Definition localeCompare (s t : string) : Z :=
  match String.compare (toLowerCase s) (toLowerCase t) with
  | Lt => -1
  | Gt => 1
  | Eq => caseTieBreak s t
  end.

(** ** Optional values and truthiness *)

(** [x || ''] on an optional string: [undefined], [null] and [''] all
    give ['']. *)
Definition orEmpty (x : option string) : string :=
  match x with
  | Some s => s
  | None => ""
  end.

(** A string is truthy when it is not empty. *)
Definition truthyStr (s : string) : bool :=
  negb (s =? "")%string.

(** The value of [x?.toLowerCase().includes(t)] is a boolean or
    [undefined]. *)
Definition truthy (v : option bool) : bool :=
  match v with
  | Some b => b
  | None => false
  end.

Definition or_ (a b : option bool) : option bool :=
  if truthy a then a else b.

Definition and_ (a b : option bool) : option bool :=
  if truthy a then b else a.

(** [x?.toLowerCase().includes(searchTerm.toLowerCase())] *)
Definition fieldIncludes (x : option string) (searchTerm : string)
  : option bool :=
  option_map (fun s => includes (toLowerCase s) (toLowerCase searchTerm)) x.

(** [x === s] for an optional string [x] and a string [s]. *)
Definition strictEq (x : option string) (s : string) : bool :=
  match x with
  | Some y => (y =? s)%string
  | None => false
  end.

(** [x || y] on two optional strings. *)
Definition orStr (x y : option string) : option string :=
  match x with
  | Some s => if truthyStr s then x else y
  | None => y
  end.

(** A value of type [string | number], as the sort keys are. *)
Inductive Value : Type :=
| VStr (s : string)
| VNum (n : Z).

(** [a < b] and [a > b] on two values of the same kind.  The host
    settles a comparison of a string with a number by converting
    the string; the sort keys of one column are of one kind, so that
    case is left [false] here. *)
Definition lt (a b : Value) : bool :=
  match a, b with
  | VStr s, VStr t => str_lt s t
  | VNum x, VNum y => x <? y
  | _, _ => false
  end.

Definition gt (a b : Value) : bool :=
  match a, b with
  | VStr s, VStr t => str_gt s t
  | VNum x, VNum y => x >? y
  | _, _ => false
  end.

(** ** Arrays *)

(** [Array.prototype.slice(start, end)]: a negative index counts from
    the end, both are clamped to the array. *)
Definition slice {A : Type} (l : list A) (start end_ : Z) : list A :=
  let len := Z.of_nat (List.length l) in
  let k := if start <? 0 then Z.max (len + start) 0 else Z.min start len in
  let final := if end_ <? 0 then Z.max (len + end_) 0 else Z.min end_ len in
  firstn (Z.to_nat (final - k)) (skipn (Z.to_nat k) l).

(** [Array.prototype.sort(compareFn)] is stable: [x] stays before the
    elements it does not compare greater than.  Insertion from the
    right gives that order. *)
Fixpoint insert {A : Type} (cmp : A -> A -> Z) (x : A) (l : list A) : list A :=
  match l with
  | [] => [x]
  | y :: l' => if cmp x y <=? 0 then x :: l else y :: insert cmp x l'
  end.

Fixpoint sort {A : Type} (cmp : A -> A -> Z) (l : list A) : list A :=
  match l with
  | [] => []
  | x :: l' => insert cmp x (sort cmp l')
  end.

(** [Math.ceil(n / d)] for a count [n] and a positive [d]. *)
Definition ceilDiv (n d : Z) : Z := (n + d - 1) / d.

(** [arr.includes(x)] on an array of strings. *)
Definition arrayIncludes (arr : list string) (x : string) : bool :=
  existsb (fun y => (y =? x)%string) arr.

(** [arr.filter(Boolean)] on an array of optional strings: [undefined],
    [null] and [''] go. *)
Definition filterBoolean (arr : list (option string)) : list string :=
  flat_map (fun x => match x with
                     | Some s => if truthyStr s then [s] else []
                     | None => []
                     end) arr.

(** [[...new Set(arr)]]: a set keeps its values in the order of their
    first insertion. *)
Fixpoint addAll (seen arr : list string) : list string :=
  match arr with
  | [] => seen
  | x :: arr' =>
      addAll (if arrayIncludes seen x then seen else seen ++ [x]) arr'
  end.

Definition uniq (arr : list string) : list string := addAll [] arr.

(** The decimal numeral of a length, as a template literal prints it. *)
Definition countToString (n : nat) : string :=
  NilEmpty.string_of_uint (Nat.to_uint n).

(** [x || null] on an optional string. *)
Definition orNull (x : option string) : option string :=
  match x with
  | Some s => if truthyStr s then x else None
  | None => None
  end.

End JS.

(** The clock ([new Date()]) and the local time zone, as minutes east
    of UTC, of the browser the page runs in. *)
Record Host : Type := mkHost {
  now : Z;
  tzOffsetMinutes : Z
}.

Inductive SortDirection : Type := asc | desc.

Record Toast : Type := mkToast {
  title : string;
  description : string;
  variant : string
}.

(* ================================================================== *)
(** * src/pages/Meetings.tsx *)

Module Meetings.
Import JS.

Record Meeting : Type := mkMeeting {
  id : string;
  subject : string;
  description : option string;
  start_time : Z;
  end_time : Z;
  join_url : option string;
  attendees : option string;
  lead_id : option string;
  contact_id : option string;
  created_by : option string;
  created_at : option string;
  status : string;
  outcome : option string;
  notes : option string;
  lead_name : option string;
  contact_name : option string
}.

(** Modelled from the spec: [getMeetingStatus] of
    [@/utils/meetingStatus], which Meetings.tsx imports and which is
    not among the sources.  Section 4.1 of the specification gives
    its algorithm, in priority order: a stored status of cancelled
    wins; else ongoing when [now >= startTime] and [now < endTime];
    else completed when [now >= endTime]; else scheduled. *)
Definition getMeetingStatus (h : Host) (meeting : Meeting) : string :=
  if (status meeting =? "cancelled")%string then "cancelled"
  else if (start_time meeting <=? now h) && (now h <? end_time meeting)
       then "ongoing"
  else if end_time meeting <=? now h then "completed"
  else "scheduled".

Definition getEffectiveStatus (h : Host) (meeting : Meeting) : string :=
  getMeetingStatus h meeting.

(** The state of the page.  [filteredMeetings] holds the last value of
    the memo [sortedAndFilteredMeetings]; it is what the table shows. *)
Record State : Type := mkState {
  meetings : list Meeting;
  filteredMeetings : list Meeting;
  loading : bool;
  searchTerm : string;
  selectedMeetings : list string;
  statusFilter : string;
  organizerFilter : string;
  sortColumn : option string;
  sortDirection : SortDirection;
  toasts : list Toast
}.

Definition matchesSearch (searchTerm : string) (meeting : Meeting)
  : option bool :=
  or_ (or_ (fieldIncludes (Some (subject meeting)) searchTerm)
           (fieldIncludes (lead_name meeting) searchTerm))
      (fieldIncludes (contact_name meeting) searchTerm).

Definition matchesStatus (h : Host) (statusFilter : string)
  (meeting : Meeting) : bool :=
  (statusFilter =? "all")%string
  || (getEffectiveStatus h meeting =? statusFilter)%string.

Definition matchesOrganizer (organizerFilter : string) (meeting : Meeting)
  : bool :=
  (organizerFilter =? "all")%string
  || strictEq (created_by meeting) organizerFilter.

(** The predicate handed to [meetings.filter]. *)
Definition passes (h : Host) (searchTerm statusFilter organizerFilter : string)
  (meeting : Meeting) : bool :=
  truthy (and_ (and_ (matchesSearch searchTerm meeting)
                     (Some (matchesStatus h statusFilter meeting)))
               (Some (matchesOrganizer organizerFilter meeting))).

Definition msPerMinute : Z := 60000.
Definition msPerDay : Z := 86400000.

(** Milliseconds since local midnight of the instant [t], under the
    one offset of the host; a zone that changes its offset in the
    course of the year is not told apart from one that keeps it. *)
Definition msOfDay (h : Host) (t : Z) : Z :=
  (t + tzOffsetMinutes h * msPerMinute) mod msPerDay.

(** [new Date(t).setHours(0, 0, 0, 0)] *)
Definition dateKey (h : Host) (t : Z) : Z := t - msOfDay h t.

(** [d.getHours() * 60 + d.getMinutes()] *)
Definition timeKey (h : Host) (t : Z) : Z := msOfDay h t / msPerMinute.

(** The column identifiers of [SortColumn], the cases of the
    comparator's [switch]. *)
Definition columns : list string :=
  ["subject"; "date"; "time"; "lead_contact"; "status"].

(** The [switch] of the comparator: the two keys, both [''] when no
    case matches. *)
Definition sortValues (h : Host) (sortColumn : string) (a b : Meeting)
  : Value * Value :=
  if (sortColumn =? "subject")%string then
    (VStr (orEmpty (option_map toLowerCase (Some (subject a)))),
     VStr (orEmpty (option_map toLowerCase (Some (subject b)))))
  else if (sortColumn =? "date")%string then
    (VNum (dateKey h (start_time a)), VNum (dateKey h (start_time b)))
  else if (sortColumn =? "time")%string then
    (VNum (timeKey h (start_time a)), VNum (timeKey h (start_time b)))
  else if (sortColumn =? "lead_contact")%string then
    (VStr (toLowerCase (orEmpty (orStr (lead_name a) (contact_name a)))),
     VStr (toLowerCase (orEmpty (orStr (lead_name b) (contact_name b)))))
  else if (sortColumn =? "status")%string then
    (VStr (getEffectiveStatus h a), VStr (getEffectiveStatus h b))
  else (VStr "", VStr "").

Definition compareMeetings (h : Host) (sortColumn : string)
  (sortDirection : SortDirection) (a b : Meeting) : Z :=
  let '(aValue, bValue) := sortValues h sortColumn a b in
  if lt aValue bValue then match sortDirection with asc => -1 | desc => 1 end
  else if gt aValue bValue then match sortDirection with asc => 1 | desc => -1 end
  else 0.

(** The body of the memo, which React recomputes when [meetings],
    [searchTerm], [statusFilter], [sortColumn] or [sortDirection]
    change. *)
Definition sortedAndFilteredMeetings (h : Host) (s : State) : list Meeting :=
  let filtered :=
    filter (passes h (searchTerm s) (statusFilter s) (organizerFilter s))
           (meetings s) in
  match sortColumn s with
  | Some c =>
      if truthyStr c
      then sort (compareMeetings h c (sortDirection s)) filtered
      else filtered
  | None => filtered
  end.

Definition setMeetings (v : list Meeting) (s : State) : State :=
  mkState v (filteredMeetings s) (loading s) (searchTerm s)
          (selectedMeetings s) (statusFilter s) (organizerFilter s)
          (sortColumn s) (sortDirection s) (toasts s).

Definition setLoading (v : bool) (s : State) : State :=
  mkState (meetings s) (filteredMeetings s) v (searchTerm s)
          (selectedMeetings s) (statusFilter s) (organizerFilter s)
          (sortColumn s) (sortDirection s) (toasts s).

Definition setSelectedMeetings (v : list string) (s : State) : State :=
  mkState (meetings s) (filteredMeetings s) (loading s) (searchTerm s)
          v (statusFilter s) (organizerFilter s)
          (sortColumn s) (sortDirection s) (toasts s).

Definition setSort (c : option string) (d : SortDirection) (s : State)
  : State :=
  mkState (meetings s) (filteredMeetings s) (loading s) (searchTerm s)
          (selectedMeetings s) (statusFilter s) (organizerFilter s)
          c d (toasts s).

Definition toast (t : Toast) (s : State) : State :=
  mkState (meetings s) (filteredMeetings s) (loading s) (searchTerm s)
          (selectedMeetings s) (statusFilter s) (organizerFilter s)
          (sortColumn s) (sortDirection s) (toasts s ++ [t]).

Definition sameColumn (x y : option string) : bool :=
  match x, y with
  | Some a, Some b => (a =? b)%string
  | None, None => true
  | _, _ => false
  end.

Definition handleSort (column : option string) (s : State) : State :=
  if sameColumn (sortColumn s) column
  then setSort (sortColumn s)
               (match sortDirection s with asc => desc | desc => asc end) s
  else setSort column asc s.

Definition handleSelectAll (checked : bool) (s : State) : State :=
  if checked
  then setSelectedMeetings (map id (filteredMeetings s)) s
  else setSelectedMeetings [] s.

Definition handleSelectMeeting (meetingId : string) (checked : bool)
  (s : State) : State :=
  if checked
  then setSelectedMeetings (selectedMeetings s ++ [meetingId]) s
  else setSelectedMeetings
         (filter (fun i => negb (i =? meetingId)%string) (selectedMeetings s))
         s.

Definition isAllSelected (s : State) : bool :=
  (0 <? Z.of_nat (List.length (filteredMeetings s)))
  && (Z.of_nat (List.length (selectedMeetings s))
      =? Z.of_nat (List.length (filteredMeetings s))).

Definition isSomeSelected (s : State) : bool :=
  (0 <? Z.of_nat (List.length (selectedMeetings s)))
  && (Z.of_nat (List.length (selectedMeetings s))
      <? Z.of_nat (List.length (filteredMeetings s))).

(** ** fetchMeetings *)

(** A row of the query: the meeting and the two joined records, each
    [null] or an object with a nullable name. *)
Record Row : Type := mkRow {
  row : Meeting;
  leads : option (option string);
  contacts : option (option string)
}.

(** What [await supabase.from('meetings').select(...).order(...)]
    comes to: the call throws, or it gives [{ data, error }]. *)
Inductive Response : Type :=
| Threw
| Resolved (data : option (list Row)) (error : option string).

(** The [try] block gets past [if (error) throw error]. *)
Definition succeeded (r : Response) : bool :=
  match r with
  | Resolved _ None => true
  | _ => false
  end.

Definition dataOf (r : Response) : list Row :=
  match r with
  | Resolved (Some d) _ => d
  | _ => []
  end.

(** [r.leads?.lead_name] *)
Definition joined (x : option (option string)) : option string :=
  match x with
  | Some n => n
  | None => None
  end.

Definition transform (r : Row) : Meeting :=
  let m := row r in
  mkMeeting (id m) (subject m) (description m) (start_time m) (end_time m)
            (join_url m) (attendees m) (lead_id m) (contact_id m)
            (created_by m) (created_at m) (status m) (outcome m) (notes m)
            (joined (leads r)) (joined (contacts r)).

Definition fetchError : Toast :=
  mkToast "Error" "Failed to fetch meetings" "destructive".

Definition fetchMeetings (r : Response) (s : State) : State :=
  let s1 := setLoading true s in
  let s2 :=
    match r with
    | Resolved data None =>
        let transformedData :=
          map transform (match data with Some d => d | None => [] end) in
        setSelectedMeetings [] (setMeetings transformedData s1)
    | Resolved _ (Some _) => toast fetchError s1
    | Threw => toast fetchError s1
    end in
  setLoading false s2.
(** ** Re-rendering

    The table shows [filteredMeetings], which an effect copies from the
    memo.  The memo is recomputed when one of its dependencies,
    [meetings], [searchTerm], [statusFilter], [sortColumn],
    [sortDirection], changed since the last render; [organizerFilter]
    is not among them.  A fetched array is always a new one. *)

Definition setFilteredMeetings (v : list Meeting) (s : State) : State :=
  mkState (meetings s) v (loading s) (searchTerm s)
          (selectedMeetings s) (statusFilter s) (organizerFilter s)
          (sortColumn s) (sortDirection s) (toasts s).

Definition setSearchTerm (v : string) (s : State) : State :=
  mkState (meetings s) (filteredMeetings s) (loading s) v
          (selectedMeetings s) (statusFilter s) (organizerFilter s)
          (sortColumn s) (sortDirection s) (toasts s).

Definition setStatusFilter (v : string) (s : State) : State :=
  mkState (meetings s) (filteredMeetings s) (loading s) (searchTerm s)
          (selectedMeetings s) v (organizerFilter s)
          (sortColumn s) (sortDirection s) (toasts s).

Definition setOrganizerFilter (v : string) (s : State) : State :=
  mkState (meetings s) (filteredMeetings s) (loading s) (searchTerm s)
          (selectedMeetings s) (statusFilter s) v
          (sortColumn s) (sortDirection s) (toasts s).

Definition sameDirection (x y : SortDirection) : bool :=
  match x, y with
  | asc, asc | desc, desc => true
  | _, _ => false
  end.

Definition memoDepsChanged (old new : State) : bool :=
  negb ((searchTerm old =? searchTerm new)%string
        && (statusFilter old =? statusFilter new)%string
        && sameColumn (sortColumn old) (sortColumn new)
        && sameDirection (sortDirection old) (sortDirection new)).

Definition rerender (h : Host) (newMeetings : bool) (old new : State) : State :=
  if newMeetings || memoDepsChanged old new
  then setFilteredMeetings (sortedAndFilteredMeetings h new) new
  else new.

(** The events of the page, each followed by its re-render. *)
Definition typeSearch (h : Host) (v : string) (s : State) : State :=
  rerender h false s (setSearchTerm v s).

Definition pickStatus (h : Host) (v : string) (s : State) : State :=
  rerender h false s (setStatusFilter v s).

Definition pickOrganizer (h : Host) (v : string) (s : State) : State :=
  rerender h false s (setOrganizerFilter v s).

Definition clickSort (h : Host) (column : option string) (s : State) : State :=
  rerender h false s (handleSort column s).

Definition load (h : Host) (r : Response) (s : State) : State :=
  rerender h (succeeded r) s (fetchMeetings r s).

(** The checkbox of a row: [selectedMeetings.includes(meeting.id)]. *)
Definition rowChecked (s : State) (meeting : Meeting) : bool :=
  arrayIncludes (selectedMeetings s) (id meeting).

(** ** Deleting *)

(** What [await supabase.from('meetings').delete()...] comes to. *)
Inductive DeleteReply : Type :=
| DeleteThrew
| DeleteResolved (error : option string).

Definition deleted (d : DeleteReply) : bool :=
  match d with
  | DeleteResolved None => true
  | _ => false
  end.

Definition deleteSuccess : Toast :=
  mkToast "Success" "Meeting deleted successfully" "".

Definition deleteError : Toast :=
  mkToast "Error" "Failed to delete meeting" "destructive".

Definition bulkDeleteSuccess (n : nat) : Toast :=
  mkToast "Success"
          (countToString n ++ " meeting(s) deleted successfully")%string "".

Definition bulkDeleteError : Toast :=
  mkToast "Error" "Failed to delete meetings" "destructive".

(** [handleDelete(id)]: the reply to the delete, then, after a success,
    the fetch it starts. *)
Definition handleDelete (d : DeleteReply) (r : Response) (s : State) : State :=
  if deleted d
  then fetchMeetings r (toast deleteSuccess s)
  else toast deleteError s.

Definition handleBulkDelete (d : DeleteReply) (r : Response) (s : State)
  : State :=
  if deleted d
  then fetchMeetings r
         (setSelectedMeetings []
            (toast (bulkDeleteSuccess (List.length (selectedMeetings s))) s))
  else toast bulkDeleteError s.

(** [[...new Set(meetings.map(m => m.created_by).filter(Boolean))]] *)
Definition organizerIds (s : State) : list string :=
  uniq (filterBoolean (map created_by (meetings s))).
End Meetings.

(* ================================================================== *)
(** * src/components/LeadTable.tsx *)

Module LeadTable.
Import JS.

(** The value of a property of a stored lead, as far as the sort tells
    values apart: none ([undefined] or [null]), a string, a plain
    object, or a value of another kind (a number, a boolean, an
    array), of which the comparator uses the truthiness and the string
    that [toString()] gives. *)
Inductive Property : Type :=
| Undefined
| Text (s : string)
| Object
| Other (truthy : bool) (shown : string).

(** A lead as the table stores it.  The interface names eighteen
    properties; the objects come from [select('*, accounts:account_id
    (company_name)')] and are copied by spread, so each also keeps the
    joined account ([null], or an object with a nullable company name)
    and whatever further columns the query returned. *)
Record Lead : Type := mkLead {
  id : string;
  lead_name : string;
  company_name : option string;
  account_company_name : option string;
  account_id : option string;
  position : option string;
  email : option string;
  phone_no : option string;
  contact_owner : option string;
  created_time : option string;
  modified_time : option string;
  lead_status : option string;
  contact_source : option string;
  linkedin : option string;
  website : option string;
  description : option string;
  created_by : option string;
  modified_by : option string;
  accounts : option (option string);
  others : list (string * Property)
}.

Definition ofOption (x : option string) : Property :=
  match x with
  | Some s => Text s
  | None => Undefined
  end.

Fixpoint lookup (field : string) (l : list (string * Property)) : Property :=
  match l with
  | [] => Undefined
  | (k, v) :: l' => if (k =? field)%string then v else lookup field l'
  end.

(** [lead[field as keyof Lead]]: the value of the property, or
    [undefined] when the lead has none of that name.  The cast is
    erased: any property the object carries is found. *)
Definition getField (field : string) (lead : Lead) : Property :=
  if (field =? "id")%string then Text (id lead)
  else if (field =? "lead_name")%string then Text (lead_name lead)
  else if (field =? "company_name")%string then ofOption (company_name lead)
  else if (field =? "account_company_name")%string
       then ofOption (account_company_name lead)
  else if (field =? "account_id")%string then ofOption (account_id lead)
  else if (field =? "position")%string then ofOption (position lead)
  else if (field =? "email")%string then ofOption (email lead)
  else if (field =? "phone_no")%string then ofOption (phone_no lead)
  else if (field =? "contact_owner")%string
       then ofOption (contact_owner lead)
  else if (field =? "created_time")%string then ofOption (created_time lead)
  else if (field =? "modified_time")%string
       then ofOption (modified_time lead)
  else if (field =? "lead_status")%string then ofOption (lead_status lead)
  else if (field =? "contact_source")%string
       then ofOption (contact_source lead)
  else if (field =? "linkedin")%string then ofOption (linkedin lead)
  else if (field =? "website")%string then ofOption (website lead)
  else if (field =? "description")%string then ofOption (description lead)
  else if (field =? "created_by")%string then ofOption (created_by lead)
  else if (field =? "modified_by")%string then ofOption (modified_by lead)
  else if (field =? "accounts")%string
       then match accounts lead with
            | Some _ => Object
            | None => Undefined
            end
  else lookup field (others lead).

(** [value || '']: a falsy value gives way to the empty string. *)
Definition orEmptyValue (p : Property) : Property :=
  match p with
  | Undefined => Text ""
  | Text s => Text s
  | Object => Object
  | Other truthy shown => if truthy then p else Text ""
  end.

(** [value.toString()].  On [undefined] and [null] the call throws; the
    comparator calls it after [|| ''] only, where neither arrives. *)
Definition toString (p : Property) : string :=
  match p with
  | Undefined => ""
  | Text s => s
  | Object => "[object Object]"
  | Other _ shown => shown
  end.

Definition keysOfLead : list string :=
  ["id"; "lead_name"; "company_name"; "account_company_name"; "account_id";
   "position"; "email"; "phone_no"; "contact_owner"; "created_time";
   "modified_time"; "lead_status"; "contact_source"; "linkedin"; "website";
   "description"; "created_by"; "modified_by"].

Record State : Type := mkState {
  leads : list Lead;
  filteredLeads : list Lead;
  searchTerm : string;
  statusFilter : string;
  ownerFilter : string;
  currentPage : Z;
  itemsPerPage : Z;
  sortField : option string;
  sortDirection : SortDirection;
  selectedLeads : list string
}.

(** ** The filter and sort effect *)

Definition matchesSearch (searchTerm : string) (lead : Lead) : option bool :=
  or_ (or_ (fieldIncludes (Some (lead_name lead)) searchTerm)
           (fieldIncludes (company_name lead) searchTerm))
      (fieldIncludes (email lead) searchTerm).

Definition searchStep (searchTerm : string) (l : list Lead) : list Lead :=
  filter (fun lead => truthy (matchesSearch searchTerm lead)) l.

Definition statusStep (statusFilter : string) (l : list Lead) : list Lead :=
  if negb (statusFilter =? "all")%string
  then filter (fun lead => strictEq (lead_status lead) statusFilter) l
  else l.

Definition ownerStep (ownerFilter : string) (l : list Lead) : list Lead :=
  if negb (ownerFilter =? "all")%string
  then filter (fun lead => strictEq (created_by lead) ownerFilter) l
  else l.

Definition compareLeads (sortField : string) (sortDirection : SortDirection)
  (a b : Lead) : Z :=
  let aValue := orEmptyValue (getField sortField a) in
  let bValue := orEmptyValue (getField sortField b) in
  let comparison := localeCompare (toString aValue) (toString bValue) in
  match sortDirection with
  | asc => comparison
  | desc => - comparison
  end.

Definition sortStep (sortField : option string) (sortDirection : SortDirection)
  (l : list Lead) : list Lead :=
  match sortField with
  | Some f => if truthyStr f then sort (compareLeads f sortDirection) l else l
  | None => l
  end.

Definition filtered (s : State) : list Lead :=
  sortStep (sortField s) (sortDirection s)
    (ownerStep (ownerFilter s)
       (statusStep (statusFilter s)
          (searchStep (searchTerm s) (leads s)))).

(** The body of the effect: [setFilteredLeads(filtered)] and
    [setCurrentPage(1)]. *)
Definition filterEffect (s : State) : State :=
  mkState (leads s) (filtered s) (searchTerm s) (statusFilter s)
          (ownerFilter s) 1 (itemsPerPage s) (sortField s)
          (sortDirection s) (selectedLeads s).

(** ** The state changes the effect depends on

    A setter that changes one of [leads], [searchTerm],
    [statusFilter], [ownerFilter], [sortField], [sortDirection]
    re-renders and the effect runs; setting the value a state
    already has does nothing. *)

Definition setLeads (v : list Lead) (s : State) : State :=
  filterEffect
    (mkState v (filteredLeads s) (searchTerm s) (statusFilter s)
             (ownerFilter s) (currentPage s) (itemsPerPage s) (sortField s)
             (sortDirection s) (selectedLeads s)).

Definition setSearchTerm (v : string) (s : State) : State :=
  if (v =? searchTerm s)%string then s
  else filterEffect
         (mkState (leads s) (filteredLeads s) v (statusFilter s)
                  (ownerFilter s) (currentPage s) (itemsPerPage s)
                  (sortField s) (sortDirection s) (selectedLeads s)).

Definition setStatusFilter (v : string) (s : State) : State :=
  if (v =? statusFilter s)%string then s
  else filterEffect
         (mkState (leads s) (filteredLeads s) (searchTerm s) v
                  (ownerFilter s) (currentPage s) (itemsPerPage s)
                  (sortField s) (sortDirection s) (selectedLeads s)).

Definition setOwnerFilter (v : string) (s : State) : State :=
  if (v =? ownerFilter s)%string then s
  else filterEffect
         (mkState (leads s) (filteredLeads s) (searchTerm s) (statusFilter s)
                  v (currentPage s) (itemsPerPage s)
                  (sortField s) (sortDirection s) (selectedLeads s)).

Definition setSort (f : option string) (d : SortDirection) (s : State)
  : State :=
  filterEffect
    (mkState (leads s) (filteredLeads s) (searchTerm s) (statusFilter s)
             (ownerFilter s) (currentPage s) (itemsPerPage s) f d
             (selectedLeads s)).

(** [handleSort] always changes the field or the direction. *)
Definition handleSort (field : string) (s : State) : State :=
  if strictEq (sortField s) field
  then setSort (sortField s)
               (match sortDirection s with asc => desc | desc => asc end) s
  else setSort (Some field) asc s.

(** ** Pagination and selection *)

Definition setCurrentPage (v : Z) (s : State) : State :=
  mkState (leads s) (filteredLeads s) (searchTerm s) (statusFilter s)
          (ownerFilter s) v (itemsPerPage s) (sortField s)
          (sortDirection s) (selectedLeads s).

Definition setSelectedLeads (v : list string) (s : State) : State :=
  mkState (leads s) (filteredLeads s) (searchTerm s) (statusFilter s)
          (ownerFilter s) (currentPage s) (itemsPerPage s) (sortField s)
          (sortDirection s) v.

Definition pageOf (l : list Lead) (page pageSize : Z) : list Lead :=
  let startIndex := (page - 1) * pageSize in
  slice l startIndex (startIndex + pageSize).

Definition getCurrentPageLeads (s : State) : list Lead :=
  pageOf (filteredLeads s) (currentPage s) (itemsPerPage s).

Definition totalPages (s : State) : Z :=
  ceilDiv (Z.of_nat (List.length (filteredLeads s))) (itemsPerPage s).

Definition handleSelectAll (checked : bool) (s : State) : State :=
  if checked
  then
    let pageLeads := slice (getCurrentPageLeads s) 0 50 in
    setSelectedLeads (map id pageLeads) s
  else setSelectedLeads [] s.

Definition handleSelectLead (leadId : string) (checked : bool) (s : State)
  : State :=
  if checked
  then setSelectedLeads (selectedLeads s ++ [leadId]) s
  else setSelectedLeads
         (filter (fun i => negb (i =? leadId)%string) (selectedLeads s)) s.

(** The two page buttons, shown when [totalPages > 1] and disabled at
    the first and at the last page. *)
Definition previousPage (s : State) : State :=
  if (1 <? totalPages s) && negb (currentPage s =? 1)
  then setCurrentPage (Z.max 1 (currentPage s - 1)) s
  else s.

Definition nextPage (s : State) : State :=
  if (1 <? totalPages s) && negb (currentPage s =? totalPages s)
  then setCurrentPage (Z.min (totalPages s) (currentPage s + 1)) s
  else s.

Definition initial (initialStatus : string) : State :=
  mkState [] [] "" initialStatus "all" 1 50 None asc [].

(** What the user and the fetch can do to a table. *)
Inductive step : State -> State -> Prop :=
| step_leads v s : step s (setLeads v s)
| step_search v s : step s (setSearchTerm v s)
| step_status v s : step s (setStatusFilter v s)
| step_owner v s : step s (setOwnerFilter v s)
| step_sort f s : step s (handleSort f s)
| step_previous s : step s (previousPage s)
| step_next s : step s (nextPage s)
| step_select_all c s : step s (handleSelectAll c s)
| step_select i c s : step s (handleSelectLead i c s).

Inductive reachable (initialStatus : string) : State -> Prop :=
| reach_initial : reachable initialStatus (initial initialStatus)
| reach_step s s' :
    reachable initialStatus s -> step s s' -> reachable initialStatus s'.
(** ** The rest of the component

    The state the table keeps beside [State]. *)
Record Page : Type := mkPage {
  table : State;
  loading : bool;
  toasts : list Toast;
  leadToDelete : option Lead;
  showDeleteDialog : bool;
  leadToConvert : option Lead
}.

Definition onTable (f : State -> State) (p : Page) : Page :=
  mkPage (f (table p)) (loading p) (toasts p) (leadToDelete p)
         (showDeleteDialog p) (leadToConvert p).

Definition setLoading (v : bool) (p : Page) : Page :=
  mkPage (table p) v (toasts p) (leadToDelete p) (showDeleteDialog p)
         (leadToConvert p).

Definition toast (t : Toast) (p : Page) : Page :=
  mkPage (table p) (loading p) (toasts p ++ [t]) (leadToDelete p)
         (showDeleteDialog p) (leadToConvert p).

Definition setLeadToDelete (v : option Lead) (p : Page) : Page :=
  mkPage (table p) (loading p) (toasts p) v (showDeleteDialog p)
         (leadToConvert p).

Definition setShowDeleteDialog (v : bool) (p : Page) : Page :=
  mkPage (table p) (loading p) (toasts p) (leadToDelete p) v
         (leadToConvert p).

Definition setLeadToConvert (v : option Lead) (p : Page) : Page :=
  mkPage (table p) (loading p) (toasts p) (leadToDelete p)
         (showDeleteDialog p) v.

(** The line under the table: "Showing from-to of n leads". *)
Definition showingFrom (s : State) : Z :=
  if 0 <? Z.of_nat (List.length (filteredLeads s))
  then (currentPage s - 1) * itemsPerPage s + 1
  else 0.

Definition showingTo (s : State) : Z :=
  Z.min (currentPage s * itemsPerPage s)
        (Z.of_nat (List.length (filteredLeads s))).

(** The checkbox of the header and the one of a row. *)
Definition headerChecked (s : State) : bool :=
  (0 <? Z.of_nat (List.length (selectedLeads s)))
  && (Z.of_nat (List.length (selectedLeads s))
      =? Z.min (Z.of_nat (List.length (getCurrentPageLeads s))) 50).

Definition rowChecked (s : State) (lead : Lead) : bool :=
  arrayIncludes (selectedLeads s) (id lead).

(** [[...new Set(leads.map(l => l.created_by).filter(Boolean))]] *)
Definition createdByIds (s : State) : list string :=
  uniq (filterBoolean (map created_by (leads s))).

(** ** fetchLeads *)

(** A row of the query: the columns of the lead and the joined
    account, the shape in which the table goes on to store it. *)
Definition Row : Type := Lead.

Inductive Response : Type :=
| Threw
| Resolved (data : option (list Row)) (error : option string).

Definition succeeded (r : Response) : bool :=
  match r with
  | Resolved _ None => true
  | _ => false
  end.

Definition dataOf (r : Response) : list Row :=
  match r with
  | Resolved (Some d) _ => d
  | _ => []
  end.

(** [lead.accounts?.company_name] *)
Definition joined (x : option (option string)) : option string :=
  match x with
  | Some n => n
  | None => None
  end.

(** [{...lead, account_company_name:
      lead.accounts?.company_name || lead.company_name || null}] *)
Definition transform (lead : Row) : Lead :=
  mkLead (id lead) (lead_name lead) (company_name lead)
         (orNull (orStr (joined (accounts lead)) (company_name lead)))
         (account_id lead) (position lead) (email lead) (phone_no lead)
         (contact_owner lead) (created_time lead) (modified_time lead)
         (lead_status lead) (contact_source lead) (linkedin lead)
         (website lead) (description lead) (created_by lead)
         (modified_by lead) (accounts lead) (others lead).

Definition fetchError : Toast :=
  mkToast "Error" "Failed to fetch leads" "destructive".

Definition fetchLeads (r : Response) (p : Page) : Page :=
  let p1 := setLoading true p in
  let p2 :=
    match r with
    | Resolved data None =>
        let transformedData :=
          map transform (match data with Some d => d | None => [] end) in
        onTable (setLeads transformedData) p1
    | Resolved _ (Some _) => toast fetchError p1
    | Threw => toast fetchError p1
    end in
  setLoading false p2.

(** ** handleConvertSuccess *)

Definition markConverted (leadId : string) (lead : Lead) : Lead :=
  if (id lead =? leadId)%string
  then mkLead (id lead) (lead_name lead) (company_name lead)
              (account_company_name lead) (account_id lead) (position lead)
              (email lead) (phone_no lead) (contact_owner lead)
              (created_time lead) (modified_time lead) (Some "Converted")
              (contact_source lead) (linkedin lead) (website lead)
              (description lead) (created_by lead) (modified_by lead)
              (accounts lead) (others lead)
  else lead.

(** What an awaited request that carries no data comes to: it throws,
    with a message, or it gives [{ error }]. *)
Inductive Reply : Type :=
| Rejected (message : string)
| Replied (error : option string).

(** The first half, up to the reply to the update: the lead is marked
    in the table when the update reported no error. *)
Definition convertLocally (u : Reply) (p : Page) : Page :=
  match leadToConvert p, u with
  | Some lead, Replied None =>
      onTable (fun s => setLeads (map (markConverted (id lead)) (leads s)) s) p
  | _, _ => p
  end.

Definition handleConvertSuccess (u : Reply) (r : Response) (p : Page) : Page :=
  setLeadToConvert None (fetchLeads r (convertLocally u p)).

(** ** handleDelete *)

(** The requests the deletion of a lead sends. *)
Inductive Request : Type :=
| DeleteNotificationsOfLeadAndItems (leadId : string)
| DeleteNotificationsOfLead (leadId : string)
| SelectActionItems (leadId : string)
| DeleteNotificationsOfItems (actionItemIds : list string)
| DeleteActionItems (leadId : string)
| DeleteLead (leadId : string)
| LogDelete (leadId : string).

Inductive SelectReply : Type :=
| SelectRejected (message : string)
| SelectReplied (data : option (list string)).

(** The reply each request gets, should it be sent. *)
Record Replies : Type := mkReplies {
  onDeleteNotifications : Reply;
  onDeleteNotificationsOfLead : Reply;
  onSelectActionItems : SelectReply;
  onDeleteNotificationsOfItems : Reply;
  onDeleteActionItems : Reply;
  onDeleteLead : Reply;
  onLogDelete : option string;
  onFetch : Response
}.

(** The body of the [try]: the requests sent so far, and a thrown
    message or a value. *)
Definition Flow (A : Type) : Type :=
  list Request -> list Request * (string + A).

Definition ret {A : Type} (a : A) : Flow A := fun log => (log, inr a).

Definition throw {A : Type} (message : string) : Flow A :=
  fun log => (log, inl message).

Definition bind {A B : Type} (c : Flow A) (k : A -> Flow B) : Flow B :=
  fun log =>
    match c log with
    | (log', inl message) => (log', inl message)
    | (log', inr a) => k a log'
    end.

Notation "x <- c ;; k" := (bind c (fun x => k))
  (at level 61, c at next level, right associativity).
Notation "c ;;; k" := (bind c (fun _ => k))
  (at level 61, right associativity).

(** [const { error } = await request] *)
Definition await (q : Request) (reply : Reply) : Flow (option string) :=
  fun log =>
    (log ++ [q],
     match reply with
     | Rejected message => inl message
     | Replied error => inr error
     end).

Definition awaitSelect (q : Request) (reply : SelectReply)
  : Flow (option (list string)) :=
  fun log =>
    (log ++ [q],
     match reply with
     | SelectRejected message => inl message
     | SelectReplied data => inr data
     end).

Definition awaitLog (q : Request) (reply : option string) : Flow unit :=
  fun log =>
    (log ++ [q],
     match reply with
     | Some message => inl message
     | None => inr tt
     end).

Definition deleteNotifications (leadId : string) (o : Replies) : Flow unit :=
  allNotificationsError <-
    await (DeleteNotificationsOfLeadAndItems leadId) (onDeleteNotifications o) ;;
  match allNotificationsError with
  | Some _ =>
      await (DeleteNotificationsOfLead leadId) (onDeleteNotificationsOfLead o) ;;;
      actionItems <- awaitSelect (SelectActionItems leadId) (onSelectActionItems o) ;;
      match actionItems with
      | Some (i :: ids) =>
          await (DeleteNotificationsOfItems (i :: ids))
                (onDeleteNotificationsOfItems o) ;;;
          ret tt
      | _ => ret tt
      end
  | None => ret tt
  end.

Definition deleteLinked (leadId : string) (o : Replies) : Flow unit :=
  deleteNotifications leadId o ;;;
  actionItemsError <- await (DeleteActionItems leadId) (onDeleteActionItems o) ;;
  match actionItemsError with
  | Some message => throw message
  | None => ret tt
  end.

Definition deletion (leadId : string) (deleteLinkedRecords : bool) (o : Replies)
  : Flow unit :=
  (if deleteLinkedRecords then deleteLinked leadId o else ret tt) ;;;
  error <- await (DeleteLead leadId) (onDeleteLead o) ;;
  match error with
  | Some message => throw message
  | None => awaitLog (LogDelete leadId) (onLogDelete o)
  end.

Definition noLeadSelected : Toast :=
  mkToast "Error" "No lead selected for deletion" "destructive".

Definition invalidLeadId : Toast :=
  mkToast "Error" "Invalid lead ID" "destructive".

Definition deleteSuccess : Toast :=
  mkToast "Success" "Lead deleted successfully" "".

(** [error.message || "Failed to delete lead"] *)
Definition deleteFailed (message : string) : Toast :=
  mkToast "Error"
          (if truthyStr message then message else "Failed to delete lead")
          "destructive".

(** [handleDelete(deleteLinkedRecords)]: the requests it sends and the
    page it leaves. *)
Definition handleDelete (deleteLinkedRecords : bool) (o : Replies) (p : Page)
  : list Request * Page :=
  match leadToDelete p with
  | None => ([], toast noLeadSelected p)
  | Some lead =>
      if negb (truthyStr (id lead)) then ([], toast invalidLeadId p)
      else
        match deletion (id lead) deleteLinkedRecords o [] with
        | (log, inr _) =>
            (log,
             setShowDeleteDialog false
               (setLeadToDelete None
                  (fetchLeads (onFetch o) (toast deleteSuccess p))))
        | (log, inl message) => (log, toast (deleteFailed message) p)
        end
  end.
End LeadTable.

(* ================================================================== *)
(** * ContactTableHeader, in src/components/LeadTable.tsx *)

Module ContactTableHeader.
Import JS.

Record Contact : Type := mkContact {
  id : string;
  contact_name : string;
  company_name : option string;
  email : option string
}.

(** The selection [handleSelectAll] sets. *)
Definition handleSelectAll (checked : bool) (pageContacts : list Contact)
  : list string :=
  if checked
  then
    let pageContactIds := map id (slice pageContacts 0 50) in
    pageContactIds
  else [].
End ContactTableHeader.

(* ================================================================== *)
(** * src/pages/Leads.tsx *)

Module Leads.
Import JS.

(** The state of the page and of the table it renders; the selection,
    which the page owns and hands to the table, is the one of the
    table's state. *)
Record State : Type := mkState {
  table : LeadTable.Page;
  refreshTrigger : nat;
  showBulkDeleteDialog : bool;
  initialStatus : string
}.

(** The [key] of the table: [`${refreshTrigger}-${initialStatus}`]. *)
Definition tableKey (s : State) : string :=
  (countToString (refreshTrigger s) ++ "-" ++ initialStatus s)%string.

(** A table mounted anew: every state of its own at its initial value,
    the selection as the page holds it. *)
Definition mounted (initialStatus : string) (selectedLeads : list string)
  (toasts : list Toast) : LeadTable.Page :=
  LeadTable.mkPage
    (LeadTable.setSelectedLeads selectedLeads (LeadTable.initial initialStatus))
    true toasts None false None.

Definition setTable (v : LeadTable.Page) (s : State) : State :=
  mkState v (refreshTrigger s) (showBulkDeleteDialog s) (initialStatus s).

(** React keeps the table while its key stays and replaces it by a new
    one, which fetches the leads, when the key changes. *)
Definition rerender (r : LeadTable.Response) (old new : State) : State :=
  if (tableKey old =? tableKey new)%string then new
  else
    setTable
      (LeadTable.fetchLeads r
         (mounted (initialStatus new)
                  (LeadTable.selectedLeads (LeadTable.table (table new)))
                  (LeadTable.toasts (table new))))
      new.

(** [handleBulkDelete], on the [success] of [deleteLeads]. *)
Definition handleBulkDelete (success : bool) (r : LeadTable.Response)
  (s : State) : State :=
  if Nat.eqb (List.length (LeadTable.selectedLeads (LeadTable.table (table s)))) 0
  then s
  else if success
  then
    rerender r s
      (mkState (LeadTable.onTable (LeadTable.setSelectedLeads []) (table s))
               (refreshTrigger s + 1) false (initialStatus s))
  else s.

Definition handleBulkDeleteClick (s : State) : State :=
  if Nat.eqb (List.length (LeadTable.selectedLeads (LeadTable.table (table s)))) 0
  then s
  else mkState (table s) (refreshTrigger s) true (initialStatus s).
End Leads.

(* ================================================================== *)
(** * AccountTable, in src/components/settings/IntegrationSettings.tsx *)

Module AccountTable.
Import JS.

(** [score] is a number; nothing modelled here reads it. *)
Record Account : Type := mkAccount {
  id : string;
  company_name : string;
  region : option string;
  country : option string;
  website : option string;
  company_type : option string;
  tags : option (list string);
  status : option string;
  notes : option string;
  account_owner : option string;
  industry : option string;
  phone : option string;
  email : option string;
  created_at : option string;
  updated_at : option string;
  created_by : option string;
  modified_by : option string;
  score : option Z;
  segment : option string
}.

(** The state [handleDelete] and [fetchAccounts] set. *)
Record Page : Type := mkPage {
  accounts : list Account;
  loading : bool;
  toasts : list Toast;
  accountToDelete : option Account;
  showDeleteDialog : bool
}.

Definition toast (t : Toast) (p : Page) : Page :=
  mkPage (accounts p) (loading p) (toasts p ++ [t]) (accountToDelete p)
         (showDeleteDialog p).

Definition setShowDeleteDialog (v : bool) (p : Page) : Page :=
  mkPage (accounts p) (loading p) (toasts p) (accountToDelete p) v.

Definition setAccountToDelete (v : option Account) (p : Page) : Page :=
  mkPage (accounts p) (loading p) (toasts p) v (showDeleteDialog p).

Inductive Response : Type :=
| Threw
| Resolved (data : option (list Account)) (error : option string).

Definition fetchError : Toast :=
  mkToast "Error" "Failed to fetch accounts" "destructive".

Definition fetchAccounts (r : Response) (p : Page) : Page :=
  match r with
  | Resolved data None =>
      mkPage (match data with Some d => d | None => [] end) false (toasts p)
             (accountToDelete p) (showDeleteDialog p)
  | _ =>
      mkPage (accounts p) false (toasts p ++ [fetchError]) (accountToDelete p)
             (showDeleteDialog p)
  end.

Inductive Request : Type :=
| SelectLinkedContacts (accountId : string)
| SelectLinkedLeads (accountId : string)
| DeleteAccount (accountId : string)
| LogDelete (accountId : string).

(** The reply to a select: it throws, or it gives [{ data }], the ids
    found or [null]. *)
Inductive SelectReply : Type :=
| SelectRejected (message : string)
| SelectReplied (data : option (list string)).

Inductive Reply : Type :=
| Rejected (message : string)
| Replied (error : option string).

Record Replies : Type := mkReplies {
  onLinkedContacts : SelectReply;
  onLinkedLeads : SelectReply;
  onDeleteAccount : Reply;
  onLogDelete : option string;
  onFetch : Response
}.

(** [data && data.length > 0] *)
Definition nonEmpty (data : option (list string)) : bool :=
  match data with
  | Some (_ :: _) => true
  | _ => false
  end.

Definition cannotDelete : Toast :=
  mkToast "Cannot Delete"
          "This account has linked contacts or leads. Please unlink them first."
          "destructive".

Definition deleteSuccess : Toast :=
  mkToast "Success" "Account deleted successfully" "".

Definition deleteFailed (message : string) : Toast :=
  mkToast "Error"
          (if truthyStr message then message else "Failed to delete account")
          "destructive".

(** [handleDelete]: the requests it sends and the page it leaves. *)
Definition handleDelete (o : Replies) (p : Page) : list Request * Page :=
  match accountToDelete p with
  | None => ([], p)
  | Some account =>
      if negb (truthyStr (id account)) then ([], p)
      else
        let i := id account in
        match onLinkedContacts o with
        | SelectRejected message =>
            ([SelectLinkedContacts i], toast (deleteFailed message) p)
        | SelectReplied linkedContacts =>
            match onLinkedLeads o with
            | SelectRejected message =>
                ([SelectLinkedContacts i; SelectLinkedLeads i],
                 toast (deleteFailed message) p)
            | SelectReplied linkedLeads =>
                if nonEmpty linkedContacts || nonEmpty linkedLeads
                then
                  ([SelectLinkedContacts i; SelectLinkedLeads i],
                   setShowDeleteDialog false (toast cannotDelete p))
                else
                  match onDeleteAccount o with
                  | Rejected message | Replied (Some message) =>
                      ([SelectLinkedContacts i; SelectLinkedLeads i;
                        DeleteAccount i],
                       toast (deleteFailed message) p)
                  | Replied None =>
                      match onLogDelete o with
                      | Some message =>
                          ([SelectLinkedContacts i; SelectLinkedLeads i;
                            DeleteAccount i; LogDelete i],
                           toast (deleteFailed message) p)
                      | None =>
                          ([SelectLinkedContacts i; SelectLinkedLeads i;
                            DeleteAccount i; LogDelete i],
                           setShowDeleteDialog false
                             (setAccountToDelete None
                                (fetchAccounts (onFetch o)
                                   (toast deleteSuccess p))))
                      end
                  end
            end
        end
  end.
End AccountTable.

(* ================================================================== *)
(** * The specification's wording of the steps *)

Module Spec.
Import JS.

(** The search step: some searchable text field, lower-cased, with a
    missing or null field read as the empty string, contains the
    lower-cased search term. *)
Definition searchPasses (fields : list (option string)) (searchTerm : string)
  : bool :=
  existsb (fun f => includes (toLowerCase (orEmpty f)) (toLowerCase searchTerm))
          fields.

Definition meetingFields (m : Meetings.Meeting) : list (option string) :=
  [Some (Meetings.subject m); Meetings.lead_name m; Meetings.contact_name m].

Definition leadFields (l : LeadTable.Lead) : list (option string) :=
  [Some (LeadTable.lead_name l); LeadTable.company_name l; LeadTable.email l].

(** The three conjuncts of the Leads filter, one predicate each; the
    sentinel "all" makes a filter a no-op. *)
Definition leadSearch (searchTerm : string) (l : LeadTable.Lead) : bool :=
  truthy (LeadTable.matchesSearch searchTerm l).

Definition leadStatus (statusFilter : string) (l : LeadTable.Lead) : bool :=
  (statusFilter =? "all")%string
  || strictEq (LeadTable.lead_status l) statusFilter.

Definition leadOwner (ownerFilter : string) (l : LeadTable.Lead) : bool :=
  (ownerFilter =? "all")%string
  || strictEq (LeadTable.created_by l) ownerFilter.

(** Two strings that differ in letter case only: of the same length
    and, place by place, the same code unit or a letter and its
    other case. *)
Inductive sameUpToCase : string -> string -> Prop :=
| same_empty : sameUpToCase "" ""
| same_unit c s t :
    sameUpToCase s t -> sameUpToCase (String c s) (String c t)
| same_upper_lower c s t :
    is_upper c = true ->
    sameUpToCase s t -> sameUpToCase (String c s) (String (lower_char c) t)
| same_lower_upper c s t :
    is_upper c = true ->
    sameUpToCase s t -> sameUpToCase (String (lower_char c) s) (String c t).

(** The page numbers of a table of [total] pages: 1 to [total]. *)
Definition pageNumbers (total : Z) : list Z :=
  map Z.of_nat (seq 1 (Z.to_nat total)).

(** [after] holds one more entry than [before], an [i]. *)
Definition addsOne (i : string) (before after : list string) : Prop :=
  forall j, count_occ string_dec after j
            = (count_occ string_dec before j
               + if string_dec i j then 1 else 0)%nat.

(** [after] is [before] without [i]: no [i] is left, every other id
    keeps its entries, and the order is the one of [before]. *)
Definition removesId (i : string) (before after : list string) : Prop :=
  ~ In i after
  /\ (forall j, j <> i ->
       count_occ string_dec after j = count_occ string_dec before j)
  /\ (exists keep : string -> bool, after = filter keep before).
Definition opposite (d : SortDirection) : SortDirection :=
  match d with
  | asc => desc
  | desc => asc
  end.

(** The sort key of one meeting under a column: the value the
    comparator computes for either side. *)
Definition sortKey (h : Host) (sortColumn : string) (m : Meetings.Meeting)
  : Value :=
  fst (Meetings.sortValues h sortColumn m m).

(** The sort key of one lead under a field. *)
Definition leadKey (sortField : string) (l : LeadTable.Lead) : string :=
  LeadTable.toString
    (LeadTable.orEmptyValue (LeadTable.getField sortField l)).

Definition sameValue (a b : Value) : bool :=
  match a, b with
  | VStr s, VStr t => (s =? t)%string
  | VNum x, VNum y => x =? y
  | _, _ => false
  end.

(** [a] does not come after [b] in the order of the direction. *)
Definition inOrder (d : SortDirection) (a b : Value) : Prop :=
  match d with
  | asc => gt a b = false
  | desc => lt a b = false
  end.
(** A string of Basic Latin: every code unit is below 128. *)
Fixpoint basicLatin (s : string) : bool :=
  match s with
  | EmptyString => true
  | String c s' => (N_of_ascii c <? 128)%N && basicLatin s'
  end.

(** A string of decimal digits. *)
Fixpoint digits (s : string) : bool :=
  match s with
  | EmptyString => true
  | String c s' =>
      ((48 <=? N_of_ascii c) && (N_of_ascii c <=? 57))%N && digits s'
  end.
End Spec.

(* ================================================================== *)
(** * Concrete records *)

Module Samples.
Import Meetings.

(** A meeting with the fields the pipeline reads. *)
Definition meeting (i subj : string) (start end_ : Z) (stored : string)
  (lead contact organizer : option string) : Meeting :=
  mkMeeting i subj None start end_ None None None None organizer None
            stored None None lead contact.

(** 2024-01-01 10:00Z to 11:00Z. *)
Definition t1000 : Z := 1704103200000.
Definition t1030 : Z := 1704105000000.
Definition t1100 : Z := 1704106800000.

Definition standup : Meeting :=
  meeting "m1" "Standup" t1000 t1100 "scheduled" None None None.

Definition standupCancelled : Meeting :=
  meeting "m1" "Standup" t1000 t1100 "cancelled" None None None.

(** A meeting that starts and ends at the same instant. *)
Definition instant : Meeting :=
  meeting "m2" "Ping" t1000 t1000 "scheduled" None None None.

Definition at1000 : Host := mkHost t1000 0.
Definition at1030 : Host := mkHost t1030 0.
Definition at1100 : Host := mkHost t1100 0.

Definition acme : Meeting :=
  meeting "m3" "Review" t1000 t1100 "scheduled" (Some "ACME Corp") None
          (Some "u1").

(** A Meetings page on which "a" is selected. *)
Definition selectedA : State :=
  mkState [] [] false "" ["a"] "all" "all" None asc [].

(** The [n]th lead of a numbered list; its id is the code unit [n]. *)
Definition leadNo (n : nat) : LeadTable.Lead :=
  LeadTable.mkLead (String (ascii_of_nat n) "") "Lead" None None None None
                   None None None None None None None None None None None
                   None None [].

Definition leadsTo (n : nat) : list LeadTable.Lead := map leadNo (seq 1 n).

(** A Leads table showing [n] filtered leads at page [page], with a
    selection made before. *)
Definition leadsTable (n : nat) (page : Z) : LeadTable.State :=
  LeadTable.mkState (leadsTo n) (leadsTo n) "" "all" "all" page 50 None asc
                    ["old"].

Definition meetingNo (n : nat) : Meeting :=
  meeting (String (ascii_of_nat n) "") "Call" t1000 t1100 "scheduled"
          None None None.

(** A Meetings page showing [n] filtered meetings. *)
Definition meetingsPage (n : nat) : State :=
  mkState (map meetingNo (seq 1 n)) (map meetingNo (seq 1 n)) false ""
          ["old"] "all" "all" None asc [].

(** A Meetings page sorted on a column the view does not have. *)
Definition byPriority : State :=
  mkState [standup; acme; instant] [] false "" [] "all" "all"
          (Some "priority") desc [].

(** A Meetings page with two meetings shown and one selected, and
    the rows a fetch brings. *)
Definition shown : State :=
  mkState [standup; acme] [standup; acme] false "" ["m1"] "all" "all"
          None asc [].

Definition fetched : list Row :=
  [mkRow instant (Some (Some "Globex")) None].

(** A Meetings page showing a meeting organized by "u1" and one
    without an organizer. *)
Definition shownTwo : State :=
  mkState [acme; standup] [acme; standup] false "" [] "all" "all" None asc
          [].

(** A Meetings page sorted by time of day, latest first: a review at
    11:00, the standup at 10:00 and a call at 10:00, entered in that
    order of the last two. *)
Definition review1100 : Meeting :=
  meeting "m5" "Review" t1100 t1100 "scheduled" None None None.

Definition call1000 : Meeting :=
  meeting "m6" "Call" t1000 t1030 "scheduled" None None None.

Definition byTime : State :=
  mkState [standup; call1000; review1100] [] false "" [] "all" "all"
          (Some "time") desc [].

(** The Leads table after 120 leads were fetched and "Next" was
    pressed. *)
Definition secondPage : LeadTable.State :=
  LeadTable.nextPage
    (LeadTable.setLeads (leadsTo 120) (LeadTable.initial "all")).

(** Two leads whose names differ in case only. *)
Definition named (i name : string) : LeadTable.Lead :=
  LeadTable.mkLead i name None None None None None None None None None None
                   None None None None None None None [].

Definition lower_a : LeadTable.Lead := named "l1" "a".
Definition upper_a : LeadTable.Lead := named "l2" "A".

(** The Leads page with the table of 73 leads, one of them selected,
    after two refreshes. *)
Definition leadsPage : Leads.State :=
  Leads.mkState
    (LeadTable.mkPage (leadsTable 73 2) false [] None false None)
    2 true "New".

(** An account picked for deletion, and replies under which the check
    for linked contacts finds one. *)
Definition globex : AccountTable.Account :=
  AccountTable.mkAccount "a1" "Globex" None None None None None None None
                         None None None None None None None None None None.

Definition accountPicked : AccountTable.Page :=
  AccountTable.mkPage [globex] false [] (Some globex) true.

Definition contactLinked : AccountTable.Replies :=
  AccountTable.mkReplies (AccountTable.SelectReplied (Some ["c1"]))
    (AccountTable.SelectReplied (Some [])) (AccountTable.Replied None) None
    AccountTable.Threw.

(** Two rows of the leads query, the first with a joined account, the
    second without, and the table that fetched them, sorted on
    "accounts". *)
Definition linkedRow : LeadTable.Row :=
  LeadTable.mkLead "l1" "Ann" None None (Some "a1") None None None None None
                   None None None None None None None None
                   (Some (Some "Globex")) [].

Definition looseRow : LeadTable.Row :=
  LeadTable.mkLead "l2" "Bob" None None None None None None None None
                   None None None None None None None None None [].

Definition byAccounts : LeadTable.State :=
  LeadTable.handleSort "accounts"
    (LeadTable.table
       (LeadTable.fetchLeads
          (LeadTable.Resolved (Some [linkedRow; looseRow]) None)
          (LeadTable.mkPage (LeadTable.initial "all") true [] None false
                            None))).

(** A Leads page whose table holds the two leads named "a" and "A",
    with the second one picked for conversion and for deletion. *)
Definition twoLeads : LeadTable.Page :=
  LeadTable.mkPage
    (LeadTable.setLeads [named "l1" "a"; named "l2" "A"]
       (LeadTable.initial "all"))
    false [] (Some (named "l2" "A")) true (Some (named "l2" "A")).

(** Replies that let a deletion through, and a fetch that fails. *)
Definition allFine : LeadTable.Replies :=
  LeadTable.mkReplies (LeadTable.Replied None) (LeadTable.Replied None)
    (LeadTable.SelectReplied None) (LeadTable.Replied None)
    (LeadTable.Replied None) (LeadTable.Replied None) None LeadTable.Threw.

(** A Leads table on which "a" and "b" are selected. *)
Definition selectedAB : LeadTable.State :=
  LeadTable.mkState [] [] "" "New" "all" 1 50 None asc ["a"; "b"].
End Samples.

(* ================================================================== *)
(** * The status resolver *)

Section StatusResolver.
Import Meetings.
Variable h : Host.
Variable m : Meeting.

Lemma getEffectiveStatus_cancelled :
  status m = "cancelled" -> getEffectiveStatus h m = "cancelled".
Proof.
  intros E. unfold getEffectiveStatus, getMeetingStatus.
  rewrite E. reflexivity.
Qed.

(** Away from a stored cancellation the result follows the three
    tests on the clock, in their order. *)
Lemma getEffectiveStatus_cases :
  status m <> "cancelled" ->
  (start_time m <= now h < end_time m /\ getEffectiveStatus h m = "ongoing")
  \/ (~ start_time m <= now h < end_time m /\ end_time m <= now h
      /\ getEffectiveStatus h m = "completed")
  \/ (~ start_time m <= now h < end_time m /\ now h < end_time m
      /\ getEffectiveStatus h m = "scheduled").
Proof.
  intros N. unfold getEffectiveStatus, getMeetingStatus.
  apply String.eqb_neq in N. rewrite N.
  destruct (start_time m <=? now h) eqn:E1;
    destruct (now h <? end_time m) eqn:E2;
    destruct (end_time m <=? now h) eqn:E3; simpl;
    rewrite ?Z.leb_le, ?Z.leb_gt, ?Z.ltb_lt, ?Z.ltb_ge in *;
    solve [ left; split; [lia | reflexivity]
          | right; left; repeat split; lia
          | right; right; repeat split; lia ].
Qed.
End StatusResolver.

(** C1, as amended.  A stored status of cancelled gives cancelled
    whatever the timestamps and the clock.  Otherwise the result is
    ongoing exactly when [startTime <= now < endTime] and completed
    exactly when [now >= endTime]; for a meeting with
    [startTime <= endTime] it is scheduled exactly when
    [now < startTime]; [now = endTime] gives completed, and
    [now = startTime] gives ongoing when the meeting has a positive
    duration. *)
Theorem C1_effective_status (h : Host) (m : Meetings.Meeting) :
  (Meetings.status m = "cancelled" ->
   Meetings.getEffectiveStatus h m = "cancelled")
  /\ (Meetings.status m <> "cancelled" ->
      (Meetings.getEffectiveStatus h m = "ongoing"
       <-> Meetings.start_time m <= now h < Meetings.end_time m)
      /\ (Meetings.getEffectiveStatus h m = "completed"
          <-> Meetings.end_time m <= now h)
      /\ (Meetings.start_time m <= Meetings.end_time m ->
          (Meetings.getEffectiveStatus h m = "scheduled"
           <-> now h < Meetings.start_time m))
      /\ (Meetings.start_time m < Meetings.end_time m ->
          now h = Meetings.start_time m ->
          Meetings.getEffectiveStatus h m = "ongoing")
      /\ (now h = Meetings.end_time m ->
          Meetings.getEffectiveStatus h m = "completed")).
Proof.
  split; [apply getEffectiveStatus_cancelled |].
  intros N.
  destruct (getEffectiveStatus_cases h m N)
    as [[R E] | [[R [R' E]] | [R [R' E]]]]; rewrite E;
    repeat split; intros; try discriminate; try lia; try reflexivity.
Qed.

(** At [now = startTime] a meeting of positive duration is ongoing. *)
Lemma C1_effective_status_witness :
  Meetings.status Samples.standup <> "cancelled"
  /\ Meetings.start_time Samples.standup < Meetings.end_time Samples.standup
  /\ now Samples.at1000 = Meetings.start_time Samples.standup
  /\ Meetings.getEffectiveStatus Samples.at1000 Samples.standup = "ongoing".
Proof.
  assert (N : Meetings.status Samples.standup <> "cancelled") by discriminate.
  assert (L : Meetings.start_time Samples.standup
              < Meetings.end_time Samples.standup) by reflexivity.
  split; [exact N | split; [exact L | split; [reflexivity |]]].
  exact (proj1 (proj2 (proj2 (proj2
           (proj2 (C1_effective_status Samples.at1000 Samples.standup) N))))
         L eq_refl).
Defined.

(** C1 as stated fails on a meeting of no duration: at
    [now = startTime = endTime] the resolver gives completed, not
    ongoing. *)
Lemma C1_instant_meeting_is_completed :
  Meetings.status Samples.instant <> "cancelled"
  /\ Meetings.start_time Samples.instant <= Meetings.end_time Samples.instant
  /\ now Samples.at1000 = Meetings.start_time Samples.instant
  /\ Meetings.getEffectiveStatus Samples.at1000 Samples.instant = "completed"
  /\ Meetings.getEffectiveStatus Samples.at1000 Samples.instant <> "ongoing".
Proof.
  repeat split; try discriminate; try reflexivity.
Qed.

(** The two scenarios of the specification. *)
Example scenario_ongoing :
  Meetings.getEffectiveStatus Samples.at1030 Samples.standup = "ongoing".
Proof. reflexivity. Qed.

Example scenario_cancelled :
  Meetings.getEffectiveStatus Samples.at1030 Samples.standupCancelled
  = "cancelled".
Proof. reflexivity. Qed.

(* ================================================================== *)
(** * Strings *)

Section Strings.
Import JS.

Lemma startsWith_spec (s t : string) :
  startsWith s t = true <-> exists b, s = (t ++ b)%string.
Proof.
  revert s. induction t as [| d t IH]; intros s; simpl.
  - split; [intros _; exists s; reflexivity | reflexivity].
  - destruct s as [| c s]; simpl.
    + split; [discriminate | intros [b E]; discriminate].
    + rewrite andb_true_iff, Ascii.eqb_eq, IH. split.
      * intros [-> [b ->]]. exists b. reflexivity.
      * intros [b E]. injection E as -> ->. split; [reflexivity | eauto].
Qed.

(** [includes s t] holds exactly when [t] is a substring of [s]. *)
Lemma includes_spec (s t : string) :
  includes s t = true <-> exists a b, s = (a ++ t ++ b)%string.
Proof.
  induction s as [| c s IH].
  - simpl. rewrite orb_false_r, startsWith_spec. split.
    + intros [b E]. exists "", b. exact E.
    + intros [a [b E]]. destruct a; [exists b; exact E | discriminate].
  - change (includes (String c s) t)
      with (startsWith (String c s) t || includes s t).
    rewrite orb_true_iff, startsWith_spec, IH. split.
    + intros [[b E] | [a [b E]]].
      * exists "", b. exact E.
      * exists (String c a), b. simpl. rewrite E. reflexivity.
    + intros [a [b E]]. destruct a as [| c' a].
      * left. exists b. exact E.
      * right. injection E as _ E. exists a, b. exact E.
Qed.

Lemma includes_empty_r (s : string) : includes s "" = true.
Proof. destruct s; reflexivity. Qed.

Lemma includes_empty_l (t : string) : t <> "" -> includes "" t = false.
Proof. destruct t; [congruence | reflexivity]. Qed.

Lemma toLowerCase_empty_iff (s : string) : toLowerCase s = "" <-> s = "".
Proof. destruct s; simpl; split; congruence. Qed.

Lemma truthy_or (a b : option bool) :
  truthy (or_ a b) = truthy a || truthy b.
Proof. unfold or_. destruct a as [[|]|]; reflexivity. Qed.

Lemma truthy_and (a b : option bool) :
  truthy (and_ a b) = truthy a && truthy b.
Proof. unfold and_. destruct a as [[|]|]; reflexivity. Qed.

(** A missing field and an empty one answer a search alike, but for
    the empty term. *)
Lemma fieldIncludes_orEmpty (x : option string) (term : string) :
  term <> "" ->
  truthy (fieldIncludes x term)
  = includes (toLowerCase (orEmpty x)) (toLowerCase term).
Proof.
  intros N. destruct x as [s |]; simpl; [reflexivity |].
  symmetry. apply includes_empty_l.
  rewrite toLowerCase_empty_iff. exact N.
Qed.

Lemma fieldIncludes_present (s term : string) :
  truthy (fieldIncludes (Some s) term)
  = includes (toLowerCase (orEmpty (Some s))) (toLowerCase term).
Proof. reflexivity. Qed.

(** Three searchable fields of which the first is always there. *)
Lemma search_three (s : string) (y z : option string) (term : string) :
  truthy (or_ (or_ (fieldIncludes (Some s) term) (fieldIncludes y term))
              (fieldIncludes z term))
  = Spec.searchPasses [Some s; y; z] term.
Proof.
  rewrite !truthy_or. unfold Spec.searchPasses, existsb.
  rewrite orb_false_r, orb_assoc.
  destruct (string_dec term "") as [-> | N].
  - simpl. rewrite includes_empty_r. reflexivity.
  - rewrite !(fieldIncludes_orEmpty _ _ N). reflexivity.
Qed.
End Strings.

(** With no search term the search step of the Leads table keeps the
    whole list. *)
Lemma searchStep_empty_term (l : list LeadTable.Lead) :
  LeadTable.searchStep "" l = l.
Proof.
  unfold LeadTable.searchStep. rewrite <- (filter_true l) at 2.
  apply filter_ext. intros x. unfold LeadTable.matchesSearch.
  rewrite search_three. simpl. rewrite includes_empty_r. reflexivity.
Qed.

(** C3.  In both views a record passes the search step exactly when
    one of its searchable fields, lower-cased, a missing one read as
    the empty string, contains the lower-cased term; the empty term
    passes every record.  The step is a total function: a missing
    field gives [undefined], never an exception. *)
Theorem C3_search_step (term : string) :
  (forall m : Meetings.Meeting,
     JS.truthy (Meetings.matchesSearch term m)
     = Spec.searchPasses (Spec.meetingFields m) term)
  /\ (forall l : LeadTable.Lead,
        JS.truthy (LeadTable.matchesSearch term l)
        = Spec.searchPasses (Spec.leadFields l) term)
  /\ (forall m : Meetings.Meeting,
        JS.truthy (Meetings.matchesSearch "" m) = true)
  /\ (forall l : LeadTable.Lead,
        JS.truthy (LeadTable.matchesSearch "" l) = true).
Proof.
  repeat split; intros r.
  - apply search_three.
  - apply search_three.
  - unfold Meetings.matchesSearch. rewrite !truthy_or. simpl.
    rewrite includes_empty_r. reflexivity.
  - unfold LeadTable.matchesSearch. rewrite !truthy_or. simpl.
    rewrite includes_empty_r. reflexivity.
Qed.

(** The first searchable field, [subject] or [lead_name], is a
    required string of the record, and that is what lets the empty
    term pass: were all three fields missing, the three optional
    chains would give [undefined] and the record would not pass. *)
Remark search_needs_a_present_field :
  JS.truthy (JS.or_ (JS.or_ (JS.fieldIncludes None "") (JS.fieldIncludes None ""))
                    (JS.fieldIncludes None "")) = false.
Proof. reflexivity. Qed.

(** The scenario of the specification: "acme" finds "ACME Corp". *)
Example scenario_search_acme :
  JS.truthy (Meetings.matchesSearch "acme" Samples.acme) = true.
Proof. reflexivity. Qed.

(* ================================================================== *)
(** * The filters *)

(** C4.  With a filter value other than "all" a meeting passes the
    status filter exactly when its effective status is that value;
    "all" passes every meeting.  Only the resolver's output counts:
    two meetings of one effective status pass alike, and a meeting
    stored as scheduled that has ended passes "completed", not
    "scheduled". *)
Theorem C4_status_filter (h : Host) (m : Meetings.Meeting) (f : string) :
  (f <> "all" ->
   (Meetings.matchesStatus h f m = true <-> Meetings.getEffectiveStatus h m = f))
  /\ Meetings.matchesStatus h "all" m = true
  /\ (forall m' : Meetings.Meeting,
        Meetings.getEffectiveStatus h m' = Meetings.getEffectiveStatus h m ->
        Meetings.matchesStatus h f m' = Meetings.matchesStatus h f m)
  /\ (Meetings.status Samples.standup = "scheduled"
      /\ Meetings.matchesStatus Samples.at1100 "scheduled" Samples.standup = false
      /\ Meetings.matchesStatus Samples.at1100 "completed" Samples.standup = true).
Proof.
  unfold Meetings.matchesStatus.
  split; [| split; [| split]].
  - intros N. apply String.eqb_neq in N. rewrite N. simpl.
    apply String.eqb_eq.
  - reflexivity.
  - intros m' E. rewrite E. reflexivity.
  - split; [| split]; reflexivity.
Qed.

Lemma C4_status_filter_witness :
  "ongoing" <> "all"
  /\ (Meetings.matchesStatus Samples.at1030 "ongoing" Samples.standup = true
      <-> Meetings.getEffectiveStatus Samples.at1030 Samples.standup = "ongoing").
Proof.
  assert (N : "ongoing" <> "all") by discriminate.
  split; [exact N |].
  exact (proj1 (C4_status_filter Samples.at1030 Samples.standup "ongoing") N).
Defined.

Section Filters.
Context {A : Type}.
Implicit Types p q : A -> bool.

Lemma filter_both p q (l : list A) :
  filter q (filter p l) = filter (fun x => p x && q x) l.
Proof.
  induction l as [| x l IH]; simpl; [reflexivity |].
  destruct (p x); simpl; [destruct (q x) |]; rewrite IH; reflexivity.
Qed.

Lemma filter_swap p q (l : list A) :
  filter q (filter p l) = filter p (filter q l).
Proof.
  rewrite !filter_both. apply filter_ext. intros x. apply andb_comm.
Qed.

(** A filter that is skipped when its value is the sentinel is the
    filter by the predicate that the sentinel makes true. *)
Lemma filter_unless (skip : bool) p (l : list A) :
  (if negb skip then filter p l else l) = filter (fun x => skip || p x) l.
Proof.
  destruct skip; simpl; [symmetry; apply filter_true | reflexivity].
Qed.
End Filters.

Lemma searchStep_filter (term : string) (l : list LeadTable.Lead) :
  LeadTable.searchStep term l = filter (Spec.leadSearch term) l.
Proof. reflexivity. Qed.

Lemma statusStep_filter (f : string) (l : list LeadTable.Lead) :
  LeadTable.statusStep f l = filter (Spec.leadStatus f) l.
Proof. apply filter_unless. Qed.

Lemma ownerStep_filter (f : string) (l : list LeadTable.Lead) :
  LeadTable.ownerStep f l = filter (Spec.leadOwner f) l.
Proof. apply filter_unless. Qed.

Lemma passes_conjunction (h : Host) (term sf ow : string)
  (m : Meetings.Meeting) :
  Meetings.passes h term sf ow m
  = JS.truthy (Meetings.matchesSearch term m)
    && Meetings.matchesStatus h sf m && Meetings.matchesOrganizer ow m.
Proof. unfold Meetings.passes. rewrite !truthy_and. reflexivity. Qed.

(** C9.  The search, status and owner predicates are independent
    conjuncts: filtering by the three together, as the Meetings view
    does, or one after the other, as the Leads table does, gives the
    list that any other order of the three gives. *)
Theorem C9_filter_composition (h : Host) (term sf ow : string) :
  (forall l : list Meetings.Meeting,
     let S := filter (fun m => JS.truthy (Meetings.matchesSearch term m)) in
     let T := filter (Meetings.matchesStatus h sf) in
     let O := filter (Meetings.matchesOrganizer ow) in
     let together := filter (Meetings.passes h term sf ow) l in
     together = O (T (S l)) /\ together = T (O (S l))
     /\ together = O (S (T l)) /\ together = S (O (T l))
     /\ together = T (S (O l)) /\ together = S (T (O l)))
  /\ (forall l : list LeadTable.Lead,
        let S := LeadTable.searchStep term in
        let T := LeadTable.statusStep sf in
        let O := LeadTable.ownerStep ow in
        let together := O (T (S l)) in
        together = filter (fun x => Spec.leadSearch term x
                                    && Spec.leadStatus sf x
                                    && Spec.leadOwner ow x) l
        /\ together = T (O (S l))
        /\ together = O (S (T l)) /\ together = S (O (T l))
        /\ together = T (S (O l)) /\ together = S (T (O l))).
Proof.
  split; intros l; cbv zeta.
  - assert (E : filter (Meetings.passes h term sf ow) l
                = filter (Meetings.matchesOrganizer ow)
                    (filter (Meetings.matchesStatus h sf)
                       (filter (fun m => JS.truthy (Meetings.matchesSearch term m))
                          l))).
    { rewrite !filter_both. apply filter_ext. intros m.
      rewrite passes_conjunction, ?andb_assoc. reflexivity. }
    rewrite E. clear E.
    set (S := filter (fun m => JS.truthy (Meetings.matchesSearch term m))).
    set (T := filter (Meetings.matchesStatus h sf)).
    set (O := filter (Meetings.matchesOrganizer ow)).
    assert (ST : forall x, S (T x) = T (S x)) by (intros; apply filter_swap).
    assert (SO : forall x, S (O x) = O (S x)) by (intros; apply filter_swap).
    assert (TO : forall x, T (O x) = O (T x)) by (intros; apply filter_swap).
    repeat split; rewrite ?ST, ?SO, ?TO, ?ST; reflexivity.
  - rewrite !searchStep_filter.
    assert (ET : forall x, LeadTable.statusStep sf x
                           = filter (Spec.leadStatus sf) x)
      by (intros; apply statusStep_filter).
    assert (EO : forall x, LeadTable.ownerStep ow x
                           = filter (Spec.leadOwner ow) x)
      by (intros; apply ownerStep_filter).
    assert (ES : forall x, LeadTable.searchStep term x
                           = filter (Spec.leadSearch term) x)
      by reflexivity.
    rewrite ?ET, ?EO, ?ES.
    set (S := filter (Spec.leadSearch term)).
    set (T := filter (Spec.leadStatus sf)).
    set (O := filter (Spec.leadOwner ow)).
    assert (ST : forall x, S (T x) = T (S x)) by (intros; apply filter_swap).
    assert (SO : forall x, S (O x) = O (S x)) by (intros; apply filter_swap).
    assert (TO : forall x, T (O x) = O (T x)) by (intros; apply filter_swap).
    split.
    + unfold S, T, O. rewrite !filter_both. apply filter_ext. intros x.
      rewrite ?andb_assoc. reflexivity.
    + repeat split; rewrite ?ST, ?SO, ?TO, ?ST; reflexivity.
Qed.

(* ================================================================== *)
(** * Selection *)

Section Toggle.
Variable i : string.
Variable sel : list string.

Let on := sel ++ [i].
Let off := filter (fun j => negb (j =? i)%string) sel.

Lemma toggle_on_addsOne : Spec.addsOne i sel on.
Proof.
  intros j. unfold on. rewrite count_occ_app. simpl.
  destruct (string_dec i j); reflexivity.
Qed.

Lemma toggle_on_length : List.length on = S (List.length sel).
Proof. unfold on. rewrite length_app. simpl. lia. Qed.

Lemma toggle_off_removesId : Spec.removesId i sel off.
Proof.
  unfold off. split; [| split].
  - intros H. apply filter_In in H. destruct H as [_ H].
    rewrite String.eqb_refl in H. discriminate.
  - intros j N. induction sel as [| x l IH]; simpl; [reflexivity |].
    destruct (String.eqb_spec x i) as [-> | Nx]; simpl.
    + destruct (string_dec i j); [congruence | exact IH].
    + destruct (string_dec x j); rewrite IH; reflexivity.
  - eexists. reflexivity.
Qed.

Lemma toggle_on_NoDup : NoDup sel -> ~ In i sel -> NoDup on.
Proof.
  intros D N. unfold on. apply NoDup_app; [exact D | |].
  - constructor; [intros [] | constructor].
  - intros a Ha [<- | []]. exact (N Ha).
Qed.

Lemma toggle_off_NoDup : NoDup sel -> NoDup off.
Proof. apply NoDup_filter. Qed.

Lemma filter_absent (l : list string) :
  ~ In i l -> filter (fun j => negb (j =? i)%string) l = l.
Proof.
  induction l as [| x l IH]; intros N; simpl; [reflexivity |].
  destruct (String.eqb_spec x i) as [-> | Nx]; simpl.
  - exfalso. apply N. left. reflexivity.
  - rewrite IH; [reflexivity |]. intros H. apply N. right. exact H.
Qed.

Lemma toggle_off_length :
  NoDup sel -> In i sel -> S (List.length off) = List.length sel.
Proof.
  unfold off. induction sel as [| x l IH]; intros D H; [destruct H |].
  inversion D as [| ? ? Nx D']; subst. simpl.
  destruct (String.eqb_spec x i) as [-> | Ne]; simpl.
  - rewrite filter_absent by exact Nx. reflexivity.
  - destruct H as [-> | H]; [congruence |]. rewrite IH; auto.
Qed.

(** Toggling on an id that is selected already leaves two entries
    of it. *)
Lemma toggle_on_present : In i sel -> ~ NoDup on.
Proof.
  unfold on. intros H D. induction sel as [| x l IH]; [destruct H |].
  simpl in D. inversion D as [| ? ? Nx D']; subst.
  destruct H as [-> | H].
  - apply Nx. apply in_or_app. right. left. reflexivity.
  - exact (IH H D').
Qed.
End Toggle.

(** C5, as amended.  In both views, toggling a row's checkbox on
    appends that id, one entry more and no other change; toggling it
    off removes every entry of that id and nothing else.  A selection
    without duplicates stays so when the id toggled on was not
    selected, which is when the checkbox offers it, and toggling off
    then removes exactly one entry.  Toggling on an id that is already
    selected is not guarded: it leaves a second entry. *)
Theorem C5_individual_toggle (i : string) :
  (forall s : Meetings.State,
     let sel := Meetings.selectedMeetings s in
     let on := Meetings.selectedMeetings (Meetings.handleSelectMeeting i true s) in
     let off := Meetings.selectedMeetings (Meetings.handleSelectMeeting i false s) in
     on = sel ++ [i] /\ Spec.addsOne i sel on /\ Spec.removesId i sel off
     /\ (NoDup sel -> ~ In i sel -> NoDup on)
     /\ (NoDup sel -> NoDup off)
     /\ (NoDup sel -> In i sel -> S (List.length off) = List.length sel)
     /\ (In i sel -> ~ NoDup on))
  /\ (forall s : LeadTable.State,
        let sel := LeadTable.selectedLeads s in
        let on := LeadTable.selectedLeads (LeadTable.handleSelectLead i true s) in
        let off := LeadTable.selectedLeads (LeadTable.handleSelectLead i false s) in
        on = sel ++ [i] /\ Spec.addsOne i sel on /\ Spec.removesId i sel off
        /\ (NoDup sel -> ~ In i sel -> NoDup on)
        /\ (NoDup sel -> NoDup off)
        /\ (NoDup sel -> In i sel -> S (List.length off) = List.length sel)
        /\ (In i sel -> ~ NoDup on)).
Proof.
  split; intros s; cbv zeta; simpl;
    (split; [reflexivity |]);
    (split; [apply toggle_on_addsOne |]);
    (split; [apply toggle_off_removesId |]);
    (split; [apply toggle_on_NoDup |]);
    (split; [apply toggle_off_NoDup |]);
    (split; [apply toggle_off_length | apply toggle_on_present]).
Qed.

(** On a Leads table with "a" and "b" selected, toggling "c" on keeps
    the selection free of duplicates and toggling "b" off removes one
    entry. *)
Lemma C5_individual_toggle_witness :
  NoDup (LeadTable.selectedLeads Samples.selectedAB)
  /\ ~ In "c" (LeadTable.selectedLeads Samples.selectedAB)
  /\ NoDup (LeadTable.selectedLeads
              (LeadTable.handleSelectLead "c" true Samples.selectedAB)).
Proof.
  assert (D : NoDup (LeadTable.selectedLeads Samples.selectedAB)).
  { simpl. repeat constructor; simpl; intuition discriminate. }
  assert (N : ~ In "c" (LeadTable.selectedLeads Samples.selectedAB)).
  { simpl. intuition discriminate. }
  split; [exact D | split; [exact N |]].
  exact (proj1 (proj2 (proj2 (proj2
           (proj2 (C5_individual_toggle "c") Samples.selectedAB)))) D N).
Defined.

(** C5 as stated fails: with "a" selected, toggling "a" on gives the
    selection two entries of "a". *)
Lemma C5_toggle_on_selected_id_duplicates :
  In "a" (Meetings.selectedMeetings Samples.selectedA)
  /\ Meetings.selectedMeetings
       (Meetings.handleSelectMeeting "a" true Samples.selectedA) = ["a"; "a"]
  /\ Meetings.selectedMeetings
       (Meetings.handleSelectMeeting "a" true Samples.selectedA)
     <> Meetings.selectedMeetings Samples.selectedA
  /\ ~ NoDup (Meetings.selectedMeetings
                (Meetings.handleSelectMeeting "a" true Samples.selectedA)).
Proof.
  split; [left; reflexivity | split; [reflexivity | split]].
  - discriminate.
  - simpl. intros D. inversion D as [| ? ? N _]. apply N. left. reflexivity.
Qed.

(* ================================================================== *)
(** * Slices and pages *)

Section Slices.
Context {A : Type}.
Implicit Types l : list A.

Lemma firstn_plus (a b : nat) l :
  firstn (a + b) l = firstn a l ++ firstn b (skipn a l).
Proof.
  revert l. induction a as [| a IH]; intros l; [reflexivity |].
  destruct l as [| x l]; simpl.
  - rewrite firstn_nil. reflexivity.
  - rewrite IH. reflexivity.
Qed.

(** With both indices at or after the start of the array, [slice]
    drops [start] elements and keeps the next [end_ - start]. *)
Lemma slice_from l (start end_ : Z) :
  0 <= start -> 0 <= end_ ->
  JS.slice l start end_
  = firstn (Z.to_nat (end_ - start)) (skipn (Z.to_nat start) l).
Proof.
  intros Hs He. unfold JS.slice.
  destruct (Z.ltb_spec start 0) as [? | _]; [lia |].
  destruct (Z.ltb_spec end_ 0) as [? | _]; [lia |].
  set (len := List.length l).
  destruct (Z.le_gt_cases start (Z.of_nat len)) as [Hk | Hk].
  - rewrite (Z.min_l start) by exact Hk.
    destruct (Z.le_gt_cases end_ (Z.of_nat len)) as [Hf | Hf].
    + rewrite Z.min_l by exact Hf. reflexivity.
    + rewrite Z.min_r by lia.
      rewrite !firstn_all2; [reflexivity | |];
        rewrite length_skipn; fold len; lia.
  - rewrite (Z.min_r start) by lia.
    rewrite !skipn_all2; [| fold len; lia | fold len; lia].
    rewrite !firstn_nil. reflexivity.
Qed.

(** A window of [pageSize] elements never yields more than that,
    wherever it starts. *)
Lemma length_slice_window l (start pageSize : Z) :
  0 <= pageSize ->
  Z.of_nat (List.length (JS.slice l start (start + pageSize))) <= pageSize.
Proof.
  intros Hp. unfold JS.slice.
  rewrite length_firstn, length_skipn.
  destruct (start <? 0) eqn:E1; destruct (start + pageSize <? 0) eqn:E2;
    rewrite ?Z.ltb_lt, ?Z.ltb_ge in *; lia.
Qed.

Lemma slice_all l (n : Z) :
  Z.of_nat (List.length l) <= n -> JS.slice l 0 n = l.
Proof.
  intros H. rewrite slice_from by lia. simpl.
  apply firstn_all2. lia.
Qed.
End Slices.

Section Pages.
Import LeadTable.
Variable l : list Lead.
Variable pageSize : Z.
Hypothesis pageSize_nonneg : 0 <= pageSize.

Lemma pageOf_from (page : Z) :
  1 <= page ->
  pageOf l page pageSize
  = firstn (Z.to_nat pageSize) (skipn (Z.to_nat ((page - 1) * pageSize)) l).
Proof.
  intros Hp. unfold pageOf. rewrite slice_from by nia.
  f_equal. f_equal. lia.
Qed.

(** The page holds the elements at the indices [(page-1)*pageSize]
    up to, and without, [page*pageSize]. *)
Lemma pageOf_nth (page : Z) (i : nat) :
  1 <= page ->
  nth_error (pageOf l page pageSize) i
  = if Z.of_nat i <? pageSize
    then nth_error l (Z.to_nat ((page - 1) * pageSize) + i)
    else None.
Proof.
  intros Hp. rewrite pageOf_from by exact Hp.
  rewrite nth_error_firstn, nth_error_skipn.
  destruct (Nat.ltb_spec i (Z.to_nat pageSize));
    destruct (Z.ltb_spec (Z.of_nat i) pageSize); try lia; reflexivity.
Qed.

Lemma pages_concat (n : nat) :
  List.concat (map (fun p => pageOf l p pageSize) (map Z.of_nat (seq 1 n)))
  = firstn (n * Z.to_nat pageSize) l.
Proof.
  induction n as [| n IH]; [reflexivity |].
  rewrite seq_S, !map_app, concat_app, IH.
  cbn [map List.concat]. rewrite app_nil_r, pageOf_from by lia.
  replace (Z.to_nat ((Z.of_nat (1 + n) - 1) * pageSize))
    with (n * Z.to_nat pageSize)%nat by nia.
  rewrite <- firstn_plus. f_equal. lia.
Qed.

Lemma ceilDiv_covers (n : Z) :
  1 <= pageSize -> 0 <= n -> n <= JS.ceilDiv n pageSize * pageSize.
Proof.
  intros Hp Hn. unfold JS.ceilDiv.
  pose proof (Z.div_mod (n + pageSize - 1) pageSize ltac:(lia)) as E.
  pose proof (Z.mod_pos_bound (n + pageSize - 1) pageSize ltac:(lia)) as B.
  nia.
Qed.

(** The pages 1 to [totalPages], one after the other, are the list. *)
Lemma pages_cover :
  1 <= pageSize ->
  List.concat (map (fun p => pageOf l p pageSize)
              (Spec.pageNumbers
                 (JS.ceilDiv (Z.of_nat (List.length l)) pageSize)))
  = l.
Proof.
  intros Hp. unfold Spec.pageNumbers. rewrite pages_concat.
  apply firstn_all2.
  pose proof (ceilDiv_covers (Z.of_nat (List.length l)) Hp ltac:(lia)).
  nia.
Qed.
End Pages.

Section Reachable.
Import LeadTable.

Lemma step_keeps_page (s s' : State) :
  step s s' ->
  1 <= currentPage s /\ itemsPerPage s = 50 ->
  1 <= currentPage s' /\ itemsPerPage s' = 50.
Proof.
  intros St [P I]. destruct St; simpl.
  - split; [lia | exact I].
  - unfold setSearchTerm. destruct (_ =? _)%string; simpl; split; auto; lia.
  - unfold setStatusFilter. destruct (_ =? _)%string; simpl; split; auto; lia.
  - unfold setOwnerFilter. destruct (_ =? _)%string; simpl; split; auto; lia.
  - unfold handleSort. destruct (JS.strictEq _ _); simpl; split; auto; lia.
  - unfold previousPage. destruct (_ && _); simpl; split; auto; lia.
  - unfold nextPage. destruct ((1 <? totalPages s) && _) eqn:E; simpl;
      [| split; auto].
    apply andb_true_iff in E. destruct E as [E _].
    apply Z.ltb_lt in E. split; [lia | exact I].
  - unfold handleSelectAll. destruct c; simpl; split; auto.
  - unfold handleSelectLead. destruct c; simpl; split; auto.
Qed.

(** Every state a table gets to shows a page numbered from 1, fifty
    leads to the page. *)
Lemma reachable_page (initialStatus : string) (s : State) :
  reachable initialStatus s -> 1 <= currentPage s /\ itemsPerPage s = 50.
Proof.
  induction 1 as [| s s' _ IH St].
  - simpl. split; [lia | reflexivity].
  - exact (step_keeps_page s s' St IH).
Qed.
End Reachable.

(** C6.  The visible slice of the Leads table holds the elements of
    the filtered and sorted list at the indices [(page-1)*pageSize] up
    to, and without, [page*pageSize], for a page numbered from 1.  So
    a slice has at most [pageSize] elements, the slices of the pages 1
    to [totalPages] put end to end are the list, and their lengths add
    up to the filtered count.  A change of the search term, of the
    status or owner filter, of the sort or of the fetched leads sets
    [currentPage] to 1. *)
Theorem C6_pagination (s : LeadTable.State) :
  1 <= LeadTable.currentPage s ->
  1 <= LeadTable.itemsPerPage s ->
  (forall i : nat,
     nth_error (LeadTable.getCurrentPageLeads s) i
     = if Z.of_nat i <? LeadTable.itemsPerPage s
       then nth_error (LeadTable.filteredLeads s)
              (Z.to_nat ((LeadTable.currentPage s - 1) * LeadTable.itemsPerPage s)
               + i)
       else None)
  /\ Z.of_nat (List.length (LeadTable.getCurrentPageLeads s))
     <= LeadTable.itemsPerPage s
  /\ List.concat
       (map (fun p => LeadTable.pageOf (LeadTable.filteredLeads s) p
                        (LeadTable.itemsPerPage s))
            (Spec.pageNumbers (LeadTable.totalPages s)))
     = LeadTable.filteredLeads s
  /\ list_sum
       (map (fun p => List.length
                        (LeadTable.pageOf (LeadTable.filteredLeads s) p
                           (LeadTable.itemsPerPage s)))
            (Spec.pageNumbers (LeadTable.totalPages s)))
     = List.length (LeadTable.filteredLeads s)
  /\ (forall v, v <> LeadTable.searchTerm s ->
        LeadTable.currentPage (LeadTable.setSearchTerm v s) = 1)
  /\ (forall v, v <> LeadTable.statusFilter s ->
        LeadTable.currentPage (LeadTable.setStatusFilter v s) = 1)
  /\ (forall v, v <> LeadTable.ownerFilter s ->
        LeadTable.currentPage (LeadTable.setOwnerFilter v s) = 1)
  /\ (forall f, LeadTable.currentPage (LeadTable.handleSort f s) = 1)
  /\ (forall v, LeadTable.currentPage (LeadTable.setLeads v s) = 1).
Proof.
  intros Hp Hs.
  assert (C : List.concat
                (map (fun p => LeadTable.pageOf (LeadTable.filteredLeads s) p
                                 (LeadTable.itemsPerPage s))
                     (Spec.pageNumbers (LeadTable.totalPages s)))
              = LeadTable.filteredLeads s)
    by (apply pages_cover; lia).
  split; [| split; [| split; [| split]]].
  - intros i. apply pageOf_nth; lia.
  - apply length_slice_window. lia.
  - exact C.
  - rewrite <- (f_equal (@List.length _) C).
    rewrite length_concat, map_map. reflexivity.
  - split; [| split; [| split; [| split]]].
    + intros v N. unfold LeadTable.setSearchTerm.
      apply String.eqb_neq in N. rewrite N. reflexivity.
    + intros v N. unfold LeadTable.setStatusFilter.
      apply String.eqb_neq in N. rewrite N. reflexivity.
    + intros v N. unfold LeadTable.setOwnerFilter.
      apply String.eqb_neq in N. rewrite N. reflexivity.
    + intros f. unfold LeadTable.handleSort.
      destruct (JS.strictEq _ _); reflexivity.
    + reflexivity.
Qed.

(** The scenario of the specification: 120 records, fifty to the page;
    the third page is what follows the first hundred, and the three
    pages make up the list. *)
Lemma C6_pagination_witness :
  1 <= LeadTable.currentPage (Samples.leadsTable 120 3)
  /\ 1 <= LeadTable.itemsPerPage (Samples.leadsTable 120 3)
  /\ List.concat
       (map (fun p => LeadTable.pageOf (Samples.leadsTo 120) p 50)
            (Spec.pageNumbers 3))
     = Samples.leadsTo 120.
Proof.
  assert (P : 1 <= LeadTable.currentPage (Samples.leadsTable 120 3))
    by (simpl; lia).
  assert (I : 1 <= LeadTable.itemsPerPage (Samples.leadsTable 120 3))
    by (simpl; lia).
  split; [exact P | split; [exact I |]].
  exact (proj1 (proj2 (proj2 (C6_pagination (Samples.leadsTable 120 3) P I)))).
Defined.

Example scenario_page_1 :
  LeadTable.getCurrentPageLeads (Samples.leadsTable 120 1)
  = firstn 50 (Samples.leadsTo 120).
Proof. reflexivity. Qed.

Example scenario_page_3 :
  LeadTable.getCurrentPageLeads (Samples.leadsTable 120 3)
  = skipn 100 (Samples.leadsTo 120)
  /\ List.length (LeadTable.getCurrentPageLeads (Samples.leadsTable 120 3))
     = 20%nat.
Proof. split; reflexivity. Qed.

(** C2, as amended.  In the Leads table, fifty leads to the page,
    ticking "select all" replaces the selection, whatever it was, by
    the ids of the current page, fifty at most.  The Meetings view has
    no pages: there "select all" replaces the selection by the ids of
    all the filtered meetings. *)
Theorem C2_select_all :
  (forall s : LeadTable.State,
     LeadTable.itemsPerPage s = 50 ->
     LeadTable.selectedLeads (LeadTable.handleSelectAll true s)
     = map LeadTable.id (LeadTable.getCurrentPageLeads s)
     /\ Z.of_nat (List.length
                    (LeadTable.selectedLeads (LeadTable.handleSelectAll true s)))
        <= 50)
  /\ (forall s : Meetings.State,
        Meetings.selectedMeetings (Meetings.handleSelectAll true s)
        = map Meetings.id (Meetings.filteredMeetings s)).
Proof.
  split; [| reflexivity].
  intros s I.
  assert (L : Z.of_nat (List.length (LeadTable.getCurrentPageLeads s)) <= 50).
  { unfold LeadTable.getCurrentPageLeads, LeadTable.pageOf. rewrite I.
    apply length_slice_window. lia. }
  unfold LeadTable.handleSelectAll. simpl.
  rewrite slice_all by exact L.
  split; [reflexivity | rewrite length_map; exact L].
Qed.

(** With 73 filtered leads the first page gives fifty ids. *)
Lemma C2_select_all_witness :
  LeadTable.itemsPerPage (Samples.leadsTable 73 1) = 50
  /\ LeadTable.selectedLeads
       (LeadTable.handleSelectAll true (Samples.leadsTable 73 1))
     = map LeadTable.id
         (LeadTable.getCurrentPageLeads (Samples.leadsTable 73 1)).
Proof.
  assert (I : LeadTable.itemsPerPage (Samples.leadsTable 73 1) = 50)
    by reflexivity.
  split; [exact I |].
  exact (proj1 (proj1 C2_select_all (Samples.leadsTable 73 1) I)).
Defined.

Example select_all_73_leads :
  LeadTable.selectedLeads
    (LeadTable.handleSelectAll true (Samples.leadsTable 73 1))
  = map LeadTable.id (firstn 50 (Samples.leadsTo 73))
  /\ List.length
       (LeadTable.selectedLeads
          (LeadTable.handleSelectAll true (Samples.leadsTable 73 1)))
     = 50%nat
  /\ List.length
       (LeadTable.selectedLeads
          (LeadTable.handleSelectAll true (Samples.leadsTable 73 2)))
     = 23%nat.
Proof. repeat split. Qed.

(** C2 as stated fails in the Meetings view: with 73 filtered
    meetings, all of distinct ids, "select all" selects the 73. *)
Lemma C2_meetings_select_all_takes_73 :
  List.length (Meetings.filteredMeetings (Samples.meetingsPage 73)) = 73%nat
  /\ NoDup (map Meetings.id (Meetings.filteredMeetings (Samples.meetingsPage 73)))
  /\ Meetings.selectedMeetings
       (Meetings.handleSelectAll true (Samples.meetingsPage 73))
     = map Meetings.id (Meetings.filteredMeetings (Samples.meetingsPage 73))
  /\ List.length
       (Meetings.selectedMeetings
          (Meetings.handleSelectAll true (Samples.meetingsPage 73)))
     = 73%nat.
Proof.
  split; [reflexivity | split; [| split; reflexivity]].
  assert (E : nodup string_dec
                (map Meetings.id
                   (Meetings.filteredMeetings (Samples.meetingsPage 73)))
              = map Meetings.id
                  (Meetings.filteredMeetings (Samples.meetingsPage 73)))
    by (vm_compute; reflexivity).
  rewrite <- E. apply NoDup_nodup.
Qed.

(* ================================================================== *)
(** * Sorting *)

Section Sort.
Context {A : Type}.
Variable cmp : A -> A -> Z.

(** A comparator that answers 0 throughout a list leaves it as it
    is. *)
Lemma sort_ties (l : list A) :
  (forall x y, In x l -> In y l -> cmp x y = 0) -> JS.sort cmp l = l.
Proof.
  induction l as [| x l IH]; intros T; [reflexivity |].
  simpl. rewrite IH by (intros; apply T; right; assumption).
  destruct l as [| y l']; [reflexivity |].
  simpl. rewrite (T x y) by (simpl; auto). reflexivity.
Qed.

(** Sorting rearranges and neither drops nor repeats an element. *)
Lemma insert_perm (x : A) (l : list A) :
  Permutation (JS.insert cmp x l) (x :: l).
Proof.
  induction l as [| y l IH]; simpl; [reflexivity |].
  destruct (cmp x y <=? 0); [reflexivity |].
  rewrite IH. apply perm_swap.
Qed.

Lemma sort_perm (l : list A) : Permutation (JS.sort cmp l) l.
Proof.
  induction l as [| x l IH]; simpl; [reflexivity |].
  rewrite insert_perm. constructor. exact IH.
Qed.

Lemma sort_constant (l : list A) :
  (forall x y, cmp x y = 0) -> JS.sort cmp l = l.
Proof. intros T. apply sort_ties. intros. apply T. Qed.
End Sort.

Section Comparators.
Import JS.

Lemma compare_refl (s : string) : String.compare s s = Eq.
Proof.
  induction s as [| c s IH]; [reflexivity |]. simpl.
  unfold Ascii.compare. rewrite N.compare_refl. exact IH.
Qed.

Lemma caseTieBreak_refl (s : string) : caseTieBreak s s = 0.
Proof.
  induction s as [| c s IH]; [reflexivity |]. simpl.
  rewrite Ascii.eqb_refl. exact IH.
Qed.

Lemma localeCompare_refl (s : string) : localeCompare s s = 0.
Proof.
  unfold localeCompare. rewrite compare_refl. apply caseTieBreak_refl.
Qed.

(** Equal keys: neither [<] nor [>] holds and the comparator of the
    Meetings view answers 0. *)
Lemma lt_irrefl (v : Value) : lt v v = false.
Proof.
  destruct v as [s | n]; simpl.
  - unfold str_lt. rewrite compare_refl. reflexivity.
  - apply Z.ltb_irrefl.
Qed.

Lemma gt_irrefl (v : Value) : gt v v = false.
Proof.
  destruct v as [s | n]; simpl.
  - unfold str_gt. rewrite compare_refl. reflexivity.
  - unfold Z.gtb. rewrite Z.compare_refl. reflexivity.
Qed.

Lemma compareMeetings_equal_keys (h : Host) (c : string) (d : SortDirection)
  (a b : Meetings.Meeting) :
  fst (Meetings.sortValues h c a b) = snd (Meetings.sortValues h c a b) ->
  Meetings.compareMeetings h c d a b = 0.
Proof.
  unfold Meetings.compareMeetings.
  destruct (Meetings.sortValues h c a b) as [x y]. simpl. intros ->.
  rewrite lt_irrefl, gt_irrefl. reflexivity.
Qed.

(** The two keys of a column are both strings or both numbers. *)
Lemma sortValues_same_kind (h : Host) (c : string) (a b : Meetings.Meeting) :
  (exists x y, Meetings.sortValues h c a b = (VStr x, VStr y))
  \/ (exists x y, Meetings.sortValues h c a b = (VNum x, VNum y)).
Proof.
  unfold Meetings.sortValues.
  repeat match goal with
  | |- context [if ?t then _ else _] => destruct t; eauto
  end.
Qed.

(** A column identifier outside [SortColumn] reaches no case of the
    [switch]. *)
Lemma sortValues_unknown (h : Host) (c : string) (a b : Meetings.Meeting) :
  ~ In c Meetings.columns ->
  Meetings.sortValues h c a b = (VStr "", VStr "").
Proof.
  intros N. unfold Meetings.sortValues.
  repeat match goal with
  | |- context [(c =? ?k)%string] =>
      destruct (String.eqb_spec c k) as [E | _];
      [exfalso; apply N; rewrite E; simpl; tauto |]
  end.
  reflexivity.
Qed.

Lemma lookup_absent (f : string) (l : list (string * LeadTable.Property)) :
  (forall v, ~ In (f, v) l) -> LeadTable.lookup f l = LeadTable.Undefined.
Proof.
  induction l as [| [k v] l IH]; intros N; [reflexivity |].
  simpl. destruct (String.eqb_spec k f) as [-> | _].
  - exfalso. apply (N v). left. reflexivity.
  - apply IH. intros w H. apply (N w). right. exact H.
Qed.

Lemma getField_unknown (f : string) (l : LeadTable.Lead) :
  ~ In f LeadTable.keysOfLead -> f <> "accounts" ->
  LeadTable.getField f l = LeadTable.lookup f (LeadTable.others l).
Proof.
  intros N A. unfold LeadTable.getField.
  repeat match goal with
  | |- context [(f =? ?k)%string] =>
      destruct (String.eqb_spec f k) as [E | _];
      [exfalso; first [apply A; exact E
                      | apply N; rewrite E; simpl; tauto] |]
  end.
  reflexivity.
Qed.

Lemma orEmptyValue_defined (p : LeadTable.Property) :
  LeadTable.orEmptyValue p <> LeadTable.Undefined.
Proof. destruct p as [| s | | [|] shown]; discriminate. Qed.

Lemma compareLeads_absent (f : string) (d : SortDirection)
  (a b : LeadTable.Lead) :
  LeadTable.getField f a = LeadTable.Undefined ->
  LeadTable.getField f b = LeadTable.Undefined ->
  LeadTable.compareLeads f d a b = 0.
Proof.
  intros Ea Eb. unfold LeadTable.compareLeads. rewrite Ea, Eb.
  destruct d; reflexivity.
Qed.
End Comparators.

(** C8.  In the Meetings view a sort column outside the recognized
    identifiers, and the column "lead_contact" when no meeting has a
    lead or a contact name, gives the comparator the empty string on
    both sides: it answers 0 for every pair, and the sort, a total
    function, returns the filtered list in the order it had.  In the
    Leads table the same holds of a field that is absent from every
    lead of the list; the comparator never calls [toString] on
    [undefined], and a field is absent from a lead when it is none of
    the named properties, not the joined account and none of the
    further columns of the lead. *)
Theorem C8_unknown_sort_column :
  (forall (h : Host) (s : Meetings.State) (c : string),
     Meetings.sortColumn s = Some c ->
     ~ In c Meetings.columns ->
     (forall a b,
        Meetings.sortValues h c a b = (JS.VStr "", JS.VStr "")
        /\ Meetings.compareMeetings h c (Meetings.sortDirection s) a b = 0)
     /\ Meetings.sortedAndFilteredMeetings h s
        = filter (Meetings.passes h (Meetings.searchTerm s)
                    (Meetings.statusFilter s) (Meetings.organizerFilter s))
                 (Meetings.meetings s))
  /\ (forall (s : LeadTable.State) (f : string),
        LeadTable.sortField s = Some f ->
        (forall x, In x (LeadTable.leads s) ->
                   LeadTable.getField f x = LeadTable.Undefined) ->
        (forall a b,
           In a (LeadTable.leads s) -> In b (LeadTable.leads s) ->
           LeadTable.toString
             (LeadTable.orEmptyValue (LeadTable.getField f a)) = ""
           /\ LeadTable.toString
                (LeadTable.orEmptyValue (LeadTable.getField f b)) = ""
           /\ LeadTable.compareLeads f (LeadTable.sortDirection s) a b = 0)
        /\ LeadTable.filtered s
           = LeadTable.ownerStep (LeadTable.ownerFilter s)
               (LeadTable.statusStep (LeadTable.statusFilter s)
                  (LeadTable.searchStep (LeadTable.searchTerm s)
                     (LeadTable.leads s))))
  /\ (forall (f : string) (x : LeadTable.Lead),
        LeadTable.orEmptyValue (LeadTable.getField f x) <> LeadTable.Undefined
        /\ (~ In f LeadTable.keysOfLead -> f <> "accounts" ->
            (forall v, ~ In (f, v) (LeadTable.others x)) ->
            LeadTable.getField f x = LeadTable.Undefined))
  /\ (forall (h : Host) (s : Meetings.State),
        Meetings.sortColumn s = Some "lead_contact" ->
        (forall x, In x (Meetings.meetings s) ->
                   Meetings.lead_name x = None /\ Meetings.contact_name x = None) ->
        Meetings.sortedAndFilteredMeetings h s
        = filter (Meetings.passes h (Meetings.searchTerm s)
                    (Meetings.statusFilter s) (Meetings.organizerFilter s))
                 (Meetings.meetings s)).
Proof.
  split; [| split; [| split]].
  - intros h s c E N.
    assert (K : forall a b,
              Meetings.sortValues h c a b = (JS.VStr "", JS.VStr "")
              /\ Meetings.compareMeetings h c (Meetings.sortDirection s) a b = 0).
    { intros a b. split; [apply sortValues_unknown; exact N |].
      apply compareMeetings_equal_keys.
      rewrite sortValues_unknown by exact N. reflexivity. }
    split; [exact K |].
    unfold Meetings.sortedAndFilteredMeetings. rewrite E.
    destruct (JS.truthyStr c); [| reflexivity].
    apply sort_constant. intros a b. apply K.
  - intros s f E Ab. split.
    + intros a b Ha Hb. rewrite (Ab a Ha), (Ab b Hb).
      split; [reflexivity | split; [reflexivity |]].
      apply compareLeads_absent; apply Ab; assumption.
    + unfold LeadTable.filtered, LeadTable.sortStep. rewrite E.
      destruct (JS.truthyStr f); [| reflexivity].
      apply sort_ties. intros x y Hx Hy.
      rewrite ownerStep_filter, statusStep_filter, searchStep_filter in Hx, Hy.
      repeat (apply filter_In in Hx; destruct Hx as [Hx _]).
      repeat (apply filter_In in Hy; destruct Hy as [Hy _]).
      apply compareLeads_absent; apply Ab; assumption.
  - intros f x. split; [apply orEmptyValue_defined |].
    intros N A O. rewrite getField_unknown by assumption.
    apply lookup_absent. exact O.
  - intros h s E Ab.
    unfold Meetings.sortedAndFilteredMeetings. rewrite E. simpl.
    apply sort_ties. intros x y Hx Hy.
    apply filter_In in Hx, Hy.
    destruct (Ab x (proj1 Hx)) as [Lx Cx]. destruct (Ab y (proj1 Hy)) as [Ly Cy].
    apply compareMeetings_equal_keys. simpl.
    rewrite Lx, Cx, Ly, Cy. reflexivity.
Qed.

(** Sorting the Meetings page on "priority", a column it does not
    have, leaves the three meetings in their order. *)
Lemma C8_unknown_sort_column_witness :
  Meetings.sortColumn Samples.byPriority = Some "priority"
  /\ ~ In "priority" Meetings.columns
  /\ Meetings.sortedAndFilteredMeetings Samples.at1030 Samples.byPriority
     = [Samples.standup; Samples.acme; Samples.instant].
Proof.
  assert (E : Meetings.sortColumn Samples.byPriority = Some "priority")
    by reflexivity.
  assert (N : ~ In "priority" Meetings.columns)
    by (simpl; intuition discriminate).
  split; [exact E | split; [exact N |]].
  exact (proj2 (proj1 C8_unknown_sort_column
                  Samples.at1030 Samples.byPriority "priority" E N)).
Defined.

(** C8 as stated fails in the Leads table: "accounts" is none of the
    properties the interface names, yet every fetched lead keeps the
    joined account under that name.  Sorted on it, a lead with an
    account has the key "[object Object]", a lead without one the
    empty key, and the two fetched leads change places. *)
Lemma C8_sort_on_accounts_reorders :
  LeadTable.sortField Samples.byAccounts = Some "accounts"
  /\ ~ In "accounts" LeadTable.keysOfLead
  /\ LeadTable.leads Samples.byAccounts
     = [LeadTable.transform Samples.linkedRow;
        LeadTable.transform Samples.looseRow]
  /\ LeadTable.toString
       (LeadTable.orEmptyValue
          (LeadTable.getField "accounts"
             (LeadTable.transform Samples.linkedRow)))
     = "[object Object]"
  /\ LeadTable.compareLeads "accounts" asc
       (LeadTable.transform Samples.linkedRow)
       (LeadTable.transform Samples.looseRow) = 1
  /\ LeadTable.filteredLeads Samples.byAccounts
     = [LeadTable.transform Samples.looseRow;
        LeadTable.transform Samples.linkedRow]
  /\ LeadTable.filtered Samples.byAccounts
     <> LeadTable.ownerStep (LeadTable.ownerFilter Samples.byAccounts)
          (LeadTable.statusStep (LeadTable.statusFilter Samples.byAccounts)
             (LeadTable.searchStep (LeadTable.searchTerm Samples.byAccounts)
                (LeadTable.leads Samples.byAccounts))).
Proof.
  split; [reflexivity |].
  split; [simpl; intuition discriminate |].
  split; [reflexivity |].
  split; [reflexivity |].
  split; [vm_compute; reflexivity |].
  split; [vm_compute; reflexivity |].
  vm_compute. discriminate.
Qed.

(* ================================================================== *)
(** * Letter case in the comparators *)

Section LetterCase.
Import JS.

Lemma lower_char_idem (c : ascii) : lower_char (lower_char c) = lower_char c.
Proof.
  destruct c as [[] [] [] [] [] [] [] []]; vm_compute; reflexivity.
Qed.

Lemma sameUpToCase_lower (s t : string) :
  Spec.sameUpToCase s t -> toLowerCase s = toLowerCase t.
Proof.
  induction 1 as [| c s t _ IH | c s t _ _ IH | c s t _ _ IH]; simpl;
    rewrite ?lower_char_idem, ?IH; reflexivity.
Qed.

Lemma lower_char_eq (c d : ascii) :
  lower_char c = lower_char d ->
  c = d
  \/ (is_upper c = true /\ d = lower_char c)
  \/ (is_upper d = true /\ c = lower_char d).
Proof.
  unfold lower_char.
  destruct (is_upper c) eqn:Uc; destruct (is_upper d) eqn:Ud; intros E.
  - left. unfold is_upper in Uc, Ud.
    apply andb_true_iff in Uc, Ud.
    rewrite !N.leb_le in Uc, Ud.
    apply (f_equal N_of_ascii) in E.
    rewrite !N_ascii_embedding in E by lia.
    rewrite <- (ascii_N_embedding c), <- (ascii_N_embedding d).
    f_equal. lia.
  - right. left. split; [reflexivity | symmetry; exact E].
  - right. right. split; [reflexivity | exact E].
  - left. exact E.
Qed.

(** Lower-casing identifies exactly the strings that differ in letter
    case only. *)
Lemma lower_sameUpToCase (s t : string) :
  toLowerCase s = toLowerCase t -> Spec.sameUpToCase s t.
Proof.
  revert t. induction s as [| c s IH]; intros [| d t] E; simpl in E;
    try discriminate; [constructor |].
  injection E as Ec Es. specialize (IH t Es).
  destruct (lower_char_eq c d Ec) as [-> | [[U ->] | [U ->]]];
    constructor; assumption.
Qed.

(** The Meetings view lower-cases its text keys and compares them
    code unit by code unit. *)
Lemma compareMeetings_subject (h : Host) (a b : Meetings.Meeting) :
  Meetings.compareMeetings h "subject" asc a b
  = match String.compare (toLowerCase (Meetings.subject a))
                         (toLowerCase (Meetings.subject b)) with
    | Lt => -1
    | Eq => 0
    | Gt => 1
    end.
Proof.
  unfold Meetings.compareMeetings. simpl. unfold str_lt, str_gt.
  destruct (String.compare _ _); reflexivity.
Qed.

Lemma compareMeetings_ignores_case (h : Host) (d : SortDirection)
  (a b : Meetings.Meeting) :
  (Spec.sameUpToCase (Meetings.subject a) (Meetings.subject b) ->
   Meetings.compareMeetings h "subject" d a b = 0)
  /\ (Spec.sameUpToCase
        (orEmpty (orStr (Meetings.lead_name a) (Meetings.contact_name a)))
        (orEmpty (orStr (Meetings.lead_name b) (Meetings.contact_name b))) ->
      Meetings.compareMeetings h "lead_contact" d a b = 0).
Proof.
  split; intros S; apply compareMeetings_equal_keys; simpl;
    rewrite (sameUpToCase_lower _ _ S); reflexivity.
Qed.
End LetterCase.

(** C7, in the Leads table.  The comparator hands the two field values
    to [localeCompare] as they are, without lower-casing them: for the
    names "a" and "A", which differ in case only, it answers -1 and 1,
    not 0, and the sort puts "a" before "A" whatever their order was.
    The Meetings comparator lower-cases both sides
    ([compareMeetings_ignores_case]). *)
Theorem C7_leads_comparator_keeps_case :
  Spec.sameUpToCase "a" "A"
  /\ LeadTable.compareLeads "lead_name" asc Samples.lower_a Samples.upper_a = -1
  /\ LeadTable.compareLeads "lead_name" asc Samples.upper_a Samples.lower_a = 1
  /\ JS.sort (LeadTable.compareLeads "lead_name" asc)
             [Samples.upper_a; Samples.lower_a]
     = [Samples.lower_a; Samples.upper_a].
Proof.
  split; [| repeat split].
  apply (Spec.same_lower_upper "A"%char "" ""); [reflexivity | constructor].
Qed.

(* ================================================================== *)
(** * Fetching the meetings *)

Section Fetch.
Import Meetings.
Variable s : State.

Lemma fetchMeetings_success (r : Response) :
  succeeded r = true ->
  meetings (fetchMeetings r s) = map transform (dataOf r)
  /\ selectedMeetings (fetchMeetings r s) = []
  /\ toasts (fetchMeetings r s) = toasts s
  /\ loading (fetchMeetings r s) = false.
Proof.
  destruct r as [| [d |] [e |]]; simpl; try discriminate;
    intros _; repeat split.
Qed.

Lemma fetchMeetings_failure (r : Response) :
  succeeded r = false ->
  meetings (fetchMeetings r s) = meetings s
  /\ filteredMeetings (fetchMeetings r s) = filteredMeetings s
  /\ selectedMeetings (fetchMeetings r s) = selectedMeetings s
  /\ toasts (fetchMeetings r s) = toasts s ++ [fetchError]
  /\ loading (fetchMeetings r s) = false.
Proof.
  destruct r as [| [d |] [e |]]; simpl; try discriminate;
    intros _; repeat split.
Qed.
End Fetch.

(** C10.  A fetch of the meetings that succeeds stores the fetched
    rows and empties the selection; one that fails, by an error in the
    response or by an exception, leaves the meetings, the list on
    display and the selection as they were and only reports the
    failure.  Either way the loading flag ends cleared. *)
Theorem C10_fetch_meetings (s : Meetings.State) (r : Meetings.Response) :
  (Meetings.succeeded r = true ->
   Meetings.selectedMeetings (Meetings.fetchMeetings r s) = []
   /\ Meetings.meetings (Meetings.fetchMeetings r s)
      = map Meetings.transform (Meetings.dataOf r)
   /\ Meetings.toasts (Meetings.fetchMeetings r s) = Meetings.toasts s)
  /\ (Meetings.succeeded r = false ->
      Meetings.meetings (Meetings.fetchMeetings r s) = Meetings.meetings s
      /\ Meetings.filteredMeetings (Meetings.fetchMeetings r s)
         = Meetings.filteredMeetings s
      /\ Meetings.selectedMeetings (Meetings.fetchMeetings r s)
         = Meetings.selectedMeetings s
      /\ Meetings.toasts (Meetings.fetchMeetings r s)
         = Meetings.toasts s ++ [Meetings.fetchError])
  /\ Meetings.loading (Meetings.fetchMeetings r s) = false.
Proof.
  split; [| split].
  - intros E. destruct (fetchMeetings_success s r E) as [M [S [T _]]].
    auto.
  - intros E. destruct (fetchMeetings_failure s r E) as [M [F [S [T _]]]].
    auto.
  - destruct r as [| [d |] [e |]]; reflexivity.
Qed.

(** A fetch that succeeds clears the selection "m1"; one that comes
    back with an error keeps it. *)
Lemma C10_fetch_meetings_witness :
  Meetings.succeeded (Meetings.Resolved (Some Samples.fetched) None) = true
  /\ Meetings.selectedMeetings
       (Meetings.fetchMeetings (Meetings.Resolved (Some Samples.fetched) None)
          Samples.shown) = []
  /\ Meetings.succeeded (Meetings.Resolved None (Some "timeout")) = false
  /\ Meetings.selectedMeetings
       (Meetings.fetchMeetings (Meetings.Resolved None (Some "timeout"))
          Samples.shown) = Meetings.selectedMeetings Samples.shown.
Proof.
  split; [reflexivity | split; [| split; [reflexivity |]]].
  - exact (proj1 (proj1 (C10_fetch_meetings Samples.shown
                           (Meetings.Resolved (Some Samples.fetched) None))
                    eq_refl)).
  - exact (proj1 (proj2 (proj2
             (proj1 (proj2 (C10_fetch_meetings Samples.shown
                              (Meetings.Resolved None (Some "timeout"))))
                eq_refl)))).
Defined.

(* ================================================================== *)
(** * Beyond the listed properties: the sort headers *)

Section SortHeaders.
Import Meetings.

Lemma sameColumn_eq (x y : option string) : sameColumn x y = true <-> x = y.
Proof.
  destruct x as [a |], y as [b |]; simpl; rewrite ?String.eqb_eq;
    split; congruence.
Qed.

Lemma handleSort_same (c : option string) (s : State) :
  sortColumn s = c ->
  handleSort c s = setSort c (Spec.opposite (sortDirection s)) s.
Proof.
  intros <-. unfold handleSort.
  rewrite (proj2 (sameColumn_eq _ _) eq_refl).
  destruct (sortDirection s); reflexivity.
Qed.

Lemma handleSort_other (c : option string) (s : State) :
  sortColumn s <> c -> handleSort c s = setSort c asc s.
Proof.
  intros N. unfold handleSort.
  destruct (sameColumn (sortColumn s) c) eqn:E; [| reflexivity].
  apply sameColumn_eq in E. contradiction.
Qed.

Lemma leads_handleSort_same (f : string) (s : LeadTable.State) :
  LeadTable.sortField s = Some f ->
  LeadTable.handleSort f s
  = LeadTable.setSort (Some f) (Spec.opposite (LeadTable.sortDirection s)) s.
Proof.
  intros E. unfold LeadTable.handleSort. rewrite E. simpl.
  rewrite String.eqb_refl. destruct (LeadTable.sortDirection s); reflexivity.
Qed.

Lemma leads_handleSort_other (f : string) (s : LeadTable.State) :
  LeadTable.sortField s <> Some f ->
  LeadTable.handleSort f s = LeadTable.setSort (Some f) asc s.
Proof.
  intros N. unfold LeadTable.handleSort.
  destruct (JS.strictEq (LeadTable.sortField s) f) eqn:E; [| reflexivity].
  destruct (LeadTable.sortField s) as [g |]; [| discriminate].
  simpl in E. apply String.eqb_eq in E. congruence.
Qed.
End SortHeaders.

(** A click on a header makes it the sort column.  The first click on
    a column sorts ascending, a click on the column already sorted
    reverses the direction, so a second click undoes what the first did
    to the direction; and nothing but the sort changes.  So it is for
    the Meetings view and, with the page of the table back at 1, for
    the Leads table. *)
Theorem handleSort_alternates :
  (forall (c : option string) (s : Meetings.State),
     Meetings.sortColumn (Meetings.handleSort c s) = c
     /\ (Meetings.sortColumn s <> c ->
         Meetings.sortDirection (Meetings.handleSort c s) = asc)
     /\ (Meetings.sortColumn s = c ->
         Meetings.sortDirection (Meetings.handleSort c s)
         = Spec.opposite (Meetings.sortDirection s))
     /\ Meetings.sortDirection (Meetings.handleSort c (Meetings.handleSort c s))
        = Spec.opposite (Meetings.sortDirection (Meetings.handleSort c s))
     /\ Meetings.handleSort c (Meetings.handleSort c (Meetings.handleSort c s))
        = Meetings.handleSort c s
     /\ Meetings.meetings (Meetings.handleSort c s) = Meetings.meetings s
     /\ Meetings.selectedMeetings (Meetings.handleSort c s)
        = Meetings.selectedMeetings s)
  /\ (forall (f : string) (s : LeadTable.State),
        LeadTable.sortField (LeadTable.handleSort f s) = Some f
        /\ (LeadTable.sortField s <> Some f ->
            LeadTable.sortDirection (LeadTable.handleSort f s) = asc)
        /\ (LeadTable.sortField s = Some f ->
            LeadTable.sortDirection (LeadTable.handleSort f s)
            = Spec.opposite (LeadTable.sortDirection s))
        /\ LeadTable.sortDirection
             (LeadTable.handleSort f (LeadTable.handleSort f s))
           = Spec.opposite (LeadTable.sortDirection (LeadTable.handleSort f s))
        /\ LeadTable.handleSort f
             (LeadTable.handleSort f (LeadTable.handleSort f s))
           = LeadTable.handleSort f s
        /\ LeadTable.selectedLeads (LeadTable.handleSort f s)
           = LeadTable.selectedLeads s).
Proof.
  split.
  - intros c s.
    assert (D : {Meetings.sortColumn s = c} + {Meetings.sortColumn s <> c})
      by (repeat decide equality).
    destruct D as [E | N].
    + rewrite (handleSort_same c s E).
      set (s1 := Meetings.setSort _ _ s).
      rewrite (handleSort_same c s1 eq_refl).
      set (s2 := Meetings.setSort _ _ s1).
      rewrite (handleSort_same c s2 eq_refl).
      subst s2 s1. simpl.
      destruct (Meetings.sortDirection s); repeat split; congruence.
    + rewrite (handleSort_other c s N).
      set (s1 := Meetings.setSort _ _ s).
      rewrite (handleSort_same c s1 eq_refl).
      set (s2 := Meetings.setSort _ _ s1).
      rewrite (handleSort_same c s2 eq_refl).
      subst s2 s1. simpl. repeat split; congruence.
  - intros f s.
    assert (D : {LeadTable.sortField s = Some f}
                + {LeadTable.sortField s <> Some f})
      by (repeat decide equality).
    destruct D as [E | N].
    + rewrite (leads_handleSort_same f s E).
      set (s1 := LeadTable.setSort _ _ s).
      rewrite (leads_handleSort_same f s1 eq_refl).
      set (s2 := LeadTable.setSort _ _ s1).
      rewrite (leads_handleSort_same f s2 eq_refl).
      subst s2 s1. simpl.
      destruct (LeadTable.sortDirection s); repeat split; congruence.
    + rewrite (leads_handleSort_other f s N).
      set (s1 := LeadTable.setSort _ _ s).
      rewrite (leads_handleSort_same f s1 eq_refl).
      set (s2 := LeadTable.setSort _ _ s1).
      rewrite (leads_handleSort_same f s2 eq_refl).
      subst s2 s1. simpl. repeat split; congruence.
Qed.

Lemma handleSort_alternates_witness :
  Meetings.sortColumn Samples.byPriority <> Some "date"
  /\ Meetings.sortDirection
       (Meetings.handleSort (Some "date") Samples.byPriority) = asc.
Proof.
  assert (N : Meetings.sortColumn Samples.byPriority <> Some "date")
    by discriminate.
  split; [exact N |].
  exact (proj1 (proj2 (proj1 handleSort_alternates (Some "date")
                         Samples.byPriority)) N).
Defined.

(* ================================================================== *)
(** * Beyond the listed properties: what the Meetings table shows *)

Section Shown.
Import Meetings.

Lemma sort_In {A : Type} (cmp : A -> A -> Z) (l : list A) (x : A) :
  In x (JS.sort cmp l) <-> In x l.
Proof.
  split; apply Permutation_in; [| symmetry]; apply sort_perm.
Qed.

Lemma sortedAndFilteredMeetings_perm (h : Host) (s : State) :
  Permutation (sortedAndFilteredMeetings h s)
    (filter (passes h (searchTerm s) (statusFilter s) (organizerFilter s))
            (meetings s)).
Proof.
  unfold sortedAndFilteredMeetings.
  destruct (sortColumn s) as [c |]; [| reflexivity].
  destruct (JS.truthyStr c); [apply sort_perm | reflexivity].
Qed.

Lemma sortedAndFilteredMeetings_In (h : Host) (s : State) (m : Meeting) :
  In m (sortedAndFilteredMeetings h s)
  <-> In m (meetings s)
      /\ passes h (searchTerm s) (statusFilter s) (organizerFilter s) m = true.
Proof.
  rewrite <- filter_In. split; apply Permutation_in;
    [| symmetry]; apply sortedAndFilteredMeetings_perm.
Qed.

Lemma memoDepsChanged_same (s : State) (v : string) :
  memoDepsChanged s (setOrganizerFilter v s) = false.
Proof.
  unfold memoDepsChanged. simpl. rewrite !String.eqb_refl.
  rewrite (proj2 (sameColumn_eq _ _) eq_refl).
  destruct (sortDirection s); reflexivity.
Qed.
End Shown.

(** Picking an organizer changes the filter value and nothing on
    display: the list shown is recomputed only when the meetings, the
    search term, the status filter or the sort change, and the
    organizer is not among these.  The pick takes effect with the next
    such change: after a change of the search term every meeting shown
    is one of the organizer picked.  A pick of a status, by contrast,
    is applied at once. *)
Theorem organizer_pick_waits (h h' : Host) (v : string) (s : Meetings.State) :
  Meetings.filteredMeetings (Meetings.pickOrganizer h v s)
  = Meetings.filteredMeetings s
  /\ Meetings.organizerFilter (Meetings.pickOrganizer h v s) = v
  /\ (forall t, t <> Meetings.searchTerm s ->
        Meetings.filteredMeetings
          (Meetings.typeSearch h' t (Meetings.pickOrganizer h v s))
        = Meetings.sortedAndFilteredMeetings h'
            (Meetings.setSearchTerm t (Meetings.setOrganizerFilter v s))
        /\ forall m,
             In m (Meetings.filteredMeetings
                     (Meetings.typeSearch h' t (Meetings.pickOrganizer h v s))) ->
             Meetings.matchesOrganizer v m = true)
  /\ (forall f, f <> Meetings.statusFilter s ->
        Meetings.filteredMeetings (Meetings.pickStatus h f s)
        = Meetings.sortedAndFilteredMeetings h (Meetings.setStatusFilter f s)).
Proof.
  assert (P : Meetings.pickOrganizer h v s = Meetings.setOrganizerFilter v s).
  { unfold Meetings.pickOrganizer, Meetings.rerender.
    rewrite memoDepsChanged_same. reflexivity. }
  rewrite P. split; [reflexivity | split; [reflexivity | split]].
  - intros t N.
    assert (E : Meetings.filteredMeetings
                  (Meetings.typeSearch h' t (Meetings.setOrganizerFilter v s))
                = Meetings.sortedAndFilteredMeetings h'
                    (Meetings.setSearchTerm t (Meetings.setOrganizerFilter v s))).
    { unfold Meetings.typeSearch, Meetings.rerender, Meetings.memoDepsChanged.
      simpl. apply not_eq_sym in N. apply String.eqb_neq in N. rewrite N.
      reflexivity. }
    split; [exact E |].
    intros m H. rewrite E in H.
    apply sortedAndFilteredMeetings_In in H. destruct H as [_ H].
    rewrite passes_conjunction in H. simpl in H.
    apply andb_true_iff in H. apply H.
  - intros f N.
    unfold Meetings.pickStatus, Meetings.rerender, Meetings.memoDepsChanged.
    simpl. rewrite String.eqb_refl.
    apply not_eq_sym in N. apply String.eqb_neq in N. rewrite N.
    reflexivity.
Qed.

(** With the two meetings of the sample on display, a pick of the
    organizer "u2", who organized neither, leaves both on display;
    typing "s" then shows none. *)
Lemma organizer_pick_waits_witness :
  Meetings.filteredMeetings
    (Meetings.pickOrganizer Samples.at1030 "u2" Samples.shownTwo)
  = [Samples.acme; Samples.standup]
  /\ "s" <> Meetings.searchTerm Samples.shownTwo
  /\ Meetings.filteredMeetings
       (Meetings.typeSearch Samples.at1030 "s"
          (Meetings.pickOrganizer Samples.at1030 "u2" Samples.shownTwo))
     = [].
Proof.
  assert (N : "s" <> Meetings.searchTerm Samples.shownTwo) by discriminate.
  split; [| split; [exact N |]].
  - exact (proj1 (organizer_pick_waits Samples.at1030 Samples.at1030 "u2"
                    Samples.shownTwo)).
  - exact (proj1 (proj1 (proj2 (proj2
             (organizer_pick_waits Samples.at1030 Samples.at1030 "u2"
                Samples.shownTwo))) "s" N)).
Defined.

(* ================================================================== *)
(** * Beyond the listed properties: checkboxes *)

Section Checkboxes.
Import JS.

Lemma arrayIncludes_In (arr : list string) (x : string) :
  arrayIncludes arr x = true <-> In x arr.
Proof.
  unfold arrayIncludes. rewrite existsb_exists. split.
  - intros [y [H E]]. apply String.eqb_eq in E. subst. exact H.
  - intros H. exists x. split; [exact H | apply String.eqb_refl].
Qed.

Lemma arrayIncludes_app (a b : list string) (x : string) :
  arrayIncludes (a ++ b) x = arrayIncludes a x || arrayIncludes b x.
Proof. unfold arrayIncludes. apply existsb_app. Qed.

Lemma arrayIncludes_without (arr : list string) (i x : string) :
  arrayIncludes (filter (fun j => negb (j =? i)%string) arr) x
  = arrayIncludes arr x && negb (x =? i)%string.
Proof.
  induction arr as [| y arr IH]; [reflexivity |]. simpl.
  destruct (String.eqb_spec y i) as [-> | Ny]; simpl.
  - rewrite IH. destruct (String.eqb_spec i x) as [<- | Nx]; simpl.
    + rewrite String.eqb_refl, andb_false_r. reflexivity.
    + reflexivity.
  - rewrite IH. destruct (String.eqb_spec y x) as [<- | Nx]; simpl.
    + apply String.eqb_neq in Ny. rewrite Ny. reflexivity.
    + reflexivity.
Qed.

Lemma arrayIncludes_map {A : Type} (f : A -> string) (l : list A) (x : A) :
  In x l -> arrayIncludes (map f l) (f x) = true.
Proof. intros H. apply arrayIncludes_In. apply in_map. exact H. Qed.
End Checkboxes.

(** The checkbox of a row follows the toggles: after a row is toggled
    on its checkbox is checked, after it is toggled off it is not, and
    the checkbox of a row of another id stays as it was.  So it is in
    the Meetings view and in the Leads table. *)
Theorem row_checkbox_follows_toggle (i : string) :
  (forall (s : Meetings.State) (m : Meetings.Meeting),
     Meetings.rowChecked (Meetings.handleSelectMeeting i true s) m
     = Meetings.rowChecked s m || (Meetings.id m =? i)%string
     /\ Meetings.rowChecked (Meetings.handleSelectMeeting i false s) m
        = Meetings.rowChecked s m && negb (Meetings.id m =? i)%string)
  /\ (forall (s : LeadTable.State) (l : LeadTable.Lead),
        LeadTable.rowChecked (LeadTable.handleSelectLead i true s) l
        = LeadTable.rowChecked s l || (LeadTable.id l =? i)%string
        /\ LeadTable.rowChecked (LeadTable.handleSelectLead i false s) l
           = LeadTable.rowChecked s l && negb (LeadTable.id l =? i)%string).
Proof.
  split; intros s m.
  - unfold Meetings.rowChecked. simpl.
    rewrite arrayIncludes_app, arrayIncludes_without. simpl.
    rewrite orb_false_r, (String.eqb_sym i). split; reflexivity.
  - unfold LeadTable.rowChecked. simpl.
    rewrite arrayIncludes_app, arrayIncludes_without. simpl.
    rewrite orb_false_r, (String.eqb_sym i). split; reflexivity.
Qed.

(** The header checkbox of the Meetings view.  It is never checked and
    indeterminate at once.  After "select all" is ticked every row
    shown is checked, and the header is checked unless no meeting is
    shown; after it is cleared no row is checked and the header is
    neither checked nor indeterminate. *)
Theorem meetings_header_checkbox (s : Meetings.State) :
  Meetings.isAllSelected s && Meetings.isSomeSelected s = false
  /\ Meetings.isAllSelected (Meetings.handleSelectAll true s)
     = negb (Nat.eqb (List.length (Meetings.filteredMeetings s)) 0)
  /\ Meetings.isSomeSelected (Meetings.handleSelectAll true s) = false
  /\ (forall m, In m (Meetings.filteredMeetings s) ->
                Meetings.rowChecked (Meetings.handleSelectAll true s) m = true)
  /\ Meetings.isAllSelected (Meetings.handleSelectAll false s) = false
  /\ Meetings.isSomeSelected (Meetings.handleSelectAll false s) = false
  /\ (forall m, Meetings.rowChecked (Meetings.handleSelectAll false s) m = false).
Proof.
  unfold Meetings.isAllSelected, Meetings.isSomeSelected, Meetings.rowChecked.
  split; [| split; [| split; [| split; [| split; [| split]]]]].
  - destruct (Z.eqb_spec (Z.of_nat (List.length (Meetings.selectedMeetings s)))
                (Z.of_nat (List.length (Meetings.filteredMeetings s))))
      as [E | N].
    + rewrite E, Z.ltb_irrefl, !andb_false_r. reflexivity.
    + rewrite andb_false_r. reflexivity.
  - cbn [Meetings.handleSelectAll Meetings.setSelectedMeetings
         Meetings.selectedMeetings Meetings.filteredMeetings].
    rewrite length_map, Z.eqb_refl, andb_true_r.
    destruct (Meetings.filteredMeetings s); reflexivity.
  - cbn [Meetings.handleSelectAll Meetings.setSelectedMeetings
         Meetings.selectedMeetings Meetings.filteredMeetings].
    rewrite length_map, Z.ltb_irrefl. apply andb_false_r.
  - intros m H. apply arrayIncludes_map. exact H.
  - cbn [Meetings.handleSelectAll Meetings.setSelectedMeetings
         Meetings.selectedMeetings Meetings.filteredMeetings].
    destruct (Meetings.filteredMeetings s); reflexivity.
  - reflexivity.
  - reflexivity.
Qed.

Lemma meetings_header_checkbox_witness :
  In Samples.acme (Meetings.filteredMeetings Samples.shownTwo)
  /\ Meetings.rowChecked (Meetings.handleSelectAll true Samples.shownTwo)
       Samples.acme = true.
Proof.
  assert (H : In Samples.acme (Meetings.filteredMeetings Samples.shownTwo))
    by (left; reflexivity).
  split; [exact H |].
  exact (proj1 (proj2 (proj2 (proj2
           (meetings_header_checkbox Samples.shownTwo)))) Samples.acme H).
Defined.

(* ================================================================== *)
(** * Beyond the listed properties: deleting meetings *)

(** Deleting one meeting.  A delete that fails changes nothing but for
    the error it reports, and no fetch follows.  A delete that
    succeeds is followed by a fetch, and with it, when the fetch
    succeeds, the whole selection is emptied, whichever rows were
    ticked; when the fetch fails the meetings and the selection stay
    as they were. *)
Theorem meetings_handleDelete (d : Meetings.DeleteReply) (r : Meetings.Response)
  (s : Meetings.State) :
  (Meetings.deleted d = false ->
   Meetings.handleDelete d r s = Meetings.toast Meetings.deleteError s)
  /\ (Meetings.deleted d = true -> Meetings.succeeded r = true ->
      Meetings.selectedMeetings (Meetings.handleDelete d r s) = []
      /\ Meetings.meetings (Meetings.handleDelete d r s)
         = map Meetings.transform (Meetings.dataOf r)
      /\ Meetings.toasts (Meetings.handleDelete d r s)
         = Meetings.toasts s ++ [Meetings.deleteSuccess])
  /\ (Meetings.deleted d = true -> Meetings.succeeded r = false ->
      Meetings.selectedMeetings (Meetings.handleDelete d r s)
      = Meetings.selectedMeetings s
      /\ Meetings.meetings (Meetings.handleDelete d r s) = Meetings.meetings s
      /\ Meetings.toasts (Meetings.handleDelete d r s)
         = Meetings.toasts s ++ [Meetings.deleteSuccess; Meetings.fetchError]).
Proof.
  unfold Meetings.handleDelete.
  split; [| split]; intros D; rewrite D; [reflexivity | |]; intros R.
  - destruct (fetchMeetings_success (Meetings.toast Meetings.deleteSuccess s) r R)
      as [M [S [T _]]].
    auto.
  - destruct (fetchMeetings_failure (Meetings.toast Meetings.deleteSuccess s) r R)
      as [M [_ [S [T _]]]].
    rewrite M, S, T. simpl. rewrite <- app_assoc. auto.
Qed.

Lemma meetings_handleDelete_witness :
  Meetings.deleted (Meetings.DeleteResolved None) = true
  /\ Meetings.succeeded (Meetings.Resolved (Some Samples.fetched) None) = true
  /\ Meetings.selectedMeetings
       (Meetings.handleDelete (Meetings.DeleteResolved None)
          (Meetings.Resolved (Some Samples.fetched) None) Samples.shown) = [].
Proof.
  split; [reflexivity | split; [reflexivity |]].
  exact (proj1 (proj1 (proj2
           (meetings_handleDelete (Meetings.DeleteResolved None)
              (Meetings.Resolved (Some Samples.fetched) None) Samples.shown))
           eq_refl eq_refl)).
Defined.

(** Deleting the selected meetings.  A delete that fails keeps the
    selection and the meetings and reports the error.  A delete that
    succeeds empties the selection and reports the number of ids it
    was sent with, whatever becomes of the fetch that follows; if that
    fetch fails, the meetings of before, the deleted ones among them,
    stay in the table. *)
Theorem meetings_handleBulkDelete (d : Meetings.DeleteReply)
  (r : Meetings.Response) (s : Meetings.State) :
  (Meetings.deleted d = false ->
   Meetings.handleBulkDelete d r s = Meetings.toast Meetings.bulkDeleteError s)
  /\ (Meetings.deleted d = true ->
      Meetings.selectedMeetings (Meetings.handleBulkDelete d r s) = []
      /\ exists rest,
           Meetings.toasts (Meetings.handleBulkDelete d r s)
           = Meetings.toasts s
             ++ Meetings.bulkDeleteSuccess
                  (List.length (Meetings.selectedMeetings s)) :: rest)
  /\ (Meetings.deleted d = true -> Meetings.succeeded r = false ->
      Meetings.meetings (Meetings.handleBulkDelete d r s) = Meetings.meetings s
      /\ Meetings.filteredMeetings (Meetings.handleBulkDelete d r s)
         = Meetings.filteredMeetings s).
Proof.
  unfold Meetings.handleBulkDelete.
  split; [| split]; intros D; rewrite D; [reflexivity | |].
  - destruct r as [| [x |] [e |]]; simpl; (split; [reflexivity |]);
      rewrite <- ?app_assoc; simpl; eexists; reflexivity.
  - intros R. destruct r as [| [x |] [e |]]; try discriminate;
      split; reflexivity.
Qed.

Lemma meetings_handleBulkDelete_witness :
  Meetings.deleted (Meetings.DeleteResolved None) = true
  /\ Meetings.succeeded Meetings.Threw = false
  /\ Meetings.selectedMeetings
       (Meetings.handleBulkDelete (Meetings.DeleteResolved None) Meetings.Threw
          Samples.shown) = []
  /\ Meetings.meetings
       (Meetings.handleBulkDelete (Meetings.DeleteResolved None) Meetings.Threw
          Samples.shown) = Meetings.meetings Samples.shown.
Proof.
  split; [reflexivity | split; [reflexivity | split]].
  - exact (proj1 (proj1 (proj2
             (meetings_handleBulkDelete (Meetings.DeleteResolved None)
                Meetings.Threw Samples.shown)) eq_refl)).
  - exact (proj1 (proj2 (proj2
             (meetings_handleBulkDelete (Meetings.DeleteResolved None)
                Meetings.Threw Samples.shown)) eq_refl eq_refl)).
Defined.

(* ================================================================== *)
(** * Beyond the listed properties: the ids of the organizers *)

Section Uniq.
Import JS.

Lemma addAll_In (arr seen : list string) (x : string) :
  In x (addAll seen arr) <-> In x seen \/ In x arr.
Proof.
  revert seen. induction arr as [| y arr IH]; intros seen; simpl.
  - tauto.
  - rewrite IH. destruct (arrayIncludes seen y) eqn:E.
    + apply arrayIncludes_In in E. split; [tauto |].
      intros [H | [<- | H]]; auto.
    + rewrite in_app_iff. simpl. tauto.
Qed.

Lemma addAll_NoDup (arr seen : list string) :
  NoDup seen -> NoDup (addAll seen arr).
Proof.
  revert seen. induction arr as [| y arr IH]; intros seen D; simpl;
    [exact D |].
  apply IH. destruct (arrayIncludes seen y) eqn:E; [exact D |].
  apply NoDup_app; [exact D | constructor; [intros [] | constructor] |].
  intros a Ha [<- | []].
  apply arrayIncludes_In in Ha. congruence.
Qed.

Lemma filterBoolean_In (arr : list (option string)) (x : string) :
  In x (filterBoolean arr) <-> In (Some x) arr /\ x <> "".
Proof.
  unfold filterBoolean. rewrite in_flat_map. split.
  - intros [[s |] [H I]]; [| destruct I].
    unfold truthyStr in I. destruct (String.eqb_spec s ""); simpl in I;
      [destruct I |].
    destruct I as [<- | []]. split; assumption.
  - intros [H N]. exists (Some x). split; [exact H |].
    unfold truthyStr. apply String.eqb_neq in N. rewrite N. left. reflexivity.
Qed.
End Uniq.

(** The ids handed to the lookup of display names, in the Meetings view
    and in the Leads table: each id once, and exactly the non-empty
    [created_by] values of the records; a record without one adds
    nothing. *)
Theorem organizer_ids_distinct :
  (forall s : Meetings.State,
     NoDup (Meetings.organizerIds s)
     /\ forall x, In x (Meetings.organizerIds s)
                  <-> x <> ""
                      /\ exists m, In m (Meetings.meetings s)
                                   /\ Meetings.created_by m = Some x)
  /\ (forall s : LeadTable.State,
        NoDup (LeadTable.createdByIds s)
        /\ forall x, In x (LeadTable.createdByIds s)
                     <-> x <> ""
                         /\ exists l, In l (LeadTable.leads s)
                                      /\ LeadTable.created_by l = Some x).
Proof.
  split; intros s; (split; [apply addAll_NoDup; constructor |]); intros x.
  - unfold Meetings.organizerIds, JS.uniq.
    rewrite addAll_In, filterBoolean_In, in_map_iff. simpl. split.
    + intros [[] | [[m [E H]] N]]. split; [exact N | eauto].
    + intros [N [m [H E]]]. right. split; [eauto | exact N].
  - unfold LeadTable.createdByIds, JS.uniq.
    rewrite addAll_In, filterBoolean_In, in_map_iff. simpl. split.
    + intros [[] | [[m [E H]] N]]. split; [exact N | eauto].
    + intros [N [m [H E]]]. right. split; [eauto | exact N].
Qed.

(* ================================================================== *)
(** * Beyond the listed properties: the order a sort gives *)

Section SortOrder.
Context {A : Type}.
Variable cmp : A -> A -> Z.

Lemma insert_In (x y : A) (l : list A) :
  In y (JS.insert cmp x l) <-> y = x \/ In y l.
Proof.
  split.
  - intros H. apply (Permutation_in _ (insert_perm cmp x l)) in H.
    destruct H; auto.
  - intros H. apply (Permutation_in _ (Permutation_sym (insert_perm cmp x l))).
    destruct H; [left; auto | right; assumption].
Qed.

Section Ordered.
Hypothesis total : forall x y, cmp x y <= 0 \/ cmp y x <= 0.
Hypothesis trans : forall x y z, cmp x y <= 0 -> cmp y z <= 0 -> cmp x z <= 0.

Lemma insert_sorted (x : A) (l : list A) :
  StronglySorted (fun a b => cmp a b <= 0) l ->
  StronglySorted (fun a b => cmp a b <= 0) (JS.insert cmp x l).
Proof.
  induction 1 as [| y l S IH F]; simpl.
  - constructor; constructor.
  - destruct (Z.leb_spec (cmp x y) 0) as [L | G].
    + constructor; [constructor; assumption |].
      constructor; [exact L |].
      rewrite Forall_forall in *. intros z Hz. exact (trans _ _ _ L (F z Hz)).
    + constructor; [exact IH |].
      rewrite Forall_forall in *. intros z Hz.
      apply insert_In in Hz. destruct Hz as [-> | Hz]; [| exact (F z Hz)].
      destruct (total x y); [lia | assumption].
Qed.

Lemma sort_sorted (l : list A) :
  StronglySorted (fun a b => cmp a b <= 0) (JS.sort cmp l).
Proof.
  induction l as [| x l IH]; simpl; [constructor | apply insert_sorted, IH].
Qed.
End Ordered.

Section Stable.
Variable same : A -> bool.
Hypothesis ties : forall x y, same x = true -> same y = true -> cmp x y <= 0.

Lemma insert_stable (x : A) (l : list A) :
  filter same (JS.insert cmp x l) = filter same (x :: l).
Proof.
  induction l as [| y l IH]; [reflexivity |]. simpl.
  destruct (Z.leb_spec (cmp x y) 0) as [L | G]; [reflexivity |].
  simpl. rewrite IH. simpl.
  destruct (same x) eqn:Sx; destruct (same y) eqn:Sy; try reflexivity.
  pose proof (ties x y Sx Sy). lia.
Qed.

(** The records of one key leave the sort in the order they entered
    it. *)
Lemma sort_stable (l : list A) :
  filter same (JS.sort cmp l) = filter same l.
Proof.
  induction l as [| x l IH]; [reflexivity |]. simpl.
  rewrite insert_stable. simpl. rewrite IH. reflexivity.
Qed.
End Stable.
End SortOrder.

Section ValueOrder.
Import JS.

Lemma str_gt_lt (s t : string) : str_gt s t = str_lt t s.
Proof.
  unfold str_gt, str_lt. rewrite (String.compare_antisym t s).
  destruct (String.compare s t); reflexivity.
Qed.

Lemma str_le_trans (s t u : string) :
  str_gt s t = false -> str_gt t u = false -> str_gt s u = false.
Proof.
  unfold str_gt. intros H1 H2.
  destruct (String.compare s u) eqn:E3; try reflexivity. exfalso.
  assert (L3 : String_as_OT.lt u s).
  { apply String_as_OT.cmp_lt. unfold String_as_OT.cmp.
    rewrite String.compare_antisym, E3. reflexivity. }
  destruct (String.compare s t) eqn:E1; [| | discriminate].
  - apply String.compare_eq_iff in E1. subst t.
    rewrite E3 in H2. discriminate.
  - apply String_as_OT.cmp_lt in E1.
    destruct (String.compare t u) eqn:E2; [| | discriminate].
    + apply String.compare_eq_iff in E2. subst u.
      exact (String_as_OT.lt_not_eq _ _ (String_as_OT.lt_trans _ _ _ E1 L3) eq_refl).
    + apply String_as_OT.cmp_lt in E2.
      exact (String_as_OT.lt_not_eq _ _
               (String_as_OT.lt_trans _ _ _
                  (String_as_OT.lt_trans _ _ _ E1 E2) L3)
               eq_refl).
Qed.

Lemma lt_excludes_gt (a b : Value) : lt a b = true -> gt a b = false.
Proof.
  destruct a as [s | x], b as [t | y]; simpl; try discriminate.
  - unfold str_lt, str_gt. destruct (String.compare s t); congruence.
  - rewrite Z.ltb_lt. intros H. unfold Z.gtb.
    destruct (Z.compare_spec x y); try reflexivity; lia.
Qed.

Lemma inOrder_total (d : SortDirection) (a b : Value) :
  Spec.inOrder d a b \/ Spec.inOrder d b a.
Proof.
  destruct d, a as [s | x], b as [t | y]; simpl; auto.
  - rewrite (str_gt_lt t s). unfold str_gt, str_lt.
    destruct (String.compare s t); auto.
  - unfold Z.gtb. rewrite (Z.compare_antisym x y).
    destruct (x ?= y); simpl; auto.
  - unfold str_lt. rewrite (String.compare_antisym t s).
    destruct (String.compare s t); simpl; auto.
  - destruct (Z.ltb_spec x y); destruct (Z.ltb_spec y x); auto; lia.
Qed.

Lemma inOrder_trans_str (d : SortDirection) (s t u : string) :
  Spec.inOrder d (VStr s) (VStr t) -> Spec.inOrder d (VStr t) (VStr u) ->
  Spec.inOrder d (VStr s) (VStr u).
Proof.
  destruct d; simpl.
  - apply str_le_trans.
  - rewrite <- !str_gt_lt. intros H1 H2. exact (str_le_trans u t s H2 H1).
Qed.

Lemma inOrder_trans_num (d : SortDirection) (x y z : Z) :
  Spec.inOrder d (VNum x) (VNum y) -> Spec.inOrder d (VNum y) (VNum z) ->
  Spec.inOrder d (VNum x) (VNum z).
Proof.
  destruct d; simpl.
  - unfold Z.gtb. destruct (Z.compare_spec x y); destruct (Z.compare_spec y z);
      destruct (Z.compare_spec x z); try discriminate; try reflexivity; lia.
  - rewrite !Z.ltb_ge. lia.
Qed.

Lemma sortValues_keys (h : Host) (c : string) (a b : Meetings.Meeting) :
  Meetings.sortValues h c a b = (Spec.sortKey h c a, Spec.sortKey h c b).
Proof.
  unfold Spec.sortKey, Meetings.sortValues.
  repeat match goal with
  | |- context [if ?t then _ else _] => destruct t; [reflexivity |]
  end.
  reflexivity.
Qed.

Lemma sortKey_kind (h : Host) (c : string) :
  (forall m, exists s, Spec.sortKey h c m = VStr s)
  \/ (forall m, exists n, Spec.sortKey h c m = VNum n).
Proof.
  unfold Spec.sortKey, Meetings.sortValues.
  repeat match goal with
  | |- context [if ?t then _ else _] =>
      destruct t; [solve [left; intros; eexists; reflexivity
                         | right; intros; eexists; reflexivity] |]
  end.
  left. intros. eexists. reflexivity.
Qed.

Lemma compareMeetings_inOrder (h : Host) (c : string) (d : SortDirection)
  (a b : Meetings.Meeting) :
  Meetings.compareMeetings h c d a b <= 0
  <-> Spec.inOrder d (Spec.sortKey h c a) (Spec.sortKey h c b).
Proof.
  unfold Meetings.compareMeetings. rewrite sortValues_keys.
  set (x := Spec.sortKey h c a). set (y := Spec.sortKey h c b).
  destruct (lt x y) eqn:L.
  - pose proof (lt_excludes_gt x y L) as G.
    destruct d; simpl; split; intros; try lia; congruence.
  - destruct (gt x y) eqn:G; destruct d; simpl; split; intros;
      try lia; congruence.
Qed.

Lemma sameValue_eq (a b : Value) : Spec.sameValue a b = true <-> a = b.
Proof.
  destruct a as [s | x], b as [t | y]; simpl;
    rewrite ?String.eqb_eq, ?Z.eqb_eq; split; congruence.
Qed.

Lemma compareMeetings_ties (h : Host) (c : string) (d : SortDirection)
  (k : Value) (a b : Meetings.Meeting) :
  Spec.sameValue (Spec.sortKey h c a) k = true ->
  Spec.sameValue (Spec.sortKey h c b) k = true ->
  Meetings.compareMeetings h c d a b <= 0.
Proof.
  intros Ha Hb. apply sameValue_eq in Ha, Hb.
  rewrite compareMeetings_equal_keys; [lia |].
  rewrite sortValues_keys. simpl. congruence.
Qed.
End ValueOrder.

Section Sorted.

Lemma StronglySorted_impl {A : Type} (R R' : A -> A -> Prop) (l : list A) :
  (forall a b, R a b -> R' a b) -> StronglySorted R l -> StronglySorted R' l.
Proof.
  intros I. induction 1 as [| x l S IH F]; constructor; [exact IH |].
  rewrite Forall_forall in *. intros y Hy. apply I, F, Hy.
Qed.

Lemma StronglySorted_always {A : Type} (R : A -> A -> Prop) (l : list A) :
  (forall a b, R a b) -> StronglySorted R l.
Proof.
  intros T. induction l as [| x l IH]; constructor; [exact IH |].
  apply Forall_forall. intros. apply T.
Qed.

Lemma compareMeetings_trans (h : Host) (c : string) (d : SortDirection)
  (x y z : Meetings.Meeting) :
  Meetings.compareMeetings h c d x y <= 0 ->
  Meetings.compareMeetings h c d y z <= 0 ->
  Meetings.compareMeetings h c d x z <= 0.
Proof.
  rewrite !compareMeetings_inOrder.
  destruct (sortKey_kind h c) as [K | K];
    destruct (K x) as [kx ->]; destruct (K y) as [ky ->];
    destruct (K z) as [kz ->];
    [apply inOrder_trans_str | apply inOrder_trans_num].
Qed.

Lemma compareMeetings_total (h : Host) (c : string) (d : SortDirection)
  (x y : Meetings.Meeting) :
  Meetings.compareMeetings h c d x y <= 0
  \/ Meetings.compareMeetings h c d y x <= 0.
Proof. rewrite !compareMeetings_inOrder. apply inOrder_total. Qed.
End Sorted.

(** A sort of the Meetings table orders it: whatever the column and
    the direction, no meeting in the list shown has a key that comes
    after the key of a meeting further down (a smaller key further
    down when ascending, a greater one when descending). *)
Theorem meetings_sort_ordered (h : Host) (s : Meetings.State) (c : string) :
  Meetings.sortColumn s = Some c ->
  StronglySorted
    (fun a b => Spec.inOrder (Meetings.sortDirection s)
                  (Spec.sortKey h c a) (Spec.sortKey h c b))
    (Meetings.sortedAndFilteredMeetings h s).
Proof.
  intros E. unfold Meetings.sortedAndFilteredMeetings. rewrite E.
  destruct (JS.truthyStr c) eqn:T.
  - apply (StronglySorted_impl
             (fun a b => Meetings.compareMeetings h c (Meetings.sortDirection s)
                           a b <= 0)).
    + intros a b. apply compareMeetings_inOrder.
    + apply sort_sorted.
      * apply compareMeetings_total.
      * apply compareMeetings_trans.
  - unfold JS.truthyStr in T. apply negb_false_iff, String.eqb_eq in T.
    subst c. apply StronglySorted_always. intros a b.
    destruct (Meetings.sortDirection s); reflexivity.
Qed.

Lemma meetings_sort_ordered_witness :
  Meetings.sortColumn Samples.byTime = Some "time"
  /\ StronglySorted
       (fun a b => Spec.inOrder desc (Spec.sortKey Samples.at1030 "time" a)
                     (Spec.sortKey Samples.at1030 "time" b))
       (Meetings.sortedAndFilteredMeetings Samples.at1030 Samples.byTime).
Proof.
  split; [reflexivity |].
  exact (meetings_sort_ordered Samples.at1030 Samples.byTime "time" eq_refl).
Defined.

Example byTime_sorted :
  Meetings.sortedAndFilteredMeetings Samples.at1030 Samples.byTime
  = [Samples.review1100; Samples.standup; Samples.call1000].
Proof. reflexivity. Qed.

(** A sort neither drops nor repeats a record, and it is stable: the
    records of one sort key leave it in the order the filters gave
    them.  So it is for the Meetings table, whatever the column and
    the direction, and for the Leads table, whatever the field. *)
Theorem sort_keeps_ties_in_place :
  (forall (h : Host) (s : Meetings.State),
     Permutation (Meetings.sortedAndFilteredMeetings h s)
       (filter (Meetings.passes h (Meetings.searchTerm s)
                  (Meetings.statusFilter s) (Meetings.organizerFilter s))
               (Meetings.meetings s))
     /\ forall c k,
          Meetings.sortColumn s = Some c ->
          filter (fun m => Spec.sameValue (Spec.sortKey h c m) k)
                 (Meetings.sortedAndFilteredMeetings h s)
          = filter (fun m => Spec.sameValue (Spec.sortKey h c m) k)
              (filter (Meetings.passes h (Meetings.searchTerm s)
                         (Meetings.statusFilter s) (Meetings.organizerFilter s))
                      (Meetings.meetings s)))
  /\ (forall s : LeadTable.State,
        Permutation (LeadTable.filtered s)
          (LeadTable.ownerStep (LeadTable.ownerFilter s)
             (LeadTable.statusStep (LeadTable.statusFilter s)
                (LeadTable.searchStep (LeadTable.searchTerm s)
                   (LeadTable.leads s))))
        /\ forall f k,
             LeadTable.sortField s = Some f ->
             filter (fun l => (Spec.leadKey f l =? k)%string)
                    (LeadTable.filtered s)
             = filter (fun l => (Spec.leadKey f l =? k)%string)
                 (LeadTable.ownerStep (LeadTable.ownerFilter s)
                    (LeadTable.statusStep (LeadTable.statusFilter s)
                       (LeadTable.searchStep (LeadTable.searchTerm s)
                          (LeadTable.leads s))))).
Proof.
  split.
  - intros h s. split; [apply sortedAndFilteredMeetings_perm |].
    intros c k E. unfold Meetings.sortedAndFilteredMeetings. rewrite E.
    destruct (JS.truthyStr c); [| reflexivity].
    apply sort_stable. intros x y. apply compareMeetings_ties.
  - intros s. split.
    + unfold LeadTable.filtered, LeadTable.sortStep.
      destruct (LeadTable.sortField s) as [f |]; [| reflexivity].
      destruct (JS.truthyStr f); [apply sort_perm | reflexivity].
    + intros f k E. unfold LeadTable.filtered, LeadTable.sortStep. rewrite E.
      destruct (JS.truthyStr f); [| reflexivity].
      apply sort_stable. intros x y Hx Hy.
      apply String.eqb_eq in Hx, Hy.
      unfold LeadTable.compareLeads. fold (Spec.leadKey f x).
      fold (Spec.leadKey f y). rewrite Hx, Hy, localeCompare_refl.
      destruct (LeadTable.sortDirection s); simpl; lia.
Qed.

(** The two meetings at 10:00 of the sample keep their order under the
    sort by time. *)
Lemma sort_keeps_ties_in_place_witness :
  Meetings.sortColumn Samples.byTime = Some "time"
  /\ filter (fun m => Spec.sameValue (Spec.sortKey Samples.at1030 "time" m)
                        (JS.VNum 600))
            (Meetings.sortedAndFilteredMeetings Samples.at1030 Samples.byTime)
     = [Samples.standup; Samples.call1000].
Proof.
  split; [reflexivity |].
  exact (proj2 (proj1 sort_keeps_ties_in_place Samples.at1030 Samples.byTime)
           "time" (JS.VNum 600) eq_refl).
Defined.

(* ================================================================== *)
(** * Beyond the listed properties: the search term *)

Section SearchTerm.
Import JS.

Lemma append_assoc (a b c : string) :
  ((a ++ b) ++ c)%string = (a ++ (b ++ c))%string.
Proof. induction a as [| x a IH]; simpl; [| rewrite IH]; reflexivity. Qed.

Lemma includes_trans (s t u : string) :
  includes s t = true -> includes t u = true -> includes s u = true.
Proof.
  rewrite !includes_spec. intros [a [b ->]] [a' [b' ->]].
  exists (a ++ a')%string, (b' ++ b)%string.
  rewrite !append_assoc. reflexivity.
Qed.

Lemma basicLatin_app (a b : string) :
  Spec.basicLatin (a ++ b) = true ->
  Spec.basicLatin a = true /\ Spec.basicLatin b = true.
Proof.
  induction a as [| c a IH]; simpl; [auto |].
  rewrite !andb_true_iff. intros [C H]. destruct (IH H). auto.
Qed.

(** Within Basic Latin the lower case of a string is made of the lower
    cases of its parts. *)
Lemma toLowerCase_parts (a b : string) :
  Spec.basicLatin (a ++ b) = true ->
  toLowerCase (a ++ b) = (toLowerCase a ++ toLowerCase b)%string.
Proof.
  induction a as [| c a IH]; simpl; [reflexivity |].
  rewrite andb_true_iff. intros [_ H]. rewrite (IH H). reflexivity.
Qed.

Lemma includes_lower (t u : string) :
  Spec.basicLatin t = true ->
  includes t u = true -> includes (toLowerCase t) (toLowerCase u) = true.
Proof.
  rewrite !includes_spec. intros L [a [b ->]].
  exists (toLowerCase a), (toLowerCase b).
  rewrite (toLowerCase_parts a _ L).
  rewrite (toLowerCase_parts u b (proj2 (basicLatin_app _ _ L))).
  reflexivity.
Qed.

Lemma fieldIncludes_narrows (x : option string) (t t' : string) :
  Spec.basicLatin t' = true ->
  includes t' t = true ->
  truthy (fieldIncludes x t') = true -> truthy (fieldIncludes x t) = true.
Proof.
  intros L I. destruct x as [s |]; simpl; [| trivial].
  intros H. exact (includes_trans _ _ _ H (includes_lower _ _ L I)).
Qed.

Lemma search_narrows_three (x y z : option string) (t t' : string) :
  Spec.basicLatin t' = true ->
  includes t' t = true ->
  truthy (or_ (or_ (fieldIncludes x t') (fieldIncludes y t'))
              (fieldIncludes z t')) = true ->
  truthy (or_ (or_ (fieldIncludes x t) (fieldIncludes y t))
              (fieldIncludes z t)) = true.
Proof.
  intros L I. rewrite !truthy_or, !orb_true_iff.
  intros [[H | H] | H]; eauto using fieldIncludes_narrows.
Qed.

Lemma filter_within {A : Type} (p q : A -> bool) (l : list A) :
  (forall x, q x = true -> p x = true) ->
  filter q (filter p l) = filter q l.
Proof.
  intros I. rewrite filter_both. apply filter_ext. intros x.
  destruct (q x) eqn:Q; [rewrite (I x Q) | rewrite andb_false_r]; reflexivity.
Qed.

End SearchTerm.

(** Typing on narrows the search: when the new term, of Basic Latin,
    contains the old one, every record it finds was found by the old
    one, whatever the fields of the record hold; so searching within
    the previous results gives what searching the whole list gives.
    So it is in the Meetings view and in the Leads table. *)
Theorem search_narrows (t t' : string) :
  Spec.basicLatin t' = true ->
  JS.includes t' t = true ->
  (forall m : Meetings.Meeting,
     JS.truthy (Meetings.matchesSearch t' m) = true ->
     JS.truthy (Meetings.matchesSearch t m) = true)
  /\ (forall l : list Meetings.Meeting,
        filter (fun m => JS.truthy (Meetings.matchesSearch t' m))
               (filter (fun m => JS.truthy (Meetings.matchesSearch t m)) l)
        = filter (fun m => JS.truthy (Meetings.matchesSearch t' m)) l)
  /\ (forall l : list LeadTable.Lead,
        LeadTable.searchStep t' (LeadTable.searchStep t l)
        = LeadTable.searchStep t' l).
Proof.
  intros L I.
  assert (M : forall m : Meetings.Meeting,
            JS.truthy (Meetings.matchesSearch t' m) = true ->
            JS.truthy (Meetings.matchesSearch t m) = true)
    by (intros m; apply search_narrows_three; assumption).
  split; [exact M | split].
  - intros l. apply filter_within. exact M.
  - intros l. apply filter_within. intros x.
    apply search_narrows_three; assumption.
Qed.

Lemma search_narrows_witness :
  Spec.basicLatin "acme" = true
  /\ JS.includes "acme" "ac" = true
  /\ JS.truthy (Meetings.matchesSearch "ac" Samples.acme) = true.
Proof.
  split; [reflexivity | split; [reflexivity |]].
  exact (proj1 (search_narrows "ac" "acme" eq_refl eq_refl)
           Samples.acme eq_refl).
Defined.



(* ================================================================== *)
(** * Beyond the listed properties: the pages of the Leads table *)

Section LeadPages.
Import LeadTable.

Lemma filtered_filterEffect (s : State) : filtered (filterEffect s) = filtered s.
Proof. reflexivity. Qed.

Lemma step_keeps_shown (s s' : State) :
  step s s' -> filteredLeads s = filtered s -> filteredLeads s' = filtered s'.
Proof.
  intros St I. destruct St; try reflexivity.
  - unfold setSearchTerm. destruct (_ =? _)%string; [exact I | reflexivity].
  - unfold setStatusFilter. destruct (_ =? _)%string; [exact I | reflexivity].
  - unfold setOwnerFilter. destruct (_ =? _)%string; [exact I | reflexivity].
  - unfold handleSort. destruct (JS.strictEq _ _); reflexivity.
  - unfold previousPage. destruct (_ && _); exact I.
  - unfold nextPage. destruct (_ && _); exact I.
  - unfold handleSelectAll. destruct c; exact I.
  - unfold handleSelectLead. destruct c; exact I.
Qed.

Lemma step_keeps_last_page (s s' : State) :
  step s s' ->
  currentPage s <= Z.max 1 (totalPages s) ->
  currentPage s' <= Z.max 1 (totalPages s').
Proof.
  intros St I. destruct St.
  - simpl. lia.
  - unfold setSearchTerm. destruct (_ =? _)%string; [exact I | simpl; lia].
  - unfold setStatusFilter. destruct (_ =? _)%string; [exact I | simpl; lia].
  - unfold setOwnerFilter. destruct (_ =? _)%string; [exact I | simpl; lia].
  - unfold handleSort. destruct (JS.strictEq _ _); simpl; lia.
  - unfold previousPage. destruct (_ && _); [| exact I].
    unfold totalPages in *. simpl. lia.
  - unfold nextPage. destruct (_ && _); [| exact I].
    unfold totalPages in *. simpl. lia.
  - unfold handleSelectAll. destruct c; exact I.
  - unfold handleSelectLead. destruct c; exact I.
Qed.

Lemma reachable_shown (initialStatus : string) (s : State) :
  reachable initialStatus s ->
  filteredLeads s = filtered s
  /\ 1 <= currentPage s <= Z.max 1 (totalPages s)
  /\ itemsPerPage s = 50.
Proof.
  intros R.
  destruct (reachable_page initialStatus s R) as [P I].
  assert (K : filteredLeads s = filtered s
              /\ currentPage s <= Z.max 1 (totalPages s)).
  { clear P I. induction R as [| s s' _ [F L] St].
    - split; [| simpl; lia].
      unfold filtered, initial, statusStep. simpl.
      destruct (negb _); reflexivity.
    - split; [exact (step_keeps_shown s s' St F)
             | exact (step_keeps_last_page s s' St L)]. }
  destruct K as [F L]. auto.
Qed.

Lemma ceilDiv_50 (n : Z) :
  0 <= n -> (JS.ceilDiv n 50 - 1) * 50 < n \/ n = 0.
Proof.
  intros H. unfold JS.ceilDiv.
  pose proof (Z.div_mod (n + 50 - 1) 50 ltac:(lia)) as E.
  pose proof (Z.mod_pos_bound (n + 50 - 1) 50 ltac:(lia)) as B.
  lia.
Qed.

(** In range, the page starts inside the list. *)
Lemma page_starts_inside (s : State) :
  itemsPerPage s = 50 ->
  1 <= currentPage s <= Z.max 1 (totalPages s) ->
  filteredLeads s <> [] ->
  0 <= (currentPage s - 1) * 50 < Z.of_nat (List.length (filteredLeads s)).
Proof.
  intros I [P Q] N. unfold totalPages in Q. rewrite I in Q.
  assert (0 < Z.of_nat (List.length (filteredLeads s))) as Pos
    by (destruct (filteredLeads s); [congruence | simpl; lia]).
  destruct (ceilDiv_50 (Z.of_nat (List.length (filteredLeads s))) ltac:(lia))
    as [C | C]; lia.
Qed.

Lemma length_page (s : State) :
  itemsPerPage s = 50 ->
  1 <= currentPage s ->
  Z.of_nat (List.length (getCurrentPageLeads s))
  = Z.max 0 (Z.min 50 (Z.of_nat (List.length (filteredLeads s))
                       - (currentPage s - 1) * 50)).
Proof.
  intros I P. unfold getCurrentPageLeads. rewrite I.
  rewrite pageOf_from by lia.
  rewrite length_firstn, length_skipn. lia.
Qed.
End LeadPages.




(** The line "Showing from-to of n leads" tells what the page shows:
    with no lead to show it reads 0-0, and otherwise the rows of the
    page are the leads numbered [from] to [to] of the filtered list,
    [to - from + 1] of them. *)
Theorem showing_line_matches_page (initialStatus : string)
  (s : LeadTable.State) :
  LeadTable.reachable initialStatus s ->
  (LeadTable.filteredLeads s = [] ->
   LeadTable.showingFrom s = 0 /\ LeadTable.showingTo s = 0)
  /\ (LeadTable.filteredLeads s <> [] ->
      1 <= LeadTable.showingFrom s <= LeadTable.showingTo s
      /\ LeadTable.showingTo s
         <= Z.of_nat (List.length (LeadTable.filteredLeads s))
      /\ Z.of_nat (List.length (LeadTable.getCurrentPageLeads s))
         = LeadTable.showingTo s - LeadTable.showingFrom s + 1
      /\ forall i : nat,
           (i < List.length (LeadTable.getCurrentPageLeads s))%nat ->
           nth_error (LeadTable.getCurrentPageLeads s) i
           = nth_error (LeadTable.filteredLeads s)
               (Z.to_nat (LeadTable.showingFrom s - 1) + i)).
Proof.
  intros R. destruct (reachable_shown initialStatus s R) as [_ [P I]].
  unfold LeadTable.showingFrom, LeadTable.showingTo. rewrite I. split.
  - intros E. rewrite E. simpl. split; [reflexivity | lia].
  - intros N.
    pose proof (page_starts_inside s I P N) as B.
    pose proof (length_page s I (proj1 P)) as L.
    destruct (Z.ltb_spec 0 (Z.of_nat (List.length (LeadTable.filteredLeads s))))
      as [_ | Z]; [| lia].
    split; [lia | split; [lia | split; [lia |]]].
    intros i Hi. unfold LeadTable.getCurrentPageLeads in *. rewrite I in *.
    rewrite pageOf_nth by lia.
    destruct (Z.ltb_spec (Z.of_nat i) 50) as [_ | G]; [| lia].
    f_equal. lia.
Qed.

Lemma showing_line_matches_page_witness :
  LeadTable.reachable "all" Samples.secondPage
  /\ LeadTable.filteredLeads Samples.secondPage <> []
  /\ Z.of_nat (List.length (LeadTable.getCurrentPageLeads Samples.secondPage))
     = LeadTable.showingTo Samples.secondPage
       - LeadTable.showingFrom Samples.secondPage + 1.
Proof.
  assert (R : LeadTable.reachable "all" Samples.secondPage).
  { exact (LeadTable.reach_step "all" _ _
             (LeadTable.reach_step "all" _ _ (LeadTable.reach_initial "all")
                (LeadTable.step_leads (Samples.leadsTo 120) _))
             (LeadTable.step_next _)). }
  assert (N : LeadTable.filteredLeads Samples.secondPage <> [])
    by discriminate.
  split; [exact R | split; [exact N |]].
  exact (proj1 (proj2 (proj2 (proj2 (showing_line_matches_page "all"
                                       Samples.secondPage R) N)))).
Defined.

Example secondPage_showing :
  LeadTable.showingFrom Samples.secondPage = 51
  /\ LeadTable.showingTo Samples.secondPage = 100.
Proof. split; reflexivity. Qed.

(** The two page buttons undo each other: "Next" then "Previous", and
    "Previous" then "Next", lead back to the state they started from,
    as long as the first of the two can move; at the last page "Next"
    does nothing, at the first "Previous" does nothing.  Neither
    changes the list, the filters, the sort or the selection. *)
Theorem page_buttons_round_trip (s : LeadTable.State) :
  (1 <= LeadTable.currentPage s < LeadTable.totalPages s ->
   LeadTable.previousPage (LeadTable.nextPage s) = s)
  /\ (1 < LeadTable.currentPage s <= LeadTable.totalPages s ->
      LeadTable.nextPage (LeadTable.previousPage s) = s)
  /\ (LeadTable.currentPage s = LeadTable.totalPages s ->
      LeadTable.nextPage s = s)
  /\ (LeadTable.currentPage s = 1 -> LeadTable.previousPage s = s)
  /\ LeadTable.setCurrentPage (LeadTable.currentPage s) (LeadTable.nextPage s)
     = s
  /\ LeadTable.setCurrentPage (LeadTable.currentPage s)
       (LeadTable.previousPage s) = s.
Proof.
  destruct s as [ls fl st sf ow page ps f d sel].
  unfold LeadTable.previousPage, LeadTable.nextPage, LeadTable.totalPages.
  cbn [LeadTable.currentPage LeadTable.filteredLeads LeadTable.itemsPerPage].
  set (total := JS.ceilDiv (Z.of_nat (List.length fl)) ps).
  split; [| split; [| split; [| split; [| split]]]].
  - intros H.
    destruct (Z.ltb_spec 1 total); [| lia].
    destruct (Z.eqb_spec page total); [lia |].
    cbn [negb andb LeadTable.setCurrentPage LeadTable.currentPage
         LeadTable.filteredLeads LeadTable.itemsPerPage LeadTable.leads
         LeadTable.searchTerm LeadTable.statusFilter LeadTable.ownerFilter
         LeadTable.sortField LeadTable.sortDirection LeadTable.selectedLeads].
    fold total.
    destruct (Z.ltb_spec 1 total); [| lia].
    destruct (Z.eqb_spec (Z.min total (page + 1)) 1); [lia |].
    cbn [negb andb LeadTable.setCurrentPage LeadTable.currentPage
         LeadTable.filteredLeads LeadTable.itemsPerPage LeadTable.leads
         LeadTable.searchTerm LeadTable.statusFilter LeadTable.ownerFilter
         LeadTable.sortField LeadTable.sortDirection LeadTable.selectedLeads].
    unfold LeadTable.setCurrentPage. simpl. f_equal. lia.
  - intros H.
    destruct (Z.ltb_spec 1 total); [| lia].
    destruct (Z.eqb_spec page 1); [lia |].
    cbn [negb andb LeadTable.setCurrentPage LeadTable.currentPage
         LeadTable.filteredLeads LeadTable.itemsPerPage LeadTable.leads
         LeadTable.searchTerm LeadTable.statusFilter LeadTable.ownerFilter
         LeadTable.sortField LeadTable.sortDirection LeadTable.selectedLeads].
    fold total.
    destruct (Z.ltb_spec 1 total); [| lia].
    destruct (Z.eqb_spec (Z.max 1 (page - 1)) total); [lia |].
    cbn [negb andb LeadTable.setCurrentPage LeadTable.currentPage
         LeadTable.filteredLeads LeadTable.itemsPerPage LeadTable.leads
         LeadTable.searchTerm LeadTable.statusFilter LeadTable.ownerFilter
         LeadTable.sortField LeadTable.sortDirection LeadTable.selectedLeads].
    unfold LeadTable.setCurrentPage. simpl. f_equal. lia.
  - intros ->. rewrite Z.eqb_refl, andb_false_r. reflexivity.
  - intros ->. rewrite andb_false_r. reflexivity.
  - destruct (_ && _); reflexivity.
  - destruct (_ && _); reflexivity.
Qed.

Lemma page_buttons_round_trip_witness :
  1 <= LeadTable.currentPage (Samples.leadsTable 120 2)
    < LeadTable.totalPages (Samples.leadsTable 120 2)
  /\ LeadTable.previousPage (LeadTable.nextPage (Samples.leadsTable 120 2))
     = Samples.leadsTable 120 2.
Proof.
  assert (H : 1 <= LeadTable.currentPage (Samples.leadsTable 120 2)
              < LeadTable.totalPages (Samples.leadsTable 120 2))
    by (vm_compute; split; [discriminate | reflexivity]).
  split; [exact H |].
  exact (proj1 (page_buttons_round_trip (Samples.leadsTable 120 2)) H).
Defined.

(* ================================================================== *)
(** * Beyond the listed properties: select all in the Leads table *)

(** The header checkbox of the Leads table.  After "select all" is
    ticked every lead among the first fifty of the page is checked and
    the header is checked unless the page is empty; after it is
    cleared no row is checked and the header is not. *)
Theorem leads_header_checkbox (s : LeadTable.State) :
  LeadTable.headerChecked (LeadTable.handleSelectAll true s)
  = negb (Nat.eqb (List.length (LeadTable.getCurrentPageLeads s)) 0)
  /\ (forall l, In l (firstn 50 (LeadTable.getCurrentPageLeads s)) ->
                LeadTable.rowChecked (LeadTable.handleSelectAll true s) l = true)
  /\ LeadTable.headerChecked (LeadTable.handleSelectAll false s) = false
  /\ (forall l, LeadTable.rowChecked (LeadTable.handleSelectAll false s) l
                = false).
Proof.
  assert (E : LeadTable.selectedLeads (LeadTable.handleSelectAll true s)
              = map LeadTable.id (firstn 50 (LeadTable.getCurrentPageLeads s))).
  { unfold LeadTable.handleSelectAll. simpl.
    rewrite slice_from by lia. reflexivity. }
  assert (P : LeadTable.getCurrentPageLeads (LeadTable.handleSelectAll true s)
              = LeadTable.getCurrentPageLeads s) by reflexivity.
  split; [| split; [| split]].
  - unfold LeadTable.headerChecked. rewrite E, P, length_map, length_firstn.
    destruct (LeadTable.getCurrentPageLeads s) as [| x l]; [reflexivity |].
    cbn [List.length Nat.eqb negb].
    destruct (Z.ltb_spec 0 (Z.of_nat (Nat.min 50 (S (List.length l)))));
      [| lia].
    destruct (Z.eqb_spec (Z.of_nat (Nat.min 50 (S (List.length l))))
                (Z.min (Z.of_nat (S (List.length l))) 50)); [reflexivity | lia].
  - intros l H. unfold LeadTable.rowChecked. rewrite E.
    apply arrayIncludes_map. exact H.
  - reflexivity.
  - reflexivity.
Qed.

Lemma leads_header_checkbox_witness :
  In (Samples.leadNo 1)
     (firstn 50 (LeadTable.getCurrentPageLeads (Samples.leadsTable 73 1)))
  /\ LeadTable.rowChecked
       (LeadTable.handleSelectAll true (Samples.leadsTable 73 1))
       (Samples.leadNo 1) = true.
Proof.
  assert (H : In (Samples.leadNo 1)
                (firstn 50 (LeadTable.getCurrentPageLeads
                              (Samples.leadsTable 73 1))))
    by (left; reflexivity).
  split; [exact H |].
  exact (proj1 (proj2 (leads_header_checkbox (Samples.leadsTable 73 1)))
           (Samples.leadNo 1) H).
Defined.

(** "Select all" of the contacts header: ticked, it selects the ids of
    the first fifty contacts of the page it was given, in their order,
    so never more than fifty and the whole page when the page has at
    most fifty; cleared, it selects nothing. *)
Theorem contacts_select_all (pageContacts : list ContactTableHeader.Contact) :
  ContactTableHeader.handleSelectAll true pageContacts
  = map ContactTableHeader.id (firstn 50 pageContacts)
  /\ (List.length (ContactTableHeader.handleSelectAll true pageContacts)
      <= 50)%nat
  /\ ((List.length pageContacts <= 50)%nat ->
      ContactTableHeader.handleSelectAll true pageContacts
      = map ContactTableHeader.id pageContacts)
  /\ ContactTableHeader.handleSelectAll false pageContacts = [].
Proof.
  assert (E : ContactTableHeader.handleSelectAll true pageContacts
              = map ContactTableHeader.id (firstn 50 pageContacts)).
  { unfold ContactTableHeader.handleSelectAll.
    rewrite slice_from by lia. reflexivity. }
  split; [exact E | split; [| split; [| reflexivity]]].
  - rewrite E, length_map. apply firstn_le_length.
  - intros L. rewrite E, firstn_all2 by exact L. reflexivity.
Qed.

(* ================================================================== *)
(** * Beyond the listed properties: fetching and converting leads *)

Section LeadFetch.
Import LeadTable.

Lemma orNull_not_empty (x : option string) : JS.orNull x <> Some "".
Proof.
  destruct x as [s |]; simpl; [| discriminate].
  unfold JS.truthyStr. destruct (String.eqb_spec s ""); simpl; congruence.
Qed.

Lemma transform_company (r : Row) :
  account_company_name (transform r) <> Some ""
  /\ (forall n, joined (accounts r) = Some n -> n <> "" ->
                account_company_name (transform r) = Some n)
  /\ ((joined (accounts r) = None \/ joined (accounts r) = Some "") ->
      forall c, company_name r = Some c -> c <> "" ->
                account_company_name (transform r) = Some c)
  /\ id (transform r) = id r
  /\ lead_status (transform r) = lead_status r
  /\ accounts (transform r) = accounts r
  /\ others (transform r) = others r.
Proof.
  split; [apply orNull_not_empty |].
  cbn [transform account_company_name id lead_status accounts others].
  unfold JS.orNull, JS.orStr, JS.truthyStr.
  split; [| split; [| repeat split]].
  - intros n -> N. apply String.eqb_neq in N. rewrite N. simpl.
    rewrite N. reflexivity.
  - intros [-> | ->] c -> N; apply String.eqb_neq in N; simpl;
      rewrite N; reflexivity.
Qed.
End LeadFetch.

Lemma fetchLeads_failed (r : LeadTable.Response) (p : LeadTable.Page) :
  LeadTable.succeeded r = false ->
  LeadTable.table (LeadTable.fetchLeads r p) = LeadTable.table p.
Proof. intros S. destruct r as [| d [e |]]; try discriminate; reflexivity. Qed.

Lemma fetchLeads_rows (r : LeadTable.Response) (p : LeadTable.Page) :
  LeadTable.succeeded r = true ->
  LeadTable.leads (LeadTable.table (LeadTable.fetchLeads r p))
  = map LeadTable.transform (LeadTable.dataOf r).
Proof.
  intros S. destruct r as [| d [e |]]; try discriminate.
  destruct d; reflexivity.
Qed.

(** Fetching the leads.  A fetch that succeeds replaces the leads by
    the fetched rows, each with the company name of its account or,
    that name missing or empty, its own, and never the empty string;
    the list shown is refiltered and resorted and the page is back at
    1.  A fetch that fails leaves the table as it was and reports the
    failure.  Neither touches the selection, and the loading flag ends
    cleared. *)
Theorem leads_fetch (r : LeadTable.Response) (p : LeadTable.Page) :
  (LeadTable.succeeded r = true ->
   LeadTable.leads (LeadTable.table (LeadTable.fetchLeads r p))
   = map LeadTable.transform (LeadTable.dataOf r)
   /\ LeadTable.filteredLeads (LeadTable.table (LeadTable.fetchLeads r p))
      = LeadTable.filtered (LeadTable.table (LeadTable.fetchLeads r p))
   /\ LeadTable.currentPage (LeadTable.table (LeadTable.fetchLeads r p)) = 1
   /\ LeadTable.toasts (LeadTable.fetchLeads r p) = LeadTable.toasts p
   /\ forall l, In l (LeadTable.leads (LeadTable.table (LeadTable.fetchLeads r p))) ->
                LeadTable.account_company_name l <> Some "")
  /\ (LeadTable.succeeded r = false ->
      LeadTable.table (LeadTable.fetchLeads r p) = LeadTable.table p
      /\ LeadTable.toasts (LeadTable.fetchLeads r p)
         = LeadTable.toasts p ++ [LeadTable.fetchError])
  /\ LeadTable.selectedLeads (LeadTable.table (LeadTable.fetchLeads r p))
     = LeadTable.selectedLeads (LeadTable.table p)
  /\ LeadTable.loading (LeadTable.fetchLeads r p) = false.
Proof.
  split; [| split; [| split]].
  - intros S. destruct r as [| d [e |]]; try discriminate.
    split; [destruct d; reflexivity |].
    split; [reflexivity | split; [reflexivity | split; [reflexivity |]]].
    intros l H. simpl in H. apply in_map_iff in H. destruct H as [x [<- _]].
    apply transform_company.
  - intros S. destruct r as [| d [e |]]; try discriminate; split; reflexivity.
  - destruct r as [| d [e |]]; reflexivity.
  - destruct r as [| d [e |]]; reflexivity.
Qed.

Lemma leads_fetch_witness :
  LeadTable.succeeded (LeadTable.Resolved None (Some "offline")) = false
  /\ LeadTable.table
       (LeadTable.fetchLeads (LeadTable.Resolved None (Some "offline"))
          Samples.twoLeads)
     = LeadTable.table Samples.twoLeads.
Proof.
  split; [reflexivity |].
  exact (proj1 (proj1 (proj2 (leads_fetch
                                (LeadTable.Resolved None (Some "offline"))
                                Samples.twoLeads)) eq_refl)).
Defined.

Section Convert.
Import LeadTable.

Lemma markConverted_id (i : string) (l : Lead) : id (markConverted i l) = id l.
Proof. unfold markConverted. destruct (_ =? _)%string; reflexivity. Qed.

Lemma markConverted_status (i : string) (l : Lead) :
  id l = i -> lead_status (markConverted i l) = Some "Converted".
Proof. intros <-. unfold markConverted. rewrite String.eqb_refl. reflexivity. Qed.

Lemma markConverted_other (i : string) (l : Lead) :
  id l <> i -> markConverted i l = l.
Proof.
  intros N. unfold markConverted. apply String.eqb_neq in N. rewrite N.
  reflexivity.
Qed.

Lemma filtered_In (s : State) (x : Lead) :
  In x (filtered s) ->
  In x (leads s) /\ Spec.leadStatus (statusFilter s) x = true.
Proof.
  unfold filtered, sortStep. intros H.
  assert (H' : In x (ownerStep (ownerFilter s)
                       (statusStep (statusFilter s)
                          (searchStep (searchTerm s) (leads s))))).
  { destruct (sortField s) as [f |]; [| exact H].
    destruct (JS.truthyStr f); [| exact H].
    apply (proj1 (sort_In _ _ _)) in H. exact H. }
  rewrite ownerStep_filter, statusStep_filter, searchStep_filter in H'.
  apply filter_In in H'. destruct H' as [H' _].
  apply filter_In in H'. destruct H' as [H' S].
  apply filter_In in H'. destruct H' as [H' _]. auto.
Qed.
End Convert.

(** After a conversion to a deal.  When the update of the stored lead
    reported no error, the table marks the lead Converted without
    waiting for the fetch: the leads keep their ids and their order,
    every lead of the converted id has the status Converted and the
    others are untouched; under a status filter other than "all" and
    "Converted" the lead is gone from the list shown.  When the update
    failed the table is not changed.  The fetch that follows keeps
    that table if it fails and replaces the leads by the fetched rows
    if it succeeds; the lead to convert is cleared either way. *)
Theorem convert_marks_the_lead (u : LeadTable.Reply) (p : LeadTable.Page)
  (lead : LeadTable.Lead) :
  LeadTable.leadToConvert p = Some lead ->
  (u = LeadTable.Replied None ->
   LeadTable.leads (LeadTable.table (LeadTable.convertLocally u p))
   = map (LeadTable.markConverted (LeadTable.id lead))
         (LeadTable.leads (LeadTable.table p))
   /\ map LeadTable.id
        (LeadTable.leads (LeadTable.table (LeadTable.convertLocally u p)))
      = map LeadTable.id (LeadTable.leads (LeadTable.table p))
   /\ (forall x,
         In x (LeadTable.leads (LeadTable.table (LeadTable.convertLocally u p))) ->
         (LeadTable.id x = LeadTable.id lead ->
          LeadTable.lead_status x = Some "Converted")
         /\ (LeadTable.id x <> LeadTable.id lead ->
             In x (LeadTable.leads (LeadTable.table p))))
   /\ (LeadTable.statusFilter (LeadTable.table p) <> "all" ->
       LeadTable.statusFilter (LeadTable.table p) <> "Converted" ->
       forall x,
         In x (LeadTable.filteredLeads
                 (LeadTable.table (LeadTable.convertLocally u p))) ->
         LeadTable.id x <> LeadTable.id lead))
  /\ (u <> LeadTable.Replied None -> LeadTable.convertLocally u p = p)
  /\ (forall r,
        LeadTable.leadToConvert (LeadTable.handleConvertSuccess u r p) = None
        /\ (LeadTable.succeeded r = false ->
            LeadTable.table (LeadTable.handleConvertSuccess u r p)
            = LeadTable.table (LeadTable.convertLocally u p))
        /\ (LeadTable.succeeded r = true ->
            LeadTable.leads
              (LeadTable.table (LeadTable.handleConvertSuccess u r p))
            = map LeadTable.transform (LeadTable.dataOf r))).
Proof.
  intros L. unfold LeadTable.handleConvertSuccess, LeadTable.convertLocally.
  rewrite L. split; [| split].
  - intros ->. cbn [LeadTable.onTable LeadTable.table].
    set (s := LeadTable.table p).
    set (s' := LeadTable.setLeads _ s).
    assert (E : LeadTable.leads s'
                = map (LeadTable.markConverted (LeadTable.id lead))
                      (LeadTable.leads s)) by reflexivity.
    split; [exact E | split; [| split]].
    + rewrite E, map_map. apply map_ext. intros x. apply markConverted_id.
    + intros x H. rewrite E in H. apply in_map_iff in H.
      destruct H as [y [<- H]]. rewrite markConverted_id. split.
      * apply markConverted_status.
      * intros N. rewrite (markConverted_other _ _ N). exact H.
    + intros A C x H I.
      assert (H' : In x (LeadTable.filtered s')) by exact H.
      apply filtered_In in H'. destruct H' as [H1 H2].
      rewrite E in H1. apply in_map_iff in H1. destruct H1 as [y [<- H1]].
      rewrite markConverted_id in I.
      unfold Spec.leadStatus in H2.
      rewrite (markConverted_status _ _ I) in H2.
      change (LeadTable.statusFilter s') with (LeadTable.statusFilter s) in H2.
      apply String.eqb_neq in A. rewrite A, orb_false_l in H2.
      unfold JS.strictEq in H2. apply String.eqb_eq in H2. congruence.
  - intros N. destruct u as [m | [e |]]; try reflexivity. congruence.
  - intros r. cbn [LeadTable.setLeadToConvert LeadTable.table
                   LeadTable.leadToConvert].
    split; [reflexivity | split]; intros S.
    + apply fetchLeads_failed. exact S.
    + apply fetchLeads_rows. exact S.
Qed.

(** With the filter at "all" the converted lead stays in the list, as
    Converted. *)
Lemma convert_marks_the_lead_witness :
  LeadTable.leadToConvert Samples.twoLeads = Some Samples.upper_a
  /\ map LeadTable.lead_status
       (LeadTable.leads
          (LeadTable.table
             (LeadTable.convertLocally (LeadTable.Replied None)
                Samples.twoLeads)))
     = [None; Some "Converted"].
Proof.
  split; [reflexivity |].
  rewrite (proj1 (proj1
             (convert_marks_the_lead (LeadTable.Replied None)
                Samples.twoLeads Samples.upper_a eq_refl) eq_refl)).
  reflexivity.
Defined.

(* ================================================================== *)
(** * Beyond the listed properties: deleting a lead *)

Section LeadDeletion.
Import LeadTable.

(** Every case of the replies, one after the other. *)
Ltac replies :=
  repeat match goal with
  | |- context [match ?x with _ => _ end] =>
      match type of x with
      | Reply => destruct x as [? | [? |]]
      | SelectReply => destruct x as [? | [[| ? ?] |]]
      | option string => destruct x
      | bool => destruct x
      end; cbn
  end.

Lemma deletion_unlinked (i : string) (o : Replies) :
  deletion i false o []
  = match onDeleteLead o with
    | Rejected message => ([DeleteLead i], inl message)
    | Replied (Some message) => ([DeleteLead i], inl message)
    | Replied None =>
        ([DeleteLead i; LogDelete i],
         match onLogDelete o with
         | Some message => inl message
         | None => inr tt
         end)
    end.
Proof.
  unfold deletion, bind, await, awaitLog, ret, throw. cbn.
  destruct (onDeleteLead o) as [m | [m |]]; reflexivity.
Qed.

(** The lead is deleted only once the deletion of its action items was
    acknowledged without an error. *)
Lemma deletion_linked_order (i : string) (o : Replies) :
  In (DeleteLead i) (fst (deletion i true o [])) ->
  In (DeleteActionItems i) (fst (deletion i true o []))
  /\ onDeleteActionItems o = Replied None.
Proof.
  destruct o as [a b c d e f g h].
  unfold deletion, deleteLinked, deleteNotifications, bind, await,
    awaitSelect, awaitLog, ret, throw.
  cbn. replies; cbn; intuition (try discriminate; try congruence).
Qed.

Lemma deletion_succeeds (i : string) (dl : bool) (o : Replies)
  (log : list Request) :
  deletion i dl o [] = (log, inr tt) ->
  onDeleteLead o = Replied None
  /\ onLogDelete o = None
  /\ (dl = true -> onDeleteActionItems o = Replied None)
  /\ exists earlier, rev log = LogDelete i :: DeleteLead i :: earlier.
Proof.
  destruct o as [a b c d e f g h].
  unfold deletion, deleteLinked, deleteNotifications, bind, await,
    awaitSelect, awaitLog, ret, throw.
  destruct dl; cbn; replies; cbn; intros E; try discriminate;
    injection E as <-;
    (split; [reflexivity
            | split; [reflexivity
                     | split; [intros ?; first [reflexivity | discriminate] |]]]);
    eexists; cbn; reflexivity.
Qed.
Lemma deletion_requests (i : string) (dl : bool) (o : Replies) :
  (forall j, In (DeleteLead j) (fst (deletion i dl o [])) -> j = i)
  /\ (forall message,
        onLogDelete o = Some message ->
        In (LogDelete i) (fst (deletion i dl o [])) ->
        In (DeleteLead i) (fst (deletion i dl o []))
        /\ onDeleteLead o = Replied None
        /\ snd (deletion i dl o []) = inl message).
Proof.
  destruct o as [a b c d e f g h].
  unfold deletion, deleteLinked, deleteNotifications, bind, await,
    awaitSelect, awaitLog, ret, throw.
  split; [intros j | intros message G; cbn in G; subst g];
    destruct dl; cbn; replies; cbn;
    intuition (try discriminate; try congruence).
Qed.
End LeadDeletion.

(** Deleting a lead ends in one of two ways.  Either it fails, and
    then the page is as it was but for one error toast: the dialog
    stays open, the lead stays picked, the table is not fetched again.
    Or it succeeds: then the last two requests were the deletion of
    the lead and its audit entry, both acknowledged, and with linked
    records the deletion of the action items was acknowledged without
    an error; the success is reported, the leads are fetched, the
    dialog is closed and the pick cleared.  With no lead picked, or one
    without an id, no request is sent at all. *)
Theorem lead_delete_all_or_nothing (dl : bool) (o : LeadTable.Replies)
  (p : LeadTable.Page) :
  ((exists t, snd (LeadTable.handleDelete dl o p) = LeadTable.toast t p
              /\ variant t = "destructive")
   \/ (exists lead earlier,
         LeadTable.leadToDelete p = Some lead
         /\ LeadTable.id lead <> ""
         /\ snd (LeadTable.handleDelete dl o p)
            = LeadTable.setShowDeleteDialog false
                (LeadTable.setLeadToDelete None
                   (LeadTable.fetchLeads (LeadTable.onFetch o)
                      (LeadTable.toast LeadTable.deleteSuccess p)))
         /\ rev (fst (LeadTable.handleDelete dl o p))
            = LeadTable.LogDelete (LeadTable.id lead)
              :: LeadTable.DeleteLead (LeadTable.id lead) :: earlier
         /\ LeadTable.onDeleteLead o = LeadTable.Replied None
         /\ LeadTable.onLogDelete o = None
         /\ (dl = true ->
             LeadTable.onDeleteActionItems o = LeadTable.Replied None)))
  /\ (LeadTable.leadToDelete p = None ->
      fst (LeadTable.handleDelete dl o p) = [])
  /\ (forall lead, LeadTable.leadToDelete p = Some lead ->
                   LeadTable.id lead = "" ->
                   fst (LeadTable.handleDelete dl o p) = []).
Proof.
  unfold LeadTable.handleDelete. split; [| split].
  - destruct (LeadTable.leadToDelete p) as [lead |] eqn:L.
    + unfold JS.truthyStr.
      destruct (String.eqb_spec (LeadTable.id lead) "") as [E | N]; simpl.
      * left. eexists. split; reflexivity.
      * destruct (LeadTable.deletion (LeadTable.id lead) dl o [])
          as [log [message | []]] eqn:D; simpl.
        -- left. eexists. split; reflexivity.
        -- right. destruct (deletion_succeeds _ _ _ _ D)
             as [A [B [C [earlier R]]]].
           exists lead, earlier. auto 10.
    + left. eexists. split; reflexivity.
  - intros ->. reflexivity.
  - intros lead -> E. rewrite E. reflexivity.
Qed.

(** The requests of a deletion.  The lead it deletes is the one
    picked, never another.  With linked records the lead is deleted
    only after the deletion of its action items was acknowledged
    without an error; without them nothing is sent but the deletion of
    the lead and, after it, its audit entry.  And if the audit entry
    is sent and fails, the lead has been deleted all the same, while
    the page reports a failure and does not fetch. *)
Theorem lead_delete_requests (dl : bool) (o : LeadTable.Replies)
  (p : LeadTable.Page) (lead : LeadTable.Lead) :
  LeadTable.leadToDelete p = Some lead ->
  (forall j, In (LeadTable.DeleteLead j) (fst (LeadTable.handleDelete dl o p)) ->
             j = LeadTable.id lead)
  /\ (dl = true ->
      In (LeadTable.DeleteLead (LeadTable.id lead))
         (fst (LeadTable.handleDelete dl o p)) ->
      In (LeadTable.DeleteActionItems (LeadTable.id lead))
         (fst (LeadTable.handleDelete dl o p))
      /\ LeadTable.onDeleteActionItems o = LeadTable.Replied None)
  /\ (dl = false ->
      forall q, In q (fst (LeadTable.handleDelete dl o p)) ->
                q = LeadTable.DeleteLead (LeadTable.id lead)
                \/ q = LeadTable.LogDelete (LeadTable.id lead))
  /\ (forall message,
        LeadTable.onLogDelete o = Some message ->
        In (LeadTable.LogDelete (LeadTable.id lead))
           (fst (LeadTable.handleDelete dl o p)) ->
        In (LeadTable.DeleteLead (LeadTable.id lead))
           (fst (LeadTable.handleDelete dl o p))
        /\ LeadTable.onDeleteLead o = LeadTable.Replied None
        /\ snd (LeadTable.handleDelete dl o p)
           = LeadTable.toast (LeadTable.deleteFailed message) p).
Proof.
  intros L.
  destruct (negb (JS.truthyStr (LeadTable.id lead))) eqn:T.
  - assert (E : fst (LeadTable.handleDelete dl o p) = []).
    { unfold LeadTable.handleDelete. rewrite L, T. reflexivity. }
    rewrite E. simpl. repeat split; intros; contradiction.
  - assert (E : fst (LeadTable.handleDelete dl o p)
                = fst (LeadTable.deletion (LeadTable.id lead) dl o [])).
    { unfold LeadTable.handleDelete. rewrite L, T.
      destruct (LeadTable.deletion _ _ _ _) as [log [m | []]]; reflexivity. }
    assert (S : forall message,
              snd (LeadTable.deletion (LeadTable.id lead) dl o []) = inl message ->
              snd (LeadTable.handleDelete dl o p)
              = LeadTable.toast (LeadTable.deleteFailed message) p).
    { intros message. unfold LeadTable.handleDelete. rewrite L, T.
      destruct (LeadTable.deletion _ _ _ _) as [log [m | []]]; simpl;
        congruence. }
    rewrite E.
    destruct (deletion_requests (LeadTable.id lead) dl o) as [One Audit].
    split; [exact One | split; [| split]].
    + intros ->. apply deletion_linked_order.
    + intros ->. rewrite deletion_unlinked.
      destruct (LeadTable.onDeleteLead o) as [m | [m |]]; simpl;
        intuition (try discriminate; try congruence).
    + intros message G H. destruct (Audit message G H) as [A [B C]].
      auto.
Qed.

Lemma lead_delete_requests_witness :
  LeadTable.leadToDelete Samples.twoLeads = Some Samples.upper_a
  /\ fst (LeadTable.handleDelete true Samples.allFine Samples.twoLeads)
     = [LeadTable.DeleteNotificationsOfLeadAndItems "l2";
        LeadTable.DeleteActionItems "l2"; LeadTable.DeleteLead "l2";
        LeadTable.LogDelete "l2"]
  /\ LeadTable.onDeleteActionItems Samples.allFine = LeadTable.Replied None.
Proof.
  split; [reflexivity | split; [reflexivity |]].
  refine (proj2 (proj1 (proj2 (lead_delete_requests true Samples.allFine
                                 Samples.twoLeads Samples.upper_a eq_refl))
                   eq_refl _)).
  right. right. left. reflexivity.
Defined.

(* ================================================================== *)
(** * Beyond the listed properties: the Leads page *)

Section TableKey.
Import JS.

Lemma string_of_uint_digits (d : Decimal.uint) :
  Spec.digits (NilEmpty.string_of_uint d) = true.
Proof. induction d; simpl; auto. Qed.

Lemma countToString_inj (n m : nat) :
  countToString n = countToString m -> n = m.
Proof.
  unfold countToString. intros E.
  apply (f_equal NilEmpty.uint_of_string) in E.
  rewrite !NilEmpty.usu in E. injection E as E.
  apply (f_equal Nat.of_uint) in E.
  rewrite !DecimalNat.Unsigned.of_to in E. exact E.
Qed.

Lemma split_at_dash (a b s t : string) :
  Spec.digits a = true -> Spec.digits b = true ->
  (a ++ "-" ++ s)%string = (b ++ "-" ++ t)%string -> a = b /\ s = t.
Proof.
  revert b. induction a as [| c a IH]; intros [| d b] Da Db E; simpl in *.
  - injection E as E. auto.
  - injection E as <- _. discriminate.
  - injection E as -> _. discriminate.
  - injection E as -> E.
    apply andb_true_iff in Da, Db.
    destruct (IH b (proj2 Da) (proj2 Db) E) as [-> ->]. auto.
Qed.

Lemma tableKey_parts (s s' : Leads.State) :
  Leads.tableKey s = Leads.tableKey s' ->
  Leads.refreshTrigger s = Leads.refreshTrigger s'
  /\ Leads.initialStatus s = Leads.initialStatus s'.
Proof.
  unfold Leads.tableKey. intros E.
  apply split_at_dash in E; try apply string_of_uint_digits.
  destruct E as [E1 E2]. split; [apply countToString_inj, E1 | exact E2].
Qed.
End TableKey.

(** The key of the table tells the refresh count and the initial
    status apart: two states give the table the same key exactly when
    they agree on both.  So every bump of the refresh count and every
    change of the initial status mounts a new table. *)
Theorem table_key_injective (s s' : Leads.State) :
  Leads.tableKey s = Leads.tableKey s'
  <-> Leads.refreshTrigger s = Leads.refreshTrigger s'
      /\ Leads.initialStatus s = Leads.initialStatus s'.
Proof.
  split.
  - apply tableKey_parts.
  - unfold Leads.tableKey. intros [-> ->]. reflexivity.
Qed.

(** Deleting the selected leads from the page.  With nothing selected,
    or when the deletion did not succeed, the page stays as it is, the
    dialog open.  When it succeeded the selection is emptied, the
    dialog closed, and the table is mounted anew: its search term, its
    sort and its owner filter are back at their initial values, the
    status filter at the initial status, the page at 1. *)
Theorem leads_bulk_delete_remounts (success : bool) (r : LeadTable.Response)
  (s : Leads.State) :
  (LeadTable.selectedLeads (LeadTable.table (Leads.table s)) = [] ->
   Leads.handleBulkDelete success r s = s)
  /\ (success = false -> Leads.handleBulkDelete success r s = s)
  /\ (LeadTable.selectedLeads (LeadTable.table (Leads.table s)) <> [] ->
      success = true ->
      Leads.refreshTrigger (Leads.handleBulkDelete success r s)
      = S (Leads.refreshTrigger s)
      /\ Leads.showBulkDeleteDialog (Leads.handleBulkDelete success r s) = false
      /\ LeadTable.selectedLeads
           (LeadTable.table (Leads.table (Leads.handleBulkDelete success r s)))
         = []
      /\ LeadTable.searchTerm
           (LeadTable.table (Leads.table (Leads.handleBulkDelete success r s)))
         = ""
      /\ LeadTable.sortField
           (LeadTable.table (Leads.table (Leads.handleBulkDelete success r s)))
         = None
      /\ LeadTable.ownerFilter
           (LeadTable.table (Leads.table (Leads.handleBulkDelete success r s)))
         = "all"
      /\ LeadTable.statusFilter
           (LeadTable.table (Leads.table (Leads.handleBulkDelete success r s)))
         = Leads.initialStatus s
      /\ LeadTable.currentPage
           (LeadTable.table (Leads.table (Leads.handleBulkDelete success r s)))
         = 1).
Proof.
  unfold Leads.handleBulkDelete. split; [| split].
  - intros ->. reflexivity.
  - intros ->. destruct (Nat.eqb _ 0); reflexivity.
  - intros N ->.
    destruct (LeadTable.selectedLeads (LeadTable.table (Leads.table s)))
      as [| x sel] eqn:E; [congruence |].
    cbn [List.length Nat.eqb]. unfold Leads.rerender.
    set (s' := Leads.mkState _ _ _ _).
    destruct (String.eqb_spec (Leads.tableKey s) (Leads.tableKey s'))
      as [K | _].
    + apply tableKey_parts in K. destruct K as [K _].
      simpl in K. lia.
    + cbn [Leads.setTable Leads.refreshTrigger Leads.showBulkDeleteDialog
           Leads.table Leads.initialStatus].
      subst s'.
      cbn [Leads.setTable Leads.refreshTrigger Leads.showBulkDeleteDialog
           Leads.table Leads.initialStatus].
      split; [lia | split; [reflexivity |]].
      destruct r as [| d [e |]]; repeat split.
Qed.

Lemma leads_bulk_delete_remounts_witness :
  LeadTable.selectedLeads (LeadTable.table (Leads.table Samples.leadsPage))
  <> []
  /\ LeadTable.currentPage
       (LeadTable.table
          (Leads.table
             (Leads.handleBulkDelete true LeadTable.Threw Samples.leadsPage)))
     = 1.
Proof.
  assert (N : LeadTable.selectedLeads
                (LeadTable.table (Leads.table Samples.leadsPage)) <> [])
    by discriminate.
  split; [exact N |].
  exact (proj2 (proj2 (proj2 (proj2 (proj2 (proj2 (proj2
           (proj2 (proj2 (leads_bulk_delete_remounts true LeadTable.Threw
                            Samples.leadsPage)) N eq_refl)))))))).
Defined.

(* ================================================================== *)
(** * Beyond the listed properties: deleting an account *)

(** An account is deleted only after both checks for linked records
    came back without a contact and without a lead; when either finds
    one, no deletion is sent, the dialog is closed and the refusal is
    reported.  A check that comes back without data counts as finding
    nothing.  Every request is about the account picked, and with no
    account picked nothing is sent and nothing changes. *)
Theorem account_delete_guarded (o : AccountTable.Replies)
  (p : AccountTable.Page) :
  (forall j, In (AccountTable.DeleteAccount j)
                (fst (AccountTable.handleDelete o p)) ->
     (exists a, AccountTable.accountToDelete p = Some a
                /\ AccountTable.id a = j)
     /\ (exists c l,
           AccountTable.onLinkedContacts o = AccountTable.SelectReplied c
           /\ AccountTable.onLinkedLeads o = AccountTable.SelectReplied l
           /\ AccountTable.nonEmpty c = false
           /\ AccountTable.nonEmpty l = false))
  /\ (forall c l,
        AccountTable.onLinkedContacts o = AccountTable.SelectReplied c ->
        AccountTable.onLinkedLeads o = AccountTable.SelectReplied l ->
        AccountTable.nonEmpty c = true \/ AccountTable.nonEmpty l = true ->
        forall a, AccountTable.accountToDelete p = Some a ->
                  AccountTable.id a <> "" ->
        snd (AccountTable.handleDelete o p)
        = AccountTable.setShowDeleteDialog false
            (AccountTable.toast AccountTable.cannotDelete p))
  /\ (AccountTable.accountToDelete p = None ->
      AccountTable.handleDelete o p = ([], p)).
Proof.
  unfold AccountTable.handleDelete. split; [| split].
  - intros j.
    destruct (AccountTable.accountToDelete p) as [a |]; [| intros []].
    destruct (negb _); [intros [] |].
    destruct (AccountTable.onLinkedContacts o) as [m | c];
      [simpl; intuition discriminate |].
    destruct (AccountTable.onLinkedLeads o) as [m | l];
      [simpl; intuition discriminate |].
    destruct (AccountTable.nonEmpty c) eqn:C; simpl;
      [intuition discriminate |].
    destruct (AccountTable.nonEmpty l) eqn:L; simpl;
      [intuition discriminate |].
    assert (K : In (AccountTable.DeleteAccount j)
                  [AccountTable.SelectLinkedContacts (AccountTable.id a);
                   AccountTable.SelectLinkedLeads (AccountTable.id a);
                   AccountTable.DeleteAccount (AccountTable.id a);
                   AccountTable.LogDelete (AccountTable.id a)] ->
                (exists a0, Some a = Some a0 /\ AccountTable.id a0 = j)
                /\ (exists c0 l0,
                      AccountTable.SelectReplied c = AccountTable.SelectReplied c0
                      /\ AccountTable.SelectReplied l
                         = AccountTable.SelectReplied l0
                      /\ AccountTable.nonEmpty c0 = false
                      /\ AccountTable.nonEmpty l0 = false)).
    { simpl. intros [H | [H | [H | [H | []]]]]; try discriminate.
      injection H as <-. split; [eauto | exists c, l; auto]. }
    destruct (AccountTable.onDeleteAccount o) as [m | [m |]]; simpl;
      [| | destruct (AccountTable.onLogDelete o); simpl];
      intros H; apply K; simpl in *; tauto.
  - intros c l -> -> H a -> N.
    unfold JS.truthyStr. apply String.eqb_neq in N. rewrite N. simpl.
    destruct H as [-> | ->]; [reflexivity | rewrite orb_true_r; reflexivity].
  - intros ->. reflexivity.
Qed.

Lemma account_delete_guarded_witness :
  AccountTable.onLinkedContacts Samples.contactLinked
  = AccountTable.SelectReplied (Some ["c1"])
  /\ AccountTable.id Samples.globex <> ""
  /\ snd (AccountTable.handleDelete Samples.contactLinked
            Samples.accountPicked)
     = AccountTable.setShowDeleteDialog false
         (AccountTable.toast AccountTable.cannotDelete Samples.accountPicked).
Proof.
  assert (N : AccountTable.id Samples.globex <> "") by discriminate.
  split; [reflexivity | split; [exact N |]].
  exact (proj1 (proj2 (account_delete_guarded Samples.contactLinked
                         Samples.accountPicked))
           (Some ["c1"]) (Some []) eq_refl eq_refl
           (or_introl eq_refl) Samples.globex eq_refl N).
Defined.
